(** * fb_tux: drawing on a 640x480 XRGB8888 linear framebuffer

    A shallow embedding of [source/linux/fb_tux.c] and the properties of its
    pixel primitives, compositor, renderers and request dispatch.

    Conventions of the embedding.
    - The mapped buffer [unsigned char *fb] is only ever accessed through the
      cast [(uint32_t * )fb] or through [memset]; it is modelled as the list of
      its 32-bit words ([list Z], one word per pixel, row-major).  A word is
      zero exactly when its four bytes are zero.
    - An access outside an array is undefined behaviour in C; here it is the
      error [None].  Every function that touches memory therefore lives in the
      [option] monad, and "never writes outside the surface" is the statement
      that it returns [Some].
    - [uint32_t] arithmetic is on [Z] with the wrap-around [wrap32] written
      out; [int] arithmetic is on [Z] with C's truncating [Z.quot] and [Z.rem]
      (signed overflow is undefined in C and does not occur for the values the
      program computes).  The [double] comparisons of the vector Tux are
      IEEE-754 binary64 operations on primitive floats.
    - The image of [logo_tux_data.h] and the range of [long] are parameters
      ([L] and [LONG_MAX]).
    - The operating system is a record of what the device nodes answer, the
      device buffer, the console mode and a log of the system calls made.
    - [printf], [fprintf] and [perror] only write to the standard streams,
      and the two [ioctl]s that read the screen information only feed
      [printf]; they are left out.
    - The font table is as the source gives it: two glyphs with
      initializers, the other 254 zero-filled. *)

From Stdlib Require Import ZArith Lia String Ascii PrimFloat.
From Stdlib Require Uint63.
From stdpp Require Import base tactics option list.

Local Open Scope Z_scope.

(** ** Constants *)

Definition FB_WIDTH : Z := 640.
Definition FB_HEIGHT : Z := 480.
Definition FB_BPP : Z := 4.
Definition FB_SIZE : Z := FB_WIDTH * FB_HEIGHT * FB_BPP.

(** Number of 32-bit words of the mapped buffer. *)
Definition FB_PIXELS : Z := FB_WIDTH * FB_HEIGHT.

(** ** Machine arithmetic *)

Definition wrap32 (z : Z) : Z := z mod 2 ^ 32.
Definition wrap8 (z : Z) : Z := z mod 2 ^ 8.

(** [a << n] on [uint32_t]. *)
Definition shl32 (a n : Z) : Z := wrap32 (Z.shiftl a n).

Definition is_u32 (z : Z) : Prop := 0 <= z < 2 ^ 32.

(** ** Memory *)

(** [((uint32_t * )fb)[i] = v]. *)
Definition store32 (fb : list Z) (i v : Z) : option (list Z) :=
  if bool_decide (0 <= i < Z.of_nat (length fb))
  then Some (<[Z.to_nat i := v]> fb)
  else None.

(** [a[i]] for an array of bytes or words; a negative index reads outside. *)
Definition array_get (a : list Z) (i : Z) : option Z :=
  if bool_decide (0 <= i) then a !! Z.to_nat i else None.

(** The word that [memset] leaves where it wrote the byte [c] four times. *)
Definition splat (c : Z) : Z :=
  let b := wrap8 c in
  Z.lor (Z.lor (Z.lor (Z.shiftl b 24) (Z.shiftl b 16)) (Z.shiftl b 8)) b.

(** [memset(fb, c, n)] for a byte count [n] that is a multiple of the word
    size (the program only passes [FB_SIZE]). *)
Definition memset (fb : list Z) (c n : Z) : option (list Z) :=
  if bool_decide (0 <= n /\ n mod FB_BPP = 0 /\ n <= FB_BPP * Z.of_nat (length fb))
  then Some (replicate (Z.to_nat (n / FB_BPP)) (splat c)
             ++ drop (Z.to_nat (n / FB_BPP)) fb)
  else None.

(** The pixel at column [x], row [y]. *)
Definition pixel (fb : list Z) (x y : Z) : option Z :=
  array_get fb (y * FB_WIDTH + x).

(** ** Loops *)

(** What an iteration that may [break] leaves behind. *)
Inductive step (S : Type) : Type :=
  | Continue (s : S)
  | Break (s : S).
Arguments Continue {S} s.
Arguments Break {S} s.

(** [n] iterations at most, the counter starting at [i], stopping at the
    first [Break]. *)
Fixpoint for_break_from {S : Type} (n : nat) (i : Z)
    (body : Z -> S -> option (step S)) (s : S) : option S :=
  match n with
  | O => Some s
  | Datatypes.S n' =>
      r ← body i s;
      match r with
      | Break s' => Some s'
      | Continue s' => for_break_from n' (i + 1) body s'
      end
  end.

(** [for (int i = lo; i < hi; i++) body], where [body] may [break]. *)
Definition for_break {S : Type} (lo hi : Z)
    (body : Z -> S -> option (step S)) (s : S) : option S :=
  for_break_from (Z.to_nat (hi - lo)) lo body s.

(** [n] iterations of [body], the counter starting at [i]. *)
Fixpoint for_from {S : Type} (n : nat) (i : Z)
    (body : Z -> S -> option S) (s : S) : option S :=
  match n with
  | O => Some s
  | Datatypes.S n' => s' ← body i s; for_from n' (i + 1) body s'
  end.

(** [for (int i = lo; i < hi; i++) body]. *)
Definition for_ {S : Type} (lo hi : Z) (body : Z -> S -> option S) (s : S)
    : option S :=
  for_from (Z.to_nat (hi - lo)) lo body s.

(** ** Pixel drawing primitives *)

Definition put_pixel (fb : list Z) (x y color : Z) : option (list Z) :=
  if (x <? 0) || (x >=? FB_WIDTH) || (y <? 0) || (y >=? FB_HEIGHT)
  then Some fb
  else store32 fb (y * FB_WIDTH + x) color.

Definition draw_rect (fb : list Z) (x y w h color : Z) : option (list Z) :=
  for_ 0 h (fun dy fb =>
    for_ 0 w (fun dx fb => put_pixel fb (x + dx) (y + dy) color) fb) fb.

(** ** Alpha blending (Porter-Duff "over") *)

Definition blend_over (src dst : Z) : Z :=
  let sa := Z.land (Z.shiftr src 24) 255 in
  let sr := Z.land (Z.shiftr src 16) 255 in
  let sg := Z.land (Z.shiftr src 8) 255 in
  let sb := Z.land (Z.shiftr src 0) 255 in
  let da := Z.land (Z.shiftr dst 24) 255 in
  let dr := Z.land (Z.shiftr dst 16) 255 in
  let dg := Z.land (Z.shiftr dst 8) 255 in
  let db := Z.land (Z.shiftr dst 0) 255 in
  let inv_sa := wrap32 (255 - sa) in
  let ra := wrap32 (sa + wrap32 (da * inv_sa) / 255) in
  let rr := wrap32 (sr + wrap32 (dr * inv_sa) / 255) in
  let rg := wrap32 (sg + wrap32 (dg * inv_sa) / 255) in
  let rb := wrap32 (sb + wrap32 (db * inv_sa) / 255) in
  Z.lor (Z.lor (Z.lor (shl32 ra 24) (shl32 rr 16)) (shl32 rg 8)) rb.

(** Channel extraction from a packed ARGB word. *)
Definition chan_a (c : Z) : Z := Z.land (Z.shiftr c 24) 255.
Definition chan_r (c : Z) : Z := Z.land (Z.shiftr c 16) 255.
Definition chan_g (c : Z) : Z := Z.land (Z.shiftr c 8) 255.
Definition chan_b (c : Z) : Z := Z.land c 255.

(** The value the blend computes for one channel before packing. *)
Definition over_channel (s d sa : Z) : Z := s + Z.quot (d * (255 - sa)) 255.

(** ** Test patterns *)

Definition gradient_color (x y : Z) : Z :=
  let r := wrap8 (Z.quot (x * 255) FB_WIDTH) in
  let g := wrap8 (Z.quot (y * 255) FB_HEIGHT) in
  let b := wrap8 (Z.quot ((x + y) * 127) (FB_WIDTH + FB_HEIGHT)) in
  Z.lor (Z.lor (Z.lor 0xFF000000 (Z.shiftl r 16)) (Z.shiftl g 8)) b.

Definition draw_gradient_rgb (fb : list Z) : option (list Z) :=
  for_ 0 FB_HEIGHT (fun y fb =>
    for_ 0 FB_WIDTH (fun x fb => put_pixel fb x y (gradient_color x y)) fb) fb.

Definition colors : list Z :=
  [0xFFFFFFFF; 0xFFFFFF00; 0xFF00FFFF; 0xFF00FF00;
   0xFFFF00FF; 0xFFFF0000; 0xFF0000FF; 0xFF000000].

Definition bar_w : Z := Z.quot FB_WIDTH 8.

Definition draw_color_bars (fb : list Z) : option (list Z) :=
  for_ 0 8 (fun i fb =>
    c ← array_get colors i;
    draw_rect fb (i * bar_w) 0 bar_w FB_HEIGHT c) fb.

(** ** The boot logo *)

(** The contents of [logo_tux_data.h], which the program includes: an indexed
    image with its colour look-up table of RGB byte triples. *)
Record logo_tux_data : Type := {
  logo_linux_clut224_width : Z;
  logo_linux_clut224_height : Z;
  logo_linux_clut224_clut : list Z;
  logo_linux_clut224_data : list Z
}.

(** The ARGB colour of the source pixel [(px, py)] of the logo. *)
Definition logo_color (L : logo_tux_data) (px py : Z) : option Z :=
  idx ← array_get (logo_linux_clut224_data L)
                  (py * logo_linux_clut224_width L + px);
  r ← array_get (logo_linux_clut224_clut L) (idx * 3 + 0);
  g ← array_get (logo_linux_clut224_clut L) (idx * 3 + 1);
  b ← array_get (logo_linux_clut224_clut L) (idx * 3 + 2);
  Some (Z.lor (Z.lor (Z.lor 0xFF000000 (Z.shiftl r 16)) (Z.shiftl g 8)) b).

Definition draw_official_logo (L : logo_tux_data) (fb : list Z)
    (center_x center_y : Z) : option (list Z) :=
  let x := center_x - Z.quot (logo_linux_clut224_width L) 2 in
  let y := center_y - Z.quot (logo_linux_clut224_height L) 2 in
  for_ 0 (logo_linux_clut224_height L) (fun py fb =>
    for_ 0 (logo_linux_clut224_width L) (fun px fb =>
      color ← logo_color L px py;
      put_pixel fb (x + px) (y + py) color) fb) fb.

(** The loop of [draw_multiple_logos], over the callee [draw] it hands each
    centre to. *)
Definition logos_loop {S : Type} (L : logo_tux_data)
    (draw : S -> Z -> Z -> option S) (count : Z) (s : S) : option S :=
  let logo_w := logo_linux_clut224_width L in
  let logo_h := logo_linux_clut224_height L in
  let margin := 20 in
  let cols := 4 in
  let start_x := Z.quot (FB_WIDTH - (logo_w * cols + margin * (cols - 1))) 2 in
  let start_y := margin in
  for_break 0 count (fun i s =>
    let row := Z.quot i cols in
    let col := Z.rem i cols in
    let x := start_x + col * (logo_w + margin) in
    let y := start_y + row * (logo_h + margin) in
    if y + logo_h >? FB_HEIGHT then Some (Break s)
    else s' ← draw s (x + Z.quot logo_w 2) (y + Z.quot logo_h 2);
         Some (Continue s')) s.

Definition draw_multiple_logos (L : logo_tux_data) (fb : list Z) (count : Z)
    : option (list Z) :=
  fb ← memset fb 0 FB_SIZE;
  logos_loop L (draw_official_logo L) count fb.

(** The same loop run over a recorder instead of the blitter: the centres
    [draw_official_logo] is called with, in call order. *)
Definition logo_calls (L : logo_tux_data) (count : Z) : list (Z * Z) :=
  default [] (logos_loop L (fun acc cx cy => Some (acc ++ [(cx, cy)])) count []).

(** ** The vector Tux *)

(** An [int] (here always a square, so non-negative) converted to [double]. *)
Definition to_double (z : Z) : float := PrimFloat.of_uint63 (Uint63.of_Z z).

(** [p / a + q / b <= 1.0] in IEEE-754 binary64, as the C expression
    [p/a + q/b <= 1.0] with [int] numerators and [double] constants. *)
Definition in_ellipse (p : Z) (a : float) (q : Z) (b : float) : bool :=
  PrimFloat.leb
    (PrimFloat.add (PrimFloat.div (to_double p) a) (PrimFloat.div (to_double q) b))
    1%float.

Definition draw_vector_tux (fb : list Z) : option (list Z) :=
  let cx := Z.quot FB_WIDTH 2 in
  let cy := Z.quot FB_HEIGHT 2 in
  (* body *)
  fb ← for_ (-80) (80 + 1) (fun y fb =>
    for_ (-50) (50 + 1) (fun x fb =>
      if in_ellipse (x * x) 2500%float (y * y) 6400%float
      then put_pixel fb (cx + x) (cy + y) 0xFF000000
      else Some fb) fb) fb;
  (* belly *)
  fb ← for_ (-40) (60 + 1) (fun y fb =>
    for_ (-30) (30 + 1) (fun x fb =>
      if in_ellipse (x * x) 900%float (y * y) 2500%float
      then put_pixel fb (cx + x) (cy + y + 10) 0xFFFFFFFF
      else Some fb) fb) fb;
  (* eyes *)
  fb ← for_ (-8) (8 + 1) (fun dy fb =>
    for_ (-8) (8 + 1) (fun dx fb =>
      fb ← (if dx * dx + dy * dy <=? 64
            then fb ← put_pixel fb (cx - 20 + dx) (cy - 30 + dy) 0xFFFFFFFF;
                 put_pixel fb (cx + 20 + dx) (cy - 30 + dy) 0xFFFFFFFF
            else Some fb);
      if dx * dx + dy * dy <=? 16
      then fb ← put_pixel fb (cx - 20 + dx) (cy - 28 + dy) 0xFF000000;
           put_pixel fb (cx + 20 + dx) (cy - 28 + dy) 0xFF000000
      else Some fb) fb) fb;
  (* beak *)
  fb ← for_ 0 10 (fun y fb =>
    for_ (-8 + Z.quot y 2) (8 - Z.quot y 2 + 1) (fun x fb =>
      put_pixel fb (cx + x) (cy - 10 + y) 0xFFFFA500) fb) fb;
  (* feet *)
  fb ← for_ 0 2 (fun foot fb =>
    let foot_x := cx + (if foot =? 0 then -25 else 25) in
    let foot_y := cy + 75 in
    fb ← for_ 0 15 (fun y fb =>
      for_ (-12) (12 + 1) (fun x fb =>
        put_pixel fb (foot_x + x) (foot_y + y) 0xFFFFA500) fb) fb;
    for_ 0 3 (fun toe fb =>
      let toe_x := foot_x + (toe - 1) * 10 in
      for_ 0 20 (fun y fb =>
        for_ (-3) (3 + 1) (fun x fb =>
          put_pixel fb (toe_x + x) (foot_y + 15 + y) 0xFFFFA500) fb) fb) fb) fb;
  (* wings *)
  for_ 0 2 (fun wing fb =>
    let wing_x := cx + (if wing =? 0 then -50 else 50) in
    let dir := if wing =? 0 then -1 else 1 in
    for_ (-30) (30 + 1) (fun y fb =>
      for_ 0 25 (fun x fb =>
        if in_ellipse (y * y) 900%float (x * x) 625%float
        then put_pixel fb (wing_x + dir * x) (cy + y) 0xFF000000
        else Some fb) fb) fb) fb.

(** ** The C library's number parsing *)

Local Open Scope string_scope.
Local Open Scope Z_scope.

Definition isspace (c : ascii) : bool :=
  let n := Z.of_N (N_of_ascii c) in
  (n =? 32) || ((9 <=? n) && (n <=? 13)).

(** The value of a character as a digit, letters counting from ten. *)
Definition digit_value (c : ascii) : option Z :=
  let n := Z.of_N (N_of_ascii c) in
  if (48 <=? n) && (n <=? 57) then Some (n - 48)
  else if (97 <=? n) && (n <=? 122) then Some (n - 97 + 10)
  else if (65 <=? n) && (n <=? 90) then Some (n - 65 + 10)
  else None.

Definition digit_in (base : Z) (c : ascii) : option Z :=
  match digit_value c with
  | Some d => if d <? base then Some d else None
  | None => None
  end.

Fixpoint skip_space (s : string) : string :=
  match s with
  | String c r => if isspace c then skip_space r else s
  | EmptyString => s
  end.

(** The longest run of digits of [base] at the head of [s], accumulated onto
    [acc]. *)
Fixpoint digits (base : Z) (s : string) (acc : Z) : Z :=
  match s with
  | String c r =>
      match digit_in base c with
      | Some d => digits base r (acc * base + d)
      | None => acc
      end
  | EmptyString => acc
  end.

(** A [0x] or [0X] prefix is skipped in base 16 when a hex digit follows. *)
Definition skip_0x (base : Z) (s : string) : string :=
  match s with
  | String "0" (String x (String d r)) =>
      if (base =? 16) && (Ascii.eqb x "x" || Ascii.eqb x "X")
         && bool_decide (is_Some (digit_in 16 d))
      then String d r else s
  | _ => s
  end.

(** [strtol(s, NULL, base)] for [base] 10 or 16, on a platform whose [long]
    ranges over [-LONG_MAX - 1 .. LONG_MAX]: white space, an optional sign, an
    optional [0x], then the longest run of digits; no digits give 0, and a
    value out of range is clamped. *)
Definition strtol (LONG_MAX : Z) (s : string) (base : Z) : Z :=
  let s := skip_space s in
  let '(neg, s) :=
    match s with
    | String "-" r => (true, r)
    | String "+" r => (false, r)
    | _ => (false, s)
    end in
  let mag := digits base (skip_0x base s) 0 in
  if neg then (if mag >? LONG_MAX + 1 then - LONG_MAX - 1 else - mag)
  else (if mag >? LONG_MAX then LONG_MAX else mag).

(** Conversion of a [long] to [int]. *)
Definition to_int (z : Z) : Z := (z + 2 ^ 31) mod 2 ^ 32 - 2 ^ 31.

Definition atoi (LONG_MAX : Z) (s : string) : Z :=
  to_int (strtol LONG_MAX s 10).

(** Every character is a hex digit and there is at least one. *)
Fixpoint all_hex (s : string) : bool :=
  match s with
  | String c r => bool_decide (is_Some (digit_in 16 c)) && all_hex r
  | EmptyString => true
  end.

Definition is_hex_number (s : string) : bool :=
  negb (String.eqb s "") && all_hex s.

(** No hex digit where [strtol] starts to read digits. *)
Definition no_hex_prefix (s : string) : bool :=
  let s := skip_space s in
  let s := match s with
           | String "-" r => r
           | String "+" r => r
           | _ => s
           end in
  match s with
  | String c _ => negb (bool_decide (is_Some (digit_in 16 c)))
  | EmptyString => true
  end.

(** ** The device, the console and the process *)

Inductive kd_mode : Type := KD_TEXT | KD_GRAPHICS.

(** The three states of the pointer [fb_mmap_ptr]. *)
Inductive mapping : Type := NULL | MAP_FAILED | MAPPED.

(** System calls, as they are logged. *)
Inductive event : Type :=
  | Open (path : string) (fd : Z)
  | Mmap (ok : bool)
  | KdSetMode (fd : Z) (mode : kd_mode) (ok : bool)
  | Present (fd : Z)
  | Munmap
  | Close (fd : Z).

(** The world the program runs in and the program's global variables.
    Descriptor numbers are only ever compared with 0. *)
Record machine : Type := {
  can_open : string -> bool;  (* the device nodes [open] succeeds on *)
  can_map : bool;             (* whether [mmap] of the device succeeds *)
  can_set_mode : Z -> kd_mode -> bool;
                              (* whether [ioctl(fd, KDSETMODE, mode)] succeeds *)
  vram : list Z;              (* the device buffer, one word per pixel *)
  console : kd_mode;
  next_fd : Z;
  fb_fd : Z;
  tty_fd : Z;
  fb_mmap_ptr : mapping;
  trace : list event
}.

Definition log (e : event) (m : machine) : machine :=
  {| can_open := can_open m; can_map := can_map m;
     can_set_mode := can_set_mode m; vram := vram m;
     console := console m; next_fd := next_fd m; fb_fd := fb_fd m;
     tty_fd := tty_fd m; fb_mmap_ptr := fb_mmap_ptr m;
     trace := trace m ++ [e] |}.

Definition set_vram (fb : list Z) (m : machine) : machine :=
  {| can_open := can_open m; can_map := can_map m;
     can_set_mode := can_set_mode m; vram := fb;
     console := console m; next_fd := next_fd m; fb_fd := fb_fd m;
     tty_fd := tty_fd m; fb_mmap_ptr := fb_mmap_ptr m; trace := trace m |}.

Definition set_console (k : kd_mode) (m : machine) : machine :=
  {| can_open := can_open m; can_map := can_map m;
     can_set_mode := can_set_mode m; vram := vram m;
     console := k; next_fd := next_fd m; fb_fd := fb_fd m;
     tty_fd := tty_fd m; fb_mmap_ptr := fb_mmap_ptr m; trace := trace m |}.

Definition set_next_fd (n : Z) (m : machine) : machine :=
  {| can_open := can_open m; can_map := can_map m;
     can_set_mode := can_set_mode m; vram := vram m;
     console := console m; next_fd := n; fb_fd := fb_fd m;
     tty_fd := tty_fd m; fb_mmap_ptr := fb_mmap_ptr m; trace := trace m |}.

Definition set_fb_fd (fd : Z) (m : machine) : machine :=
  {| can_open := can_open m; can_map := can_map m;
     can_set_mode := can_set_mode m; vram := vram m;
     console := console m; next_fd := next_fd m; fb_fd := fd;
     tty_fd := tty_fd m; fb_mmap_ptr := fb_mmap_ptr m; trace := trace m |}.

Definition set_tty_fd (fd : Z) (m : machine) : machine :=
  {| can_open := can_open m; can_map := can_map m;
     can_set_mode := can_set_mode m; vram := vram m;
     console := console m; next_fd := next_fd m; fb_fd := fb_fd m;
     tty_fd := fd; fb_mmap_ptr := fb_mmap_ptr m; trace := trace m |}.

Definition set_fb_mmap_ptr (p : mapping) (m : machine) : machine :=
  {| can_open := can_open m; can_map := can_map m;
     can_set_mode := can_set_mode m; vram := vram m;
     console := console m; next_fd := next_fd m; fb_fd := fb_fd m;
     tty_fd := tty_fd m; fb_mmap_ptr := p; trace := trace m |}.

(** [open(path, O_RDWR)]: a fresh non-negative descriptor, or -1. *)
Definition sys_open (path : string) (m : machine) : Z * machine :=
  if can_open m path
  then let fd := Z.max 0 (next_fd m) in
       (fd, log (Open path fd) (set_next_fd (fd + 1) m))
  else (-1, log (Open path (-1)) m).

Definition sys_close (fd : Z) (m : machine) : machine := log (Close fd) m.

(** [mmap(NULL, FB_SIZE, PROT_READ | PROT_WRITE, MAP_SHARED, fb_fd, 0)]. *)
Definition sys_mmap (m : machine) : mapping * machine :=
  if can_map m then (MAPPED, log (Mmap true) m)
  else (MAP_FAILED, log (Mmap false) m).

Definition sys_munmap (m : machine) : machine := log Munmap m.

(** [ioctl(fd, KDSETMODE, mode)]: the call may fail (the descriptor is not a
    virtual terminal, or the process may not switch it); the program ignores
    its result, and a failed call leaves the console mode as it was. *)
Definition kd_set_mode (fd : Z) (k : kd_mode) (m : machine) : machine :=
  if can_set_mode m fd k
  then log (KdSetMode fd k true) (set_console k m)
  else log (KdSetMode fd k false) m.

Definition fbcon_disable (m : machine) : machine :=
  let '(fd, m) := sys_open "/dev/tty0" m in
  let m := set_tty_fd fd m in
  let m := if tty_fd m <? 0
           then let '(fd, m) := sys_open "/dev/console" m in set_tty_fd fd m
           else m in
  if tty_fd m >=? 0 then kd_set_mode (tty_fd m) KD_GRAPHICS m else m.

Definition fbcon_restore (m : machine) : machine :=
  if tty_fd m >=? 0
  then let m := kd_set_mode (tty_fd m) KD_TEXT m in
       let m := sys_close (tty_fd m) m in
       set_tty_fd (-1) m
  else m.

(** The [msync], [fsync] and the three [ioctl]s of the flush are one logged
    event; none of them touches the pixels. *)
Definition fb_flush (m : machine) : machine :=
  if (fb_fd m <? 0)
  then m
  else match fb_mmap_ptr m with
       | MAPPED => log (Present (fb_fd m)) m
       | _ => m
       end.

(** ** Main *)

(** What follows the rendering: flush, unmap, close. *)
Definition finish (fb : list Z) (m : machine) : option (Z * machine) :=
  let m := set_vram fb m in
  let m := fb_flush m in
  let m := sys_munmap m in
  let m := sys_close (fb_fd m) m in
  let m := set_fb_fd (-1) m in
  Some (0, m).

(** The "render based on mode" chain of [main], entered with the device
    mapped; its last branch is the unknown request. *)
Definition render_mode (L : logo_tux_data) (LONG_MAX : Z) (argv : list string)
    (mode : string) (m : machine) : option (Z * machine) :=
  let argc := Z.of_nat (length argv) in
  if String.eqb mode "logo" then
    let count := if argc >? 2 then atoi LONG_MAX (nth 2 argv "") else 1 in
    if count =? 1 then
      fb ← memset (vram m) 0 FB_SIZE;
      fb ← draw_official_logo L fb (Z.quot FB_WIDTH 2) (Z.quot FB_HEIGHT 2);
      finish fb m
    else
      fb ← draw_multiple_logos L (vram m) count;
      finish fb m
  else if String.eqb mode "tux" then
    fb ← memset (vram m) 0x40 FB_SIZE;
    fb ← draw_vector_tux fb;
    finish fb m
  else if String.eqb mode "color" then
    fb ← draw_color_bars (vram m);
    finish fb m
  else if String.eqb mode "gradient" then
    fb ← draw_gradient_rgb (vram m);
    finish fb m
  else if String.eqb mode "clear" then
    fb ← memset (vram m) 0 FB_SIZE;
    finish fb m
  else if String.eqb mode "fill" then
    let color := 0xFF000000 in
    let color :=
      if argc >? 2
      then Z.lor 0xFF000000 (wrap32 (strtol LONG_MAX (nth 2 argv "") 16))
      else color in
    fb ← for_ 0 (FB_WIDTH * FB_HEIGHT) (fun i fb => store32 fb i color) (vram m);
    finish fb m
  else
    let m := sys_munmap m in
    let m := sys_close (fb_fd m) m in
    Some (1, m).

(** [main(argc, argv)] with [argc = length argv]: the exit status and the
    machine it leaves, or [None] if it faults. *)
Definition main (L : logo_tux_data) (LONG_MAX : Z) (argv : list string)
    (m : machine) : option (Z * machine) :=
  let argc := Z.of_nat (length argv) in
  let mode := if argc >? 1 then nth 1 argv "" else "logo" in
  if String.eqb mode "text" then Some (0, fbcon_restore m)
  else
    let '(fd, m) := sys_open "/dev/fb0" m in
    let m := set_fb_fd fd m in
    if fb_fd m <? 0 then Some (1, m)
    else
      let '(fb, m) := sys_mmap m in
      match fb with
      | MAP_FAILED => Some (1, sys_close (fb_fd m) m)
      | _ =>
        let m := set_fb_mmap_ptr fb m in
        let m := fbcon_disable m in
        render_mode L LONG_MAX argv mode m
      end.

(** The requests the dispatch knows. *)
Definition known_modes : list string :=
  ["logo"; "tux"; "color"; "gradient"; "clear"; "fill"; "text"].

(** The request a command line selects. *)
Definition mode_of (argv : list string) : string :=
  if Z.of_nat (length argv) >? 1 then nth 1 argv "" else "logo".

(** A machine at process start: nothing open, nothing mapped. *)
Definition boot (openable : string -> bool) (mappable : bool)
    (settable : Z -> kd_mode -> bool)
    (fb : list Z) (k : kd_mode) : machine :=
  {| can_open := openable; can_map := mappable; can_set_mode := settable;
     vram := fb; console := k;
     next_fd := 3; fb_fd := -1; tty_fd := -1; fb_mmap_ptr := NULL;
     trace := [] |}.

(** ** The compositor's blit and the text primitives *)

(** [blit_rgba(fb, dx, dy, src, sw, sh)]: the source is [sw * sh] pixels of
    four bytes R, G, B, A; the source pixel is read before the destination
    is tested against the surface. *)
Definition blit_rgba (fb : list Z) (dx dy : Z) (src : list Z) (sw sh : Z)
    : option (list Z) :=
  for_ 0 sh (fun y fb =>
    for_ 0 sw (fun x fb =>
      let sx_pos := (y * sw + x) * 4 in
      a ← array_get src (sx_pos + 3);
      r ← array_get src (sx_pos + 0);
      g ← array_get src (sx_pos + 1);
      b ← array_get src (sx_pos + 2);
      let src_px :=
        Z.lor (Z.lor (Z.lor (shl32 a 24) (shl32 r 16)) (shl32 g 8)) (shl32 b 0) in
      let fx := dx + x in
      let fy := dy + y in
      if (fx >=? 0) && (fx <? FB_WIDTH) && (fy >=? 0) && (fy <? FB_HEIGHT)
      then d ← array_get fb (fy * FB_WIDTH + fx);
           store32 fb (fy * FB_WIDTH + fx) (blend_over src_px d)
      else Some fb) fb) fb.

(** The sixteen zero rows of a glyph without an initializer. *)
Definition no_glyph : list Z := replicate 16 0.

(** The glyph of the space, written out in the source: sixteen bytes 0x00. *)
Definition glyph_space : list Z := replicate 16 0x00.

(** [font_8x16[256][16]]: the table has initializers for the space and for
    [A] only; C zero-fills the other 254 glyphs. *)
Definition font_8x16 : list (list Z) :=
  replicate 32 no_glyph
  ++ [glyph_space]
  ++ replicate 32 no_glyph
  ++ [[0x00; 0x00; 0x10; 0x28; 0x28; 0x44; 0x44; 0x7C;
       0x44; 0x82; 0x82; 0x82; 0x00; 0x00; 0x00; 0x00]]
  ++ replicate 190 no_glyph.

(** [draw_char(fb, x, y, c, fg, bg)]; [(unsigned char)c] is the code of the
    character. *)
Definition draw_char (fb : list Z) (x y : Z) (c : ascii) (fg bg : Z)
    : option (list Z) :=
  glyph ← font_8x16 !! nat_of_ascii c;
  for_ 0 16 (fun row fb =>
    bits ← array_get glyph row;
    for_ 0 8 (fun col fb =>
      let color := if Z.land bits (Z.shiftr 0x80 col) =? 0 then bg else fg in
      put_pixel fb (x + col) (y + row) color) fb) fb.

(** [draw_string(fb, x, y, str, fg, bg)]: the loop ends at the first NUL. *)
Fixpoint draw_string (fb : list Z) (x y : Z) (str : string) (fg bg : Z)
    : option (list Z) :=
  match str with
  | EmptyString => Some fb
  | String c r =>
      if Ascii.eqb c Ascii.zero then Some fb
      else fb ← draw_char fb x y c fg bg;
           draw_string fb (x + 8) y r fg bg
  end.

(** * Vocabulary of the statements *)

Local Open Scope list_scope.

(** The surface invariant: the buffer holds exactly [FB_WIDTH * FB_HEIGHT]
    words. *)
Definition surface (fb : list Z) : Prop :=
  length fb = Z.to_nat FB_PIXELS.

(** The guard of [put_pixel], as a proposition. *)
Definition on_surface (x y : Z) : Prop :=
  0 <= x < FB_WIDTH /\ 0 <= y < FB_HEIGHT.

(** The packing [(a << 24) | (r << 16) | (g << 8) | b] of the blend. *)
Definition pack (a r g b : Z) : Z :=
  Z.lor (Z.lor (Z.lor (shl32 a 24) (shl32 r 16)) (shl32 g 8)) b.

(** The blank surface, used to instantiate the theorems. *)
Definition blank : list Z := replicate (Z.to_nat FB_PIXELS) 0.

(** What the program takes for granted about the included image: the index
    buffer covers the image, every index has its triple in the table, and the
    table holds bytes. *)
Definition logo_ok (L : logo_tux_data) : Prop :=
  0 <= logo_linux_clut224_width L /\
  0 <= logo_linux_clut224_height L /\
  logo_linux_clut224_width L * logo_linux_clut224_height L
    <= Z.of_nat (length (logo_linux_clut224_data L)) /\
  Forall (fun idx => 0 <= idx /\
            idx * 3 + 2 < Z.of_nat (length (logo_linux_clut224_clut L)))
         (logo_linux_clut224_data L) /\
  Forall (fun v => 0 <= v < 256) (logo_linux_clut224_clut L).

(** A two-by-two checkerboard with a two-entry palette, to instantiate the
    theorems about the logo. *)
Definition tiny_logo : logo_tux_data :=
  {| logo_linux_clut224_width := 2;
     logo_linux_clut224_height := 2;
     logo_linux_clut224_clut := [0; 0; 0; 255; 255; 255];
     logo_linux_clut224_data := [0; 1; 1; 0] |}.

(** A drawing step that never faults on a surface and leaves a surface. *)
Definition safe (f : list Z -> option (list Z)) : Prop :=
  forall fb, surface fb -> exists fb', f fb = Some fb' /\ surface fb'.

(** The rows of logos that fit under the top margin: row [r] fits when
    [margin + r * (h + margin) + h <= FB_HEIGHT]. *)
Definition rows_fit (L : logo_tux_data) : Z :=
  FB_HEIGHT / (logo_linux_clut224_height L + 20).

(** The number of copies the loop places when asked for [count]. *)
Definition placed (L : logo_tux_data) (count : Z) : Z :=
  Z.min (Z.max 0 count) (4 * rows_fit L).

(** The left edge of the grid: [start_x] of [draw_multiple_logos]. *)
Definition grid_x (L : logo_tux_data) : Z :=
  Z.quot (FB_WIDTH - (logo_linux_clut224_width L * 4 + 20 * (4 - 1))) 2.

(** The left edge of the [i]-th copy, in column [i mod 4]. *)
Definition tile_x (L : logo_tux_data) (i : Z) : Z :=
  grid_x L + (i mod 4) * (logo_linux_clut224_width L + 20).

(** The top edge of the [i]-th copy, in row [i / 4]. *)
Definition tile_y (L : logo_tux_data) (i : Z) : Z :=
  20 + (i / 4) * (logo_linux_clut224_height L + 20).

(** The surface pixel [(px, py)] lies under the [i]-th copy. *)
Definition in_tile (L : logo_tux_data) (i px py : Z) : Prop :=
  tile_x L i <= px < tile_x L i + logo_linux_clut224_width L /\
  tile_y L i <= py < tile_y L i + logo_linux_clut224_height L.

(** The centre handed to [draw_official_logo] for the [i]-th copy. *)
Definition tile_centre (L : logo_tux_data) (i : Z) : Z * Z :=
  (tile_x L i + Z.quot (logo_linux_clut224_width L) 2,
   tile_y L i + Z.quot (logo_linux_clut224_height L) 2).

(** Blitting the logo at each centre of a list, in order. *)
Definition blit_all (L : logo_tux_data) (cs : list (Z * Z)) (fb : list Z)
    : option (list Z) :=
  foldl (fun acc c => t ← acc; draw_official_logo L t c.1 c.2) (Some fb) cs.

(** An event that is neither a failed open of the framebuffer device nor a
    failed mapping. *)
Definition quiet (e : event) : Prop :=
  e <> Open "/dev/fb0" (-1) /\ e <> Mmap false.

(** [m'] is [m] after the system calls [evs], the pixels untouched. *)
Definition steps (m m' : machine) (evs : list event) : Prop :=
  trace m' = trace m ++ evs /\ vram m' = vram m.

(** What a successful rendering leaves: status 0, only quiet events, and the
    surface [fb] in the device. *)
Definition rendered (m : machine) (r : option (Z * machine)) (fb : list Z)
    : Prop :=
  exists m' evs, r = Some (0, m') /\ trace m' = trace m ++ evs /\
    Forall quiet evs /\ vram m' = fb /\ surface fb.

(** The machine with which [main] enters the dispatch. *)
Definition acquired (m : machine) : machine :=
  let r := sys_open "/dev/fb0" m in
  fbcon_disable
    (set_fb_mmap_ptr MAPPED (sys_mmap (set_fb_fd r.1 r.2)).2).

(** A machine on which every device opens and maps, over a blank surface. *)
Definition good_machine : machine :=
  boot (fun _ => true) true (fun _ _ => true) blank KD_TEXT.

(** The colour the [fill] request writes. *)
Definition fill_color (LONG_MAX : Z) (argv : list string) : Z :=
  if Z.of_nat (length argv) >? 2
  then Z.lor 0xFF000000 (wrap32 (strtol LONG_MAX (nth 2 argv "") 16))
  else 0xFF000000.

(** What [blit_rgba] takes for granted about its source: four bytes for each
    of the [sw * sh] pixels. *)
Definition rgba_ok (src : list Z) (sw sh : Z) : Prop :=
  0 <= sw /\ 0 <= sh /\ sw * sh * 4 <= Z.of_nat (length src) /\
  Forall (fun v => 0 <= v < 256) src.

(** The byte [k] of the source pixel [(x, y)], 0 outside the array. *)
Definition rgba_byte (src : list Z) (sw x y k : Z) : Z :=
  default 0 (array_get src ((y * sw + x) * 4 + k)).

(** The source pixel [(x, y)] as a packed ARGB word. *)
Definition rgba_pixel (src : list Z) (sw x y : Z) : Z :=
  pack (rgba_byte src sw x y 3) (rgba_byte src sw x y 0)
       (rgba_byte src sw x y 1) (rgba_byte src sw x y 2).

(** The byte of row [row] of the glyph of [c], 0 outside the table. *)
Definition glyph_row (c : ascii) (row : Z) : Z :=
  default 0 (glyph ← font_8x16 !! nat_of_ascii c; array_get glyph row).

(** The colour [draw_char] gives the pixel in column [col] of row [row] of a
    character cell: bit 7 of the row byte is the leftmost column. *)
Definition cell_color (c : ascii) (col row fg bg : Z) : Z :=
  if Z.testbit (glyph_row c row) (7 - col) then fg else bg.

(** The C string a buffer holds: the characters before the first NUL. *)
Fixpoint c_string (s : string) : string :=
  match s with
  | EmptyString => EmptyString
  | String c r => if Ascii.eqb c Ascii.zero then EmptyString
                  else String c (c_string r)
  end.

(** A drawing step that never faults on a surface and changes no pixel
    outside the region [R]. *)
Definition paints_within (R : Z -> Z -> Prop)
    (f : list Z -> option (list Z)) : Prop :=
  forall fb, surface fb ->
    exists fb', f fb = Some fb' /\ surface fb' /\
      forall px py, on_surface px py -> ~ R px py ->
        pixel fb' px py = pixel fb px py.

(** The box that holds the vector Tux. *)
Definition tux_box (px py : Z) : Prop :=
  246 <= px <= 394 /\ 160 <= py <= 349.

(** The events [fbcon_disable] may log: opens of the two console nodes and
    requests for graphics mode, whatever their result. *)
Definition console_event (e : event) : Prop :=
  match e with
  | Open path _ => path = "/dev/tty0" \/ path = "/dev/console"
  | KdSetMode _ k _ => k = KD_GRAPHICS
  | _ => False
  end.

(** Whether one of the two console nodes opens. *)
Definition has_console (m : machine) : bool :=
  can_open m "/dev/tty0" || can_open m "/dev/console".

(** A drawing step whose result on a surface does not depend on what the
    surface held. *)
Definition overwrites (f : list Z -> option (list Z)) : Prop :=
  exists fb', surface fb' /\ forall fb, surface fb -> f fb = Some fb'.

(** The requests that render. *)
Definition render_modes : list string :=
  ["logo"; "tux"; "color"; "gradient"; "clear"; "fill"].

(** The value of a string of hex digits, read as a base-16 numeral. *)
Fixpoint hex_value (h : string) : Z :=
  match h with
  | EmptyString => 0
  | String c r =>
      default 0 (digit_value c) * 16 ^ Z.of_nat (String.length r) + hex_value r
  end.

(** The string is empty or starts with a character that is no hex digit. *)
Definition no_hex_head (s : string) : bool :=
  match s with
  | String c _ => negb (bool_decide (is_Some (digit_in 16 c)))
  | EmptyString => true
  end.

(** The string starts with [0x] or [0X]. *)
Definition starts_0x (s : string) : bool :=
  match s with
  | String "0" (String x _) => Ascii.eqb x "x" || Ascii.eqb x "X"
  | _ => false
  end.

(** * Properties *)

(** The pixel count is never to be unfolded into a unary number. *)
Local Arguments Z.to_nat : simpl never.

Lemma bind_Some {A B : Type} (a : A) (f : A -> option B) :
  (Some a ≫= f) = f a.
Proof. reflexivity. Qed.

(** ** Surfaces *)

Ltac unfold_consts :=
  unfold surface, on_surface, FB_PIXELS, FB_SIZE, FB_BPP, FB_WIDTH, FB_HEIGHT in *.

Lemma surface_length fb : surface fb -> Z.of_nat (length fb) = 307200.
Proof. unfold_consts. intros ->. reflexivity. Qed.

Lemma pixel_lookup fb x y :
  on_surface x y -> pixel fb x y = fb !! Z.to_nat (y * FB_WIDTH + x).
Proof.
  intros Hxy. unfold pixel, array_get.
  rewrite bool_decide_eq_true_2; [reflexivity | unfold_consts; lia].
Qed.

Lemma pixel_is_Some fb x y :
  surface fb -> on_surface x y -> is_Some (pixel fb x y).
Proof.
  intros Hfb Hxy. rewrite pixel_lookup by assumption.
  apply lookup_lt_is_Some. apply surface_length in Hfb.
  unfold_consts. lia.
Qed.

(** A surface is determined by its pixels. *)
Lemma surface_ext fb1 fb2 :
  surface fb1 -> surface fb2 ->
  (forall x y, on_surface x y -> pixel fb1 x y = pixel fb2 x y) ->
  fb1 = fb2.
Proof.
  intros H1 H2 Hpix. apply list_eq. intros i.
  destruct (decide (i < length fb1)%nat) as [Hi|Hi].
  - pose proof (surface_length _ H1) as Hlen.
    specialize (Hpix (Z.of_nat i mod FB_WIDTH) (Z.of_nat i / FB_WIDTH)).
    assert (Hon : on_surface (Z.of_nat i mod FB_WIDTH) (Z.of_nat i / FB_WIDTH)).
    { unfold_consts. split.
      - apply Z.mod_pos_bound. lia.
      - split; [apply Z.div_pos; lia | apply Z.div_lt_upper_bound; lia]. }
    rewrite !pixel_lookup in Hpix by assumption.
    replace (Z.of_nat i / FB_WIDTH * FB_WIDTH + Z.of_nat i mod FB_WIDTH)
      with (Z.of_nat i) in Hpix.
    + rewrite Nat2Z.id in Hpix. auto.
    + rewrite (Z.div_mod (Z.of_nat i) FB_WIDTH) at 1 by (unfold_consts; lia). lia.
  - rewrite !lookup_ge_None_2; [reflexivity | |]; unfold surface in *; lia.
Qed.

(** ** Loop rules *)

Lemma for_from_inv {S : Type} (I : Z -> S -> Prop) body n i (s : S) :
  I i s ->
  (forall j t, i <= j < i + Z.of_nat n -> I j t ->
     exists t', body j t = Some t' /\ I (j + 1) t') ->
  exists s', for_from n i body s = Some s' /\ I (i + Z.of_nat n) s'.
Proof.
  revert i s. induction n as [|n IH]; intros i s Hi Hstep.
  - exists s. simpl. rewrite Z.add_0_r. auto.
  - destruct (Hstep i s ltac:(lia) Hi) as (t & Hb & Ht).
    destruct (IH (i + 1) t Ht) as (s' & Hs' & HI).
    { intros j u Hj. apply Hstep. lia. }
    exists s'. simpl. rewrite Hb. simpl. split; [exact Hs'|].
    replace (i + Z.of_nat (Datatypes.S n)) with (i + 1 + Z.of_nat n) by lia.
    exact HI.
Qed.

(** The rule of a counted loop: an invariant that holds at [lo] and is kept by
    every iteration holds at the exit, and the loop does not fault. *)
Lemma for_inv {S : Type} (I : Z -> S -> Prop) body lo hi (s : S) :
  I lo s ->
  (forall j t, lo <= j < hi -> I j t ->
     exists t', body j t = Some t' /\ I (j + 1) t') ->
  exists s', for_ lo hi body s = Some s' /\ I (Z.max lo hi) s'.
Proof.
  intros Hlo Hstep. unfold for_.
  destruct (for_from_inv I body (Z.to_nat (hi - lo)) lo s Hlo) as (s' & Hs' & HI).
  - intros j t Hj. apply Hstep. lia.
  - exists s'. split; [exact Hs'|].
    replace (Z.max lo hi) with (lo + Z.of_nat (Z.to_nat (hi - lo))) by lia.
    exact HI.
Qed.

Lemma for_empty {S : Type} body lo hi (s : S) :
  hi <= lo -> for_ lo hi body s = Some s.
Proof.
  intros H. unfold for_. replace (Z.to_nat (hi - lo)) with O by lia. reflexivity.
Qed.

(** ** put_pixel *)

Lemma put_pixel_outside fb x y c :
  ~ on_surface x y -> put_pixel fb x y c = Some fb.
Proof.
  intros Hout. unfold put_pixel.
  destruct ((x <? 0) || (x >=? FB_WIDTH) || (y <? 0) || (y >=? FB_HEIGHT)) eqn:E;
    [reflexivity|].
  exfalso. apply Hout. unfold on_surface.
  rewrite !orb_false_iff in E. lia.
Qed.

Lemma put_pixel_inside fb x y c :
  surface fb -> on_surface x y ->
  put_pixel fb x y c = Some (<[Z.to_nat (y * FB_WIDTH + x) := c]> fb).
Proof.
  intros Hfb Hxy. unfold put_pixel.
  destruct ((x <? 0) || (x >=? FB_WIDTH) || (y <? 0) || (y >=? FB_HEIGHT)) eqn:E.
  - unfold on_surface in Hxy. rewrite !orb_true_iff in E. lia.
  - unfold store32. rewrite bool_decide_eq_true_2; [reflexivity|].
    apply surface_length in Hfb. unfold_consts. lia.
Qed.

(** What [put_pixel] does to a surface, pixel by pixel. *)
Lemma put_pixel_spec fb x y c :
  surface fb ->
  exists fb', put_pixel fb x y c = Some fb' /\ surface fb' /\
    forall px py, on_surface px py ->
      pixel fb' px py =
        if bool_decide (px = x /\ py = y) then Some c else pixel fb px py.
Proof.
  intros Hfb. destruct (decide (on_surface x y)) as [Hxy|Hxy].
  - exists (<[Z.to_nat (y * FB_WIDTH + x) := c]> fb).
    split; [apply put_pixel_inside; assumption|].
    split; [unfold surface; rewrite length_insert; exact Hfb|].
    intros px py Hp. rewrite !pixel_lookup by assumption.
    pose proof (surface_length _ Hfb) as Hlen.
    case_bool_decide as Heq.
    + destruct Heq as [-> ->]. apply list_lookup_insert_eq.
      unfold_consts. lia.
    + apply list_lookup_insert_ne. unfold_consts. lia.
  - exists fb. split; [apply put_pixel_outside; assumption|].
    split; [assumption|]. intros px py Hp.
    rewrite bool_decide_eq_false_2; [reflexivity|].
    intros [-> ->]. contradiction.
Qed.

(** ** Bytes of a packed word *)

Lemma testbit_255 n : Z.testbit 255 n = (0 <=? n) && (n <? 8).
Proof. change 255 with (Z.ones 8). apply Z.testbit_ones. lia. Qed.

Lemma testbit_wrap32 z n :
  Z.testbit (wrap32 z) n = (n <? 32) && Z.testbit z n.
Proof.
  unfold wrap32. destruct (Z.ltb_spec n 32).
  - destruct (Z.ltb_spec n 0).
    + rewrite !Z.testbit_neg_r by lia. reflexivity.
    + rewrite Z.mod_pow2_bits_low by lia. reflexivity.
  - rewrite Z.mod_pow2_bits_high by lia. reflexivity.
Qed.

Lemma testbit_shiftl' a k n :
  0 <= k -> Z.testbit (Z.shiftl a k) n = (0 <=? n) && Z.testbit a (n - k).
Proof.
  intros Hk. destruct (Z.leb_spec 0 n).
  - rewrite Z.shiftl_spec by lia. reflexivity.
  - rewrite Z.testbit_neg_r by lia. reflexivity.
Qed.

Lemma testbit_shiftr' a k n :
  0 <= k -> Z.testbit (Z.shiftr a k) n = (0 <=? n) && Z.testbit a (n + k).
Proof.
  intros Hk. destruct (Z.leb_spec 0 n).
  - rewrite Z.shiftr_spec by lia. reflexivity.
  - rewrite Z.testbit_neg_r by lia. reflexivity.
Qed.

Lemma testbit_u32_high z n : is_u32 z -> 32 <= n -> Z.testbit z n = false.
Proof.
  intros Hz Hn. rewrite <- (Z.mod_small z (2 ^ 32)) by exact Hz.
  apply Z.mod_pow2_bits_high. lia.
Qed.

Lemma testbit_byte_high z n : 0 <= z < 256 -> 8 <= n -> Z.testbit z n = false.
Proof.
  intros Hz Hn. rewrite <- (Z.mod_small z (2 ^ 8)) by (change (2 ^ 8) with 256; lia).
  apply Z.mod_pow2_bits_high. lia.
Qed.

(** Rewrites the bit [n] of a word built from shifts, masks and ors. *)
Ltac bits :=
  repeat first
    [ rewrite Z.lor_spec | rewrite Z.land_spec | rewrite testbit_wrap32
    | rewrite testbit_shiftl' by lia | rewrite testbit_shiftr' by lia
    | rewrite testbit_255 ].

(** Decides the comparisons on the bit position left by [bits]. *)
Ltac bit_cases :=
  repeat match goal with
  | |- context [?a <=? ?b] => destruct (Z.leb_spec a b)
  | |- context [?a <? ?b] => destruct (Z.ltb_spec a b)
  end;
  simpl; try lia;
  rewrite ?andb_false_r, ?orb_false_r, ?andb_true_r; simpl;
  try reflexivity.

Lemma chan_range c :
  0 <= chan_a c < 256 /\ 0 <= chan_r c < 256 /\
  0 <= chan_g c < 256 /\ 0 <= chan_b c < 256.
Proof.
  unfold chan_a, chan_r, chan_g, chan_b. change 255 with (Z.ones 8).
  rewrite !Z.land_ones by lia. change (2 ^ 8) with 256.
  repeat split; apply Z.mod_pos_bound; lia.
Qed.

(** Packing the channels of a 32-bit word gives the word back. *)
Lemma pack_channels c :
  is_u32 c -> pack (chan_a c) (chan_r c) (chan_g c) (chan_b c) = c.
Proof.
  intros Hc. apply Z.bits_inj'. intros n Hn.
  unfold pack, shl32, chan_a, chan_r, chan_g, chan_b. bits.
  destruct (Z.ltb_spec n 32) as [Hlt|Hge].
  - replace (n - 24 + 24) with n by lia. replace (n - 16 + 16) with n by lia.
    replace (n - 8 + 8) with n by lia.
    destruct (Z.testbit c n); bit_cases.
  - rewrite (testbit_u32_high c n Hc Hge).
    reflexivity.
Qed.

(** Clears the bits of bytes that lie above bit 7 or below bit 0. *)
Ltac byte_bits :=
  repeat match goal with
  | H : 0 <= ?v < 256 |- context [Z.testbit ?v ?e] =>
      rewrite (testbit_byte_high v e H) by lia
  | |- context [Z.testbit ?v ?e] =>
      rewrite (Z.testbit_neg_r v e) by lia
  end.

(** The channels of a word packed from four bytes are those bytes. *)
Lemma chan_pack a r g b :
  0 <= a < 256 -> 0 <= r < 256 -> 0 <= g < 256 -> 0 <= b < 256 ->
  chan_a (pack a r g b) = a /\ chan_r (pack a r g b) = r /\
  chan_g (pack a r g b) = g /\ chan_b (pack a r g b) = b.
Proof.
  intros Ha Hr Hg Hb.
  repeat split; apply Z.bits_inj'; intros n Hn;
    unfold pack, shl32, chan_a, chan_r, chan_g, chan_b; bits;
    rewrite ?Z.add_simpl_r;
    replace (n + 24 - 16) with (n + 8) by lia;
    replace (n + 24 - 8) with (n + 16) by lia;
    replace (n + 16 - 24) with (n - 8) by lia;
    replace (n + 16 - 8) with (n + 8) by lia;
    replace (n + 8 - 24) with (n - 16) by lia;
    replace (n + 8 - 16) with (n - 8) by lia;
    (destruct (Z.ltb_spec n 8);
     [ byte_bits; bit_cases
     | byte_bits; rewrite ?andb_false_r; simpl; rewrite ?andb_false_r;
       reflexivity ]).
Qed.

(** The channels of a packed word when the values above are not bytes: a
    channel holds the low byte of its value as long as the values packed
    below it are bytes. *)
Lemma chan_pack_low a r g b :
  chan_b (pack a r g b) = Z.land b 255 /\
  (0 <= b < 256 -> chan_g (pack a r g b) = Z.land g 255) /\
  (0 <= b < 256 -> 0 <= g < 256 -> chan_r (pack a r g b) = Z.land r 255).
Proof.
  repeat split; intros; apply Z.bits_inj'; intros n Hn;
    unfold pack, shl32, chan_a, chan_r, chan_g, chan_b; bits;
    rewrite ?Z.add_simpl_r;
    replace (n + 16 - 24) with (n - 8) by lia;
    replace (n + 16 - 8) with (n + 8) by lia;
    replace (n + 8 - 24) with (n - 16) by lia;
    replace (n + 8 - 16) with (n - 8) by lia;
    (destruct (Z.ltb_spec n 8);
     [ byte_bits; bit_cases
     | rewrite ?andb_false_r; simpl; rewrite ?andb_false_r; reflexivity ]).
Qed.

(** ** blend_over *)

(** On bytes none of the 32-bit operations of one channel wraps, and the
    unsigned division is the truncating one. *)
Lemma blend_channel s d a :
  0 <= s < 256 -> 0 <= d < 256 -> 0 <= a < 256 ->
  wrap32 (s + wrap32 (d * wrap32 (255 - a)) / 255) = over_channel s d a /\
  s <= over_channel s d a <= s + (255 - a).
Proof.
  intros Hs Hd Ha. unfold wrap32, over_channel.
  rewrite (Z.mod_small (255 - a)) by lia.
  rewrite (Z.mod_small (d * (255 - a))) by nia.
  rewrite Z.quot_div_nonneg by nia.
  assert (0 <= d * (255 - a) / 255 <= 255 - a).
  { split; [apply Z.div_pos; nia|].
    apply Z.div_le_upper_bound; nia. }
  rewrite Z.mod_small by lia. lia.
Qed.

(** The blend is the packing of the four channel values. *)
Lemma blend_over_pack src dst :
  blend_over src dst =
    pack (over_channel (chan_a src) (chan_a dst) (chan_a src))
         (over_channel (chan_r src) (chan_r dst) (chan_a src))
         (over_channel (chan_g src) (chan_g dst) (chan_a src))
         (over_channel (chan_b src) (chan_b dst) (chan_a src)).
Proof.
  unfold blend_over. cbv zeta. rewrite !Z.shiftr_0_r.
  fold (chan_a src) (chan_r src) (chan_g src) (chan_b src).
  fold (chan_a dst) (chan_r dst) (chan_g dst) (chan_b dst).
  destruct (chan_range src) as (Hsa & Hsr & Hsg & Hsb).
  destruct (chan_range dst) as (Hda & Hdr & Hdg & Hdb).
  rewrite (proj1 (blend_channel _ _ _ Hsa Hda Hsa)).
  rewrite (proj1 (blend_channel _ _ _ Hsr Hdr Hsa)).
  rewrite (proj1 (blend_channel _ _ _ Hsg Hdg Hsa)).
  rewrite (proj1 (blend_channel _ _ _ Hsb Hdb Hsa)).
  reflexivity.
Qed.

Lemma over_channel_opaque s d : over_channel s d 255 = s.
Proof.
  unfold over_channel. rewrite Z.sub_diag, Z.mul_0_r, Z.quot_0_l by lia. lia.
Qed.

Lemma over_channel_clear d : over_channel 0 d 0 = d.
Proof.
  unfold over_channel. rewrite Z.sub_0_r, Z.quot_mul by lia. lia.
Qed.

Lemma over_channel_alpha0 s d : over_channel s d 0 = s + d.
Proof. unfold over_channel. rewrite Z.sub_0_r, Z.quot_mul by lia. reflexivity. Qed.

Lemma blend_over_opaque src dst :
  is_u32 src -> chan_a src = 255 -> blend_over src dst = src.
Proof.
  intros Hsrc Ha. rewrite blend_over_pack, Ha, !over_channel_opaque.
  rewrite <- Ha. apply pack_channels. exact Hsrc.
Qed.

Lemma blend_over_zero dst : is_u32 dst -> blend_over 0 dst = dst.
Proof.
  intros Hdst. rewrite blend_over_pack.
  change (chan_a 0) with 0. change (chan_r 0) with 0.
  change (chan_g 0) with 0. change (chan_b 0) with 0.
  rewrite !over_channel_clear. apply pack_channels. exact Hdst.
Qed.

(** A sum of two bytes whose low byte is the second one has a zero first. *)
Lemma low_byte_sum s d :
  0 <= s < 256 -> 0 <= d < 256 -> Z.land (s + d) 255 = d -> s = 0.
Proof.
  intros Hs Hd. change 255 with (Z.ones 8). rewrite Z.land_ones by lia.
  change (2 ^ 8) with 256. intros H.
  Z.to_euclidean_division_equations. lia.
Qed.

(** A source of alpha 0 gives the destination back only if it is zero. *)
Lemma blend_over_alpha0 src dst :
  is_u32 src -> is_u32 dst -> chan_a src = 0 ->
  (blend_over src dst = dst <-> src = 0).
Proof.
  intros Hsrc Hdst Ha. split; [|intros ->; apply blend_over_zero; exact Hdst].
  intros Heq. rewrite blend_over_pack, Ha, !over_channel_alpha0 in Heq.
  destruct (chan_range src) as (_ & Hsr & Hsg & Hsb).
  destruct (chan_range dst) as (Hda & Hdr & Hdg & Hdb).
  assert (Hb : chan_b src = 0).
  { apply (low_byte_sum _ (chan_b dst)); [assumption..|].
    rewrite <- (proj1 (chan_pack_low (0 + chan_a dst) (chan_r src + chan_r dst)
                         (chan_g src + chan_g dst) (chan_b src + chan_b dst))).
    rewrite Heq. reflexivity. }
  rewrite Hb in Heq. rewrite (Z.add_0_l (chan_b dst)) in Heq.
  assert (Hg : chan_g src = 0).
  { apply (low_byte_sum _ (chan_g dst)); [assumption..|].
    rewrite <- (proj1 (proj2 (chan_pack_low (0 + chan_a dst)
                         (chan_r src + chan_r dst) (chan_g src + chan_g dst)
                         (chan_b dst))) Hdb).
    rewrite Heq. reflexivity. }
  rewrite Hg in Heq. rewrite (Z.add_0_l (chan_g dst)) in Heq.
  assert (Hr : chan_r src = 0).
  { apply (low_byte_sum _ (chan_r dst)); [assumption..|].
    rewrite <- (proj2 (proj2 (chan_pack_low (0 + chan_a dst)
                         (chan_r src + chan_r dst) (chan_g dst)
                         (chan_b dst))) Hdb Hdg).
    rewrite Heq. reflexivity. }
  rewrite <- (pack_channels src Hsrc), Ha, Hr, Hg, Hb. reflexivity.
Qed.

(** C2 (amended). The blend computes, for each of the four channels, the
    value [srcChannel + dstChannel * (255 - srcAlpha) / 255] with truncating
    division, and packs the four values by shifts and ors; a source of alpha
    255 over any destination gives the source; the transparent source
    0x00000000 over any destination gives the destination, and it is the
    only source of alpha 0 that does. *)
Theorem blend_over_identities (src dst : Z) :
  is_u32 src -> is_u32 dst ->
  blend_over src dst =
    pack (chan_a src + Z.quot (chan_a dst * (255 - chan_a src)) 255)
         (chan_r src + Z.quot (chan_r dst * (255 - chan_a src)) 255)
         (chan_g src + Z.quot (chan_g dst * (255 - chan_a src)) 255)
         (chan_b src + Z.quot (chan_b dst * (255 - chan_a src)) 255) /\
  (chan_a src = 255 -> blend_over src dst = src) /\
  blend_over 0 dst = dst /\
  (chan_a src = 0 -> (blend_over src dst = dst <-> src = 0)).
Proof.
  intros Hsrc Hdst. split; [apply blend_over_pack|]. split; [|split].
  - apply blend_over_opaque. exact Hsrc.
  - apply blend_over_zero. exact Hdst.
  - apply blend_over_alpha0; assumption.
Qed.

(** A source of alpha 255 and the transparent source, at concrete colours. *)
Lemma blend_over_identities_witness :
  is_u32 0xFF336699 /\ is_u32 0x80FFFFFF /\
  blend_over 0xFF336699 0x80FFFFFF = 0xFF336699 /\
  blend_over 0 0x80FFFFFF = 0x80FFFFFF.
Proof.
  assert (H1 : is_u32 0xFF336699) by (unfold is_u32; lia).
  assert (H2 : is_u32 0x80FFFFFF) by (unfold is_u32; lia).
  split; [exact H1|]. split; [exact H2|].
  destruct (blend_over_identities 0xFF336699 0x80FFFFFF H1 H2)
    as (_ & Hopaque & Hclear & _).
  split; [apply Hopaque; reflexivity | exact Hclear].
Defined.

(** C2 as stated fails: a source with alpha 0 but a non-zero red channel,
    blended over black, does not give the destination back. *)
Lemma blend_over_transparent_counterexample :
  is_u32 0x00010000 /\ chan_a 0x00010000 = 0 /\
  blend_over 0x00010000 0 = 0x00010000 /\ blend_over 0x00010000 0 <> 0.
Proof.
  split; [unfold is_u32; lia|]. split; [reflexivity|].
  split; [reflexivity|]. vm_compute. discriminate.
Qed.

(** C10. The blend does not clamp: the channels of the packed result are the
    channel values of the formula exactly when each of those values is at
    most 255.  A source with alpha 0 and blue 255 over a destination with
    blue 255 has the blue value 510, and its bit 8 shows up in the green
    channel of the result. *)
Theorem blend_over_no_clamp :
  (forall src dst,
     (chan_a (blend_over src dst) = over_channel (chan_a src) (chan_a dst) (chan_a src) /\
      chan_r (blend_over src dst) = over_channel (chan_r src) (chan_r dst) (chan_a src) /\
      chan_g (blend_over src dst) = over_channel (chan_g src) (chan_g dst) (chan_a src) /\
      chan_b (blend_over src dst) = over_channel (chan_b src) (chan_b dst) (chan_a src))
     <->
     (over_channel (chan_a src) (chan_a dst) (chan_a src) <= 255 /\
      over_channel (chan_r src) (chan_r dst) (chan_a src) <= 255 /\
      over_channel (chan_g src) (chan_g dst) (chan_a src) <= 255 /\
      over_channel (chan_b src) (chan_b dst) (chan_a src) <= 255)) /\
  (chan_a 0x000000FF = 0 /\
   over_channel (chan_b 0x000000FF) (chan_b 0xFF0000FF) (chan_a 0x000000FF) = 510 /\
   over_channel (chan_g 0x000000FF) (chan_g 0xFF0000FF) (chan_a 0x000000FF) = 0 /\
   blend_over 0x000000FF 0xFF0000FF = 0xFF0001FE /\
   chan_g (blend_over 0x000000FF 0xFF0000FF) = 1).
Proof.
  split; [|repeat split; reflexivity].
  intros src dst.
  destruct (chan_range src) as (Hsa & Hsr & Hsg & Hsb).
  destruct (chan_range dst) as (Hda & Hdr & Hdg & Hdb).
  pose proof (proj2 (blend_channel _ _ _ Hsa Hda Hsa)) as Ra.
  pose proof (proj2 (blend_channel _ _ _ Hsr Hdr Hsa)) as Rr.
  pose proof (proj2 (blend_channel _ _ _ Hsg Hdg Hsa)) as Rg.
  pose proof (proj2 (blend_channel _ _ _ Hsb Hdb Hsa)) as Rb.
  split.
  - intros (Ea & Er & Eg & Eb).
    destruct (chan_range (blend_over src dst)) as (Ba & Br & Bg & Bb).
    lia.
  - intros (La & Lr & Lg & Lb). rewrite blend_over_pack.
    apply chan_pack; lia.
Qed.

(** ** put_pixel: frame *)

(** C3. Outside the surface [put_pixel] returns the surface as it was, and
    does not fault; inside it does not fault either, writes the colour at
    [(x, y)] and leaves every other pixel as it was. *)
Theorem put_pixel_frame (fb : list Z) (x y color : Z) :
  surface fb ->
  ((x < 0 \/ x >= FB_WIDTH \/ y < 0 \/ y >= FB_HEIGHT) ->
     put_pixel fb x y color = Some fb) /\
  ((0 <= x < FB_WIDTH /\ 0 <= y < FB_HEIGHT) ->
     exists fb', put_pixel fb x y color = Some fb' /\ surface fb' /\
       pixel fb' x y = Some color /\
       forall px py, on_surface px py -> (px, py) <> (x, y) ->
         pixel fb' px py = pixel fb px py).
Proof.
  intros Hfb. split.
  - intros Hout. apply put_pixel_outside. unfold on_surface. lia.
  - intros Hin. destruct (put_pixel_spec fb x y color Hfb) as (fb' & Hp & Hs & Hpix).
    exists fb'. split; [exact Hp|]. split; [exact Hs|]. split.
    + rewrite (Hpix x y Hin). rewrite bool_decide_eq_true_2; auto.
    + intros px py Hon Hne. rewrite (Hpix px py Hon).
      rewrite bool_decide_eq_false_2; [reflexivity|].
      intros [-> ->]. apply Hne. reflexivity.
Qed.

Lemma blank_surface : surface blank.
Proof. apply length_replicate. Qed.

Lemma put_pixel_frame_witness :
  surface blank /\
  put_pixel blank (-1) 480 0xFFFFFFFF = Some blank /\
  exists fb', put_pixel blank 3 4 0xFFFFFFFF = Some fb' /\ surface fb' /\
    pixel fb' 3 4 = Some 0xFFFFFFFF /\
    forall px py, on_surface px py -> (px, py) <> (3, 4) ->
      pixel fb' px py = pixel blank px py.
Proof.
  split; [exact blank_surface|]. split.
  - apply (proj1 (put_pixel_frame blank (-1) 480 0xFFFFFFFF blank_surface)).
    left. reflexivity.
  - apply (proj2 (put_pixel_frame blank 3 4 0xFFFFFFFF blank_surface)).
    unfold FB_WIDTH, FB_HEIGHT. lia.
Defined.

(** ** Raster scans *)

(** A row-major scan that writes [g dx dy] at [(ox + dx, oy + dy)] for every
    [(dx, dy)] of a [w] by [h] rectangle: it does not fault, the pixels of the
    rectangle that lie on the surface get their colour, the others keep
    theirs. *)
Lemma raster_spec (body : Z -> Z -> list Z -> option (list Z))
    (ox oy w h : Z) (g : Z -> Z -> Z) (fb : list Z) :
  surface fb ->
  (forall dx dy t, 0 <= dx < w -> 0 <= dy < h ->
     body dy dx t = put_pixel t (ox + dx) (oy + dy) (g dx dy)) ->
  exists fb',
    for_ 0 h (fun dy t => for_ 0 w (fun dx t => body dy dx t) t) fb = Some fb' /\
    surface fb' /\
    forall px py, on_surface px py ->
      pixel fb' px py =
        if bool_decide (ox <= px < ox + w /\ oy <= py < oy + h)
        then Some (g (px - ox) (py - oy)) else pixel fb px py.
Proof.
  intros Hfb Hbody.
  destruct (for_inv
    (fun j t => surface t /\ forall px py, on_surface px py ->
       pixel t px py =
         if bool_decide (ox <= px < ox + w /\ oy <= py < oy + j)
         then Some (g (px - ox) (py - oy)) else pixel fb px py)
    (fun dy t => for_ 0 w (fun dx t => body dy dx t) t) 0 h fb)
    as (fb' & Hrun & Hs & Hpix).
  - split; [exact Hfb|]. intros px py _.
    rewrite bool_decide_eq_false_2; [reflexivity | lia].
  - intros j t Hj [Ht Htpix].
    destruct (for_inv
      (fun i u => surface u /\ forall px py, on_surface px py ->
         pixel u px py =
           if bool_decide (py = oy + j /\ ox <= px < ox + i)
           then Some (g (px - ox) j) else pixel t px py)
      (fun dx t => body j dx t) 0 w t)
      as (t' & Hrow & Hs' & Hpix').
    + split; [exact Ht|]. intros px py _.
      rewrite bool_decide_eq_false_2; [reflexivity | lia].
    + intros i u Hi [Hu Hupix].
      rewrite (Hbody i j u Hi Hj).
      destruct (put_pixel_spec u (ox + i) (oy + j) (g i j) Hu)
        as (u' & Hput & Hu' & Hu'pix).
      exists u'. split; [exact Hput|]. split; [exact Hu'|].
      intros px py Hon. rewrite (Hu'pix px py Hon), (Hupix px py Hon).
      repeat case_bool_decide; try lia; try reflexivity.
      f_equal. f_equal. lia.
    + exists t'. split; [exact Hrow|]. split; [exact Hs'|].
      intros px py Hon. rewrite (Hpix' px py Hon), (Htpix px py Hon).
      repeat case_bool_decide; try lia; try reflexivity.
      f_equal. f_equal. lia.
  - exists fb'. split; [exact Hrun|]. split; [exact Hs|].
    intros px py Hon. rewrite (Hpix px py Hon).
    repeat case_bool_decide; try lia; reflexivity.
Qed.

(** ** Opaque colours *)

(** [0xFF000000 | (r << 16) | (g << 8) | b] on bytes is the packing with
    alpha 255: the [int] shifts do not overflow. *)
Lemma argb_pack r g b :
  0 <= r < 256 -> 0 <= g < 256 -> 0 <= b < 256 ->
  Z.lor (Z.lor (Z.lor 0xFF000000 (Z.shiftl r 16)) (Z.shiftl g 8)) b
  = pack 255 r g b.
Proof.
  intros Hr Hg Hb. unfold pack, shl32, wrap32.
  change (Z.shiftl 255 24 mod 2 ^ 32) with 0xFF000000.
  rewrite (Z.mod_small (Z.shiftl r 16)), (Z.mod_small (Z.shiftl g 8));
    [reflexivity | |]; rewrite Z.shiftl_mul_pow2 by lia; lia.
Qed.

Lemma argb_channels r g b :
  0 <= r < 256 -> 0 <= g < 256 -> 0 <= b < 256 ->
  let c := Z.lor (Z.lor (Z.lor 0xFF000000 (Z.shiftl r 16)) (Z.shiftl g 8)) b in
  chan_a c = 255 /\ chan_r c = r /\ chan_g c = g /\ chan_b c = b.
Proof.
  intros Hr Hg Hb c. subst c. rewrite argb_pack by assumption.
  apply chan_pack; lia.
Qed.

(** ** Gradient *)

Lemma gradient_channels x y :
  on_surface x y ->
  chan_a (gradient_color x y) = 255 /\
  chan_r (gradient_color x y) = Z.quot (x * 255) FB_WIDTH /\
  chan_g (gradient_color x y) = Z.quot (y * 255) FB_HEIGHT /\
  chan_b (gradient_color x y) = Z.quot ((x + y) * 127) (FB_WIDTH + FB_HEIGHT).
Proof.
  intros [Hx Hy]. unfold gradient_color, wrap8. cbv zeta.
  unfold FB_WIDTH, FB_HEIGHT in *. change (2 ^ 8) with 256.
  assert (0 <= Z.quot (x * 255) 640 < 256)
    by (rewrite Z.quot_div_nonneg by lia; Z.to_euclidean_division_equations; lia).
  assert (0 <= Z.quot (y * 255) 480 < 256)
    by (rewrite Z.quot_div_nonneg by lia; Z.to_euclidean_division_equations; lia).
  assert (0 <= Z.quot ((x + y) * 127) (640 + 480) < 256)
    by (rewrite Z.quot_div_nonneg by lia; Z.to_euclidean_division_equations; lia).
  rewrite !Z.mod_small by assumption.
  apply argb_channels; assumption.
Qed.

(** C5. The gradient does not fault and sets every pixel [(x, y)] to alpha
    255, red [x*255/width], green [y*255/height] and blue
    [(x+y)*127/(width+height)], the divisions truncating; pixel (0,0) is
    opaque black and the red of pixel [(width-1, 0)] is
    [(width-1)*255/width], below 255. *)
Theorem draw_gradient_rgb_spec (fb : list Z) :
  surface fb ->
  exists fb', draw_gradient_rgb fb = Some fb' /\ surface fb' /\
    (forall x y, 0 <= x < FB_WIDTH -> 0 <= y < FB_HEIGHT ->
       exists c, pixel fb' x y = Some c /\
         chan_a c = 255 /\
         chan_r c = Z.quot (x * 255) FB_WIDTH /\
         chan_g c = Z.quot (y * 255) FB_HEIGHT /\
         chan_b c = Z.quot ((x + y) * 127) (FB_WIDTH + FB_HEIGHT)) /\
    pixel fb' 0 0 = Some 0xFF000000 /\
    (exists c, pixel fb' (FB_WIDTH - 1) 0 = Some c /\
       chan_r c = Z.quot ((FB_WIDTH - 1) * 255) FB_WIDTH /\ chan_r c < 255).
Proof.
  intros Hfb.
  destruct (raster_spec (fun y x t => put_pixel t x y (gradient_color x y))
              0 0 FB_WIDTH FB_HEIGHT gradient_color fb Hfb)
    as (fb' & Hrun & Hs & Hpix).
  { intros dx dy t _ _. reflexivity. }
  assert (Hall : forall x y, on_surface x y ->
            pixel fb' x y = Some (gradient_color x y)).
  { intros x y Hon. rewrite (Hpix x y Hon).
    rewrite bool_decide_eq_true_2 by (unfold on_surface in Hon; lia).
    rewrite !Z.sub_0_r. reflexivity. }
  exists fb'. split; [exact Hrun|]. split; [exact Hs|]. split; [|split].
  - intros x y Hx Hy. exists (gradient_color x y).
    split; [apply Hall; split; assumption|].
    apply gradient_channels. split; assumption.
  - rewrite Hall by (unfold_consts; lia). reflexivity.
  - exists (gradient_color (FB_WIDTH - 1) 0).
    split; [apply Hall; unfold_consts; lia|].
    split; [|reflexivity].
    apply (gradient_channels (FB_WIDTH - 1) 0). unfold_consts. lia.
Qed.

Lemma draw_gradient_rgb_spec_witness :
  surface blank /\
  exists fb', draw_gradient_rgb blank = Some fb' /\
    pixel fb' 0 0 = Some 0xFF000000.
Proof.
  split; [exact blank_surface|].
  destruct (draw_gradient_rgb_spec blank blank_surface)
    as (fb' & Hrun & _ & _ & H00 & _).
  exists fb'. split; [exact Hrun | exact H00].
Defined.

(** ** Rectangles and colour bars *)

Lemma draw_rect_spec fb x y w h color :
  surface fb ->
  exists fb', draw_rect fb x y w h color = Some fb' /\ surface fb' /\
    forall px py, on_surface px py ->
      pixel fb' px py =
        if bool_decide (x <= px < x + w /\ y <= py < y + h)
        then Some color else pixel fb px py.
Proof.
  intros Hfb.
  apply (raster_spec (fun dy dx t => put_pixel t (x + dx) (y + dy) color)
           x y w h (fun _ _ => color) fb Hfb).
  intros dx dy t _ _. reflexivity.
Qed.

Lemma colors_get i :
  0 <= i < 8 -> array_get colors i = colors !! Z.to_nat i /\
                is_Some (colors !! Z.to_nat i).
Proof.
  intros Hi. unfold array_get. rewrite bool_decide_eq_true_2 by lia.
  split; [reflexivity|]. apply lookup_lt_is_Some. simpl. lia.
Qed.

(** C8. On the 640-pixel-wide surface the colour bars are 8 bands of width
    80 = 640/8, whose widths add up to the surface width; band [i] spans the
    full height and has the [i]-th colour of white, yellow, cyan, green,
    magenta, red, blue, black, all opaque. *)
Theorem draw_color_bars_spec (fb : list Z) :
  surface fb ->
  exists fb', draw_color_bars fb = Some fb' /\ surface fb' /\
    FB_WIDTH mod 8 = 0 /\ bar_w = Z.quot FB_WIDTH 8 /\ 8 * bar_w = FB_WIDTH /\
    forall i x y, 0 <= i < 8 -> i * bar_w <= x < (i + 1) * bar_w ->
      0 <= y < FB_HEIGHT ->
      pixel fb' x y =
        [0xFFFFFFFF; 0xFFFFFF00; 0xFF00FFFF; 0xFF00FF00;
         0xFFFF00FF; 0xFFFF0000; 0xFF0000FF; 0xFF000000] !! Z.to_nat i.
Proof.
  intros Hfb.
  destruct (for_inv
    (fun i t => surface t /\ forall px py, on_surface px py ->
       pixel t px py =
         if bool_decide (px < i * 80) then colors !! Z.to_nat (px / 80)
         else pixel fb px py)
    (fun i t => c ← array_get colors i;
                draw_rect t (i * bar_w) 0 bar_w FB_HEIGHT c) 0 8 fb)
    as (fb' & Hrun & Hs & Hpix).
  - split; [exact Hfb|]. intros px py Hon.
    rewrite bool_decide_eq_false_2; [reflexivity | unfold_consts; lia].
  - intros i t Hi [Ht Htpix].
    destruct (colors_get i Hi) as [Hget [c Hc]].
    rewrite Hget, Hc. simpl.
    destruct (draw_rect_spec t (i * bar_w) 0 bar_w FB_HEIGHT c Ht)
      as (t' & Hrect & Ht' & Ht'pix).
    exists t'. split; [exact Hrect|]. split; [exact Ht'|].
    intros px py Hon. rewrite (Ht'pix px py Hon), (Htpix px py Hon).
    change bar_w with 80. unfold_consts.
    repeat case_bool_decide; try lia; try reflexivity.
    rewrite <- Hc. f_equal. f_equal. Z.to_euclidean_division_equations. lia.
  - exists fb'. split; [exact Hrun|]. split; [exact Hs|].
    split; [reflexivity|]. split; [reflexivity|]. split; [reflexivity|].
    intros i x y Hi Hx Hy. change bar_w with 80 in Hx.
    rewrite (Hpix x y) by (unfold_consts; lia).
    rewrite bool_decide_eq_true_2 by lia.
    fold colors. f_equal. f_equal. Z.to_euclidean_division_equations. lia.
Qed.

Lemma draw_color_bars_spec_witness :
  surface blank /\
  exists fb', draw_color_bars blank = Some fb' /\
    pixel fb' 0 0 = Some 0xFFFFFFFF /\ pixel fb' 639 479 = Some 0xFF000000.
Proof.
  split; [exact blank_surface|].
  destruct (draw_color_bars_spec blank blank_surface)
    as (fb' & Hrun & _ & _ & _ & _ & Hpix).
  exists fb'. split; [exact Hrun|]. split.
  - apply (Hpix 0 0 0); change bar_w with 80; unfold FB_HEIGHT; lia.
  - apply (Hpix 7 639 479); change bar_w with 80; unfold FB_HEIGHT; lia.
Defined.

(** ** The logo blit *)

Lemma array_get_Some (a : list Z) i :
  0 <= i < Z.of_nat (length a) ->
  exists v, array_get a i = Some v /\ a !! Z.to_nat i = Some v.
Proof.
  intros Hi. unfold array_get. rewrite bool_decide_eq_true_2 by lia.
  destruct (lookup_lt_is_Some_2 a (Z.to_nat i)) as [v Hv]; [lia|].
  exists v. auto.
Qed.

(** Inside the image the colour look-up succeeds and gives the palette
    triple of the index, with alpha 255. *)
Lemma logo_color_ok L px py :
  logo_ok L ->
  0 <= px < logo_linux_clut224_width L ->
  0 <= py < logo_linux_clut224_height L ->
  exists idx r g b c,
    array_get (logo_linux_clut224_data L)
              (py * logo_linux_clut224_width L + px) = Some idx /\
    array_get (logo_linux_clut224_clut L) (idx * 3 + 0) = Some r /\
    array_get (logo_linux_clut224_clut L) (idx * 3 + 1) = Some g /\
    array_get (logo_linux_clut224_clut L) (idx * 3 + 2) = Some b /\
    logo_color L px py = Some c /\
    chan_a c = 255 /\ chan_r c = r /\ chan_g c = g /\ chan_b c = b.
Proof.
  intros (Hw & Hh & Hlen & Hdata & Hclut) Hpx Hpy.
  destruct (array_get_Some (logo_linux_clut224_data L)
              (py * logo_linux_clut224_width L + px)) as (idx & Hidx & Hl);
    [nia|].
  rewrite Forall_lookup in Hdata. destruct (Hdata _ _ Hl) as [Hi0 Hi2].
  rewrite Forall_lookup in Hclut.
  destruct (array_get_Some (logo_linux_clut224_clut L) (idx * 3 + 0))
    as (r & Hr & Hrl); [lia|].
  destruct (array_get_Some (logo_linux_clut224_clut L) (idx * 3 + 1))
    as (g & Hg & Hgl); [lia|].
  destruct (array_get_Some (logo_linux_clut224_clut L) (idx * 3 + 2))
    as (b & Hb & Hbl); [lia|].
  pose proof (Hclut _ _ Hrl) as Br. pose proof (Hclut _ _ Hgl) as Bg.
  pose proof (Hclut _ _ Hbl) as Bb.
  exists idx, r, g, b.
  exists (Z.lor (Z.lor (Z.lor 0xFF000000 (Z.shiftl r 16)) (Z.shiftl g 8)) b).
  repeat (split; [assumption|]).
  split.
  - unfold logo_color. rewrite Hidx. simpl. rewrite Hr. simpl.
    rewrite Hg. simpl. rewrite Hb. reflexivity.
  - apply argb_channels; assumption.
Qed.

(** The blit, pixel by pixel. *)
Lemma draw_official_logo_pixels L fb cx cy :
  logo_ok L -> surface fb ->
  exists fb', draw_official_logo L fb cx cy = Some fb' /\ surface fb' /\
    forall px py, on_surface px py ->
      let x0 := cx - Z.quot (logo_linux_clut224_width L) 2 in
      let y0 := cy - Z.quot (logo_linux_clut224_height L) 2 in
      pixel fb' px py =
        if bool_decide (x0 <= px < x0 + logo_linux_clut224_width L /\
                        y0 <= py < y0 + logo_linux_clut224_height L)
        then logo_color L (px - x0) (py - y0)
        else pixel fb px py.
Proof.
  intros HL Hfb. unfold draw_official_logo. cbv zeta.
  set (x0 := cx - Z.quot (logo_linux_clut224_width L) 2).
  set (y0 := cy - Z.quot (logo_linux_clut224_height L) 2).
  destruct (raster_spec
    (fun py px t => color ← logo_color L px py;
                    put_pixel t (x0 + px) (y0 + py) color)
    x0 y0 (logo_linux_clut224_width L) (logo_linux_clut224_height L)
    (fun px py => default 0 (logo_color L px py)) fb Hfb)
    as (fb' & Hrun & Hs & Hpix).
  - intros dx dy t Hdx Hdy.
    destruct (logo_color_ok L dx dy HL Hdx Hdy)
      as (idx & r & g & b & c & _ & _ & _ & _ & Hc & _).
    rewrite Hc. reflexivity.
  - exists fb'. split; [exact Hrun|]. split; [exact Hs|].
    intros px py Hon. rewrite (Hpix px py Hon).
    case_bool_decide as Hin; [|reflexivity].
    destruct (logo_color_ok L (px - x0) (py - y0) HL)
      as (idx & r & g & b & c & _ & _ & _ & _ & Hc & _); [lia | lia |].
    rewrite Hc. reflexivity.
Qed.

(** C7. The blit with centre [(cx, cy)] of a [w] by [h] image does not
    fault and puts the image with its top-left corner at
    [(cx - w/2, cy - h/2)], the halving truncating: each surface pixel under
    the image becomes the palette colour of the source index there with alpha
    255, whatever it held before, and every other pixel is kept. *)
Theorem draw_official_logo_spec (L : logo_tux_data) (fb : list Z) (cx cy : Z) :
  logo_ok L -> surface fb ->
  exists fb', draw_official_logo L fb cx cy = Some fb' /\ surface fb' /\
    forall px py, 0 <= px < FB_WIDTH -> 0 <= py < FB_HEIGHT ->
      let w := logo_linux_clut224_width L in
      let h := logo_linux_clut224_height L in
      let x0 := cx - Z.quot w 2 in
      let y0 := cy - Z.quot h 2 in
      (x0 <= px < x0 + w /\ y0 <= py < y0 + h ->
         exists idx r g b c,
           array_get (logo_linux_clut224_data L) ((py - y0) * w + (px - x0))
             = Some idx /\
           array_get (logo_linux_clut224_clut L) (idx * 3 + 0) = Some r /\
           array_get (logo_linux_clut224_clut L) (idx * 3 + 1) = Some g /\
           array_get (logo_linux_clut224_clut L) (idx * 3 + 2) = Some b /\
           pixel fb' px py = Some c /\
           chan_a c = 255 /\ chan_r c = r /\ chan_g c = g /\ chan_b c = b) /\
      (~ (x0 <= px < x0 + w /\ y0 <= py < y0 + h) ->
         pixel fb' px py = pixel fb px py).
Proof.
  intros HL Hfb.
  destruct (draw_official_logo_pixels L fb cx cy HL Hfb)
    as (fb' & Hrun & Hs & Hpix).
  exists fb'. split; [exact Hrun|]. split; [exact Hs|].
  intros px py Hpx Hpy w h x0 y0.
  specialize (Hpix px py (conj Hpx Hpy)). cbv zeta in Hpix.
  fold w h in Hpix. fold x0 y0 in Hpix. split.
  - intros Hin. rewrite bool_decide_eq_true_2 in Hpix by exact Hin.
    destruct (logo_color_ok L (px - x0) (py - y0) HL)
      as (idx & r & g & b & c & Hi & Hr & Hg & Hb & Hc & Hch);
      [fold w; lia | fold h; lia |].
    exists idx, r, g, b, c. rewrite Hpix. auto 10.
  - intros Hout. rewrite bool_decide_eq_false_2 in Hpix by exact Hout.
    exact Hpix.
Qed.

Lemma tiny_logo_ok : logo_ok tiny_logo.
Proof.
  unfold logo_ok, tiny_logo. simpl.
  repeat split; try lia; repeat constructor; lia.
Qed.

Lemma draw_official_logo_spec_witness :
  logo_ok tiny_logo /\ surface blank /\
  exists fb', draw_official_logo tiny_logo blank 320 240 = Some fb' /\
    surface fb'.
Proof.
  split; [exact tiny_logo_ok|]. split; [exact blank_surface|].
  destruct (draw_official_logo_spec tiny_logo blank 320 240
              tiny_logo_ok blank_surface) as (fb' & Hrun & Hs & _).
  exists fb'. split; [exact Hrun | exact Hs].
Defined.

(** ** memset and the fill loop *)

Lemma memset_surface fb c :
  surface fb ->
  memset fb c FB_SIZE = Some (replicate (Z.to_nat FB_PIXELS) (splat c)).
Proof.
  intros Hfb. unfold memset.
  pose proof (surface_length _ Hfb) as Hlen.
  rewrite bool_decide_eq_true_2
    by (change FB_SIZE with 1228800; change FB_BPP with 4;
        rewrite Hlen; repeat split; lia).
  change (FB_SIZE / FB_BPP) with FB_PIXELS.
  rewrite drop_ge by (unfold surface in Hfb; lia).
  rewrite app_nil_r. reflexivity.
Qed.

Lemma replicate_surface v : surface (replicate (Z.to_nat FB_PIXELS) v).
Proof. apply length_replicate. Qed.

Lemma replicate_pixel v x y :
  on_surface x y -> pixel (replicate (Z.to_nat FB_PIXELS) v) x y = Some v.
Proof.
  intros Hon. rewrite pixel_lookup by assumption.
  apply lookup_replicate_2. unfold_consts. lia.
Qed.

(** [for (i = 0; i < FB_WIDTH * FB_HEIGHT; i++) fb[i] = color]. *)
Lemma fill_loop_spec fb color :
  surface fb ->
  exists fb',
    for_ 0 (FB_WIDTH * FB_HEIGHT) (fun i t => store32 t i color) fb = Some fb' /\
    surface fb' /\
    forall x y, on_surface x y -> pixel fb' x y = Some color.
Proof.
  intros Hfb.
  destruct (for_inv
    (fun i t => surface t /\ forall k : nat, (Z.of_nat k < i) ->
                  t !! k = Some color)
    (fun i t => store32 t i color) 0 (FB_WIDTH * FB_HEIGHT) fb)
    as (fb' & Hrun & Hs & Hall).
  - split; [exact Hfb|]. intros k Hk. lia.
  - intros i t Hi [Ht Hlow]. pose proof (surface_length _ Ht) as Hlen.
    exists (<[Z.to_nat i := color]> t). split.
    + unfold store32. rewrite bool_decide_eq_true_2; [reflexivity|].
      unfold_consts. lia.
    + split; [unfold surface; rewrite length_insert; exact Ht|].
      intros k Hk. destruct (decide (k = Z.to_nat i)) as [->|Hne].
      * apply list_lookup_insert_eq. unfold_consts. lia.
      * rewrite list_lookup_insert_ne by auto. apply Hlow. lia.
  - exists fb'. split; [exact Hrun|]. split; [exact Hs|].
    intros x y Hon. rewrite pixel_lookup by assumption.
    apply Hall. unfold_consts. lia.
Qed.

(** ** Code that only draws through put_pixel *)

Lemma safe_put_pixel x y c : safe (fun fb => put_pixel fb x y c).
Proof.
  intros fb Hfb. destruct (put_pixel_spec fb x y c Hfb) as (fb' & H & Hs & _).
  eauto.
Qed.

Lemma safe_skip : safe Some.
Proof. intros fb Hfb. eauto. Qed.

Lemma safe_if (b : bool) f g : safe f -> safe g -> safe (if b then f else g).
Proof. destruct b; auto. Qed.

Lemma safe_if' (b : bool) f g :
  safe f -> safe g -> safe (fun fb => if b then f fb else g fb).
Proof. destruct b; auto. Qed.

Lemma safe_bind f g : safe f -> safe g -> safe (fun fb => t ← f fb; g t).
Proof.
  intros Hf Hg fb Hfb. destruct (Hf fb Hfb) as (t & Ht & Hs).
  rewrite Ht. simpl. apply Hg. exact Hs.
Qed.

Lemma safe_for_range lo hi body :
  (forall i, lo <= i < hi -> safe (body i)) ->
  safe (fun fb => for_ lo hi body fb).
Proof.
  intros Hbody fb Hfb.
  destruct (for_inv (fun _ t => surface t) body lo hi fb Hfb) as (fb' & H & Hs).
  - intros j t Hj Ht. apply (Hbody j Hj). exact Ht.
  - eauto.
Qed.

Lemma safe_for lo hi body :
  (forall i, safe (body i)) -> safe (fun fb => for_ lo hi body fb).
Proof. intros Hbody. apply safe_for_range. intros i _. apply Hbody. Qed.

Ltac safe_tac :=
  repeat first
    [ apply safe_put_pixel | apply safe_skip
    | apply safe_for; intro | apply safe_bind | apply safe_if' ].

Lemma safe_draw_gradient_rgb : safe draw_gradient_rgb.
Proof. unfold draw_gradient_rgb. safe_tac. Qed.

Lemma safe_draw_rect x y w h c : safe (fun fb => draw_rect fb x y w h c).
Proof. unfold draw_rect. safe_tac. Qed.

Lemma safe_draw_color_bars : safe draw_color_bars.
Proof.
  unfold draw_color_bars. apply safe_for_range. intros i Hi.
  destruct (colors_get i Hi) as [Hget [c Hc]]. rewrite Hget, Hc.
  apply safe_draw_rect.
Qed.

Lemma safe_draw_vector_tux : safe draw_vector_tux.
Proof.
  unfold draw_vector_tux. cbv zeta.
  apply (safe_bind (fun fb => for_ _ _ _ fb)); [safe_tac|].
  apply (safe_bind (fun fb => for_ _ _ _ fb)); [safe_tac|].
  apply (safe_bind (fun fb => for_ _ _ _ fb)); [safe_tac|].
  apply (safe_bind (fun fb => for_ _ _ _ fb)); [safe_tac|].
  apply (safe_bind (fun fb => for_ _ _ _ fb)); [safe_tac|].
  safe_tac.
Qed.

(** ** The tiled blit *)

(** A loop whose body breaks from index [k] on and continues with [f] below
    is the counted loop of [f] cut at [k]. *)
Lemma for_break_from_cut {S : Type} (body : Z -> S -> option (step S))
    (f : Z -> S -> option S) (k : Z) n i (s : S) :
  (forall j t, i <= j -> j < k -> body j t = (t' ← f j t; Some (Continue t'))) ->
  (forall j t, i <= j -> k <= j -> body j t = Some (Break t)) ->
  for_break_from n i body s = for_from (Nat.min n (Z.to_nat (k - i))) i f s.
Proof.
  revert i s. induction n as [|n IH]; intros i s Hlow Hhigh; [reflexivity|].
  destruct (Z.lt_ge_cases i k) as [Hik|Hik].
  - replace (Nat.min (Datatypes.S n) (Z.to_nat (k - i)))
      with (Datatypes.S (Nat.min n (Z.to_nat (k - (i + 1))))) by lia.
    simpl. rewrite (Hlow i s) by lia.
    destruct (f i s) as [t|]; [|reflexivity]. simpl.
    apply IH; intros j u Hj1 Hj2; [apply Hlow | apply Hhigh]; lia.
  - replace (Nat.min (Datatypes.S n) (Z.to_nat (k - i))) with O by lia.
    simpl. rewrite (Hhigh i s) by lia. reflexivity.
Qed.

Lemma rows_fit_nonneg L : logo_ok L -> 0 <= rows_fit L.
Proof.
  intros (_ & Hh & _). unfold rows_fit. apply Z.div_pos; unfold FB_HEIGHT; lia.
Qed.

(** Row [r] fits exactly when it is one of the first [rows_fit]. *)
Lemma row_fits L r :
  logo_ok L -> 0 <= r ->
  (20 + r * (logo_linux_clut224_height L + 20) + logo_linux_clut224_height L
     <= FB_HEIGHT <-> r < rows_fit L).
Proof.
  intros (_ & Hh & _) Hr. unfold rows_fit, FB_HEIGHT.
  set (d := logo_linux_clut224_height L + 20).
  replace (20 + r * d + logo_linux_clut224_height L) with ((r + 1) * d)
    by (unfold d; lia).
  assert (Hd : 0 < d) by (unfold d; lia).
  split.
  - intros Hle. assert (r + 1 <= 480 / d); [|lia].
    apply Z.div_le_lower_bound; lia.
  - intros Hlt. assert (r + 1 <= 480 / d) by lia.
    pose proof (Z.mul_div_le 480 d Hd). nia.
Qed.

(** The loop of [draw_multiple_logos] is the counted loop over the copies
    that are placed. *)
Lemma logos_loop_placed {S : Type} L (draw : S -> Z -> Z -> option S) count s :
  logo_ok L ->
  logos_loop L draw count s =
    for_ 0 (placed L count)
      (fun i s => draw s (tile_centre L i).1 (tile_centre L i).2) s.
Proof.
  intros HL. pose proof (rows_fit_nonneg L HL) as HR.
  unfold logos_loop, for_break, for_. cbv zeta.
  rewrite (for_break_from_cut _
    (fun i s => draw s (tile_centre L i).1 (tile_centre L i).2)
    (4 * rows_fit L)).
  - f_equal. unfold placed. lia.
  - intros j t Hj0 Hj.
    rewrite Z.quot_div_nonneg, Z.rem_mod_nonneg by lia.
    destruct (Z.gtb_spec (20 + j / 4 * (logo_linux_clut224_height L + 20)
                          + logo_linux_clut224_height L) FB_HEIGHT) as [Hgt|Hle].
    + exfalso. assert (Hr : 0 <= j / 4) by (apply Z.div_pos; lia).
      pose proof (proj2 (row_fits L (j / 4) HL Hr)) as Hfit.
      assert (j / 4 < rows_fit L) by (apply Z.div_lt_upper_bound; lia).
      lia.
    + reflexivity.
  - intros j t Hj0 Hj.
    rewrite Z.quot_div_nonneg by lia.
    destruct (Z.gtb_spec (20 + j / 4 * (logo_linux_clut224_height L + 20)
                          + logo_linux_clut224_height L) FB_HEIGHT) as [Hgt|Hle].
    + reflexivity.
    + exfalso. assert (Hr : 0 <= j / 4) by (apply Z.div_pos; lia).
      pose proof (proj1 (row_fits L (j / 4) HL Hr) Hle) as Hfit.
      assert (rows_fit L <= j / 4) by (apply Z.div_le_lower_bound; lia).
      lia.
Qed.

Lemma for_from_record {A : Type} (c : Z -> A) n i (acc : list A) :
  for_from n i (fun j acc => Some (acc ++ [c j])) acc
  = Some (acc ++ map c (seqZ i (Z.of_nat n))).
Proof.
  revert i acc. induction n as [|n IH]; intros i acc.
  - simpl. rewrite app_nil_r. reflexivity.
  - rewrite seqZ_cons by lia. simpl for_from. rewrite IH.
    replace (Z.pred (Z.of_nat (Datatypes.S n))) with (Z.of_nat n) by lia.
    simpl. rewrite <- app_assoc. reflexivity.
Qed.

(** The calls of the loop: the centres of the first [placed] copies. *)
Lemma logo_calls_placed L count :
  logo_ok L ->
  logo_calls L count = map (tile_centre L) (seqZ 0 (placed L count)).
Proof.
  intros HL. unfold logo_calls. rewrite logos_loop_placed by exact HL.
  unfold for_.
  change (fun (i : Z) (s : list (Z * Z)) =>
            Some (s ++ [((tile_centre L i).1, (tile_centre L i).2)]))
    with (fun (i : Z) (s : list (Z * Z)) => Some (s ++ [tile_centre L i])).
  rewrite for_from_record. simpl.
  rewrite Z.sub_0_r, Z2Nat.id; [reflexivity|].
  unfold placed. pose proof (rows_fit_nonneg L HL). lia.
Qed.

Lemma blit_all_None L cs :
  foldl (fun acc c => t ← acc; draw_official_logo L t c.1 c.2) None cs = None.
Proof. induction cs as [|c cs IH]; [reflexivity | exact IH]. Qed.

Lemma for_from_blit_all L (c : Z -> Z * Z) n i fb :
  for_from n i (fun j t => draw_official_logo L t (c j).1 (c j).2) fb
  = blit_all L (map c (seqZ i (Z.of_nat n))) fb.
Proof.
  unfold blit_all. revert i fb. induction n as [|n IH]; intros i fb.
  - reflexivity.
  - rewrite seqZ_cons by lia.
    replace (Z.pred (Z.of_nat (Datatypes.S n))) with (Z.of_nat n) by lia.
    simpl. destruct (draw_official_logo L fb (c i).1 (c i).2) as [t|].
    + simpl. apply IH.
    + simpl. symmetry. apply blit_all_None.
Qed.

(** Two different copies do not overlap. *)
Lemma tiles_disjoint L i j px py :
  logo_ok L -> 0 <= i -> 0 <= j ->
  in_tile L i px py -> in_tile L j px py -> i = j.
Proof.
  intros (Hw & Hh & _) Hi Hj [Hxi Hyi] [Hxj Hyj].
  unfold tile_x, tile_y in *.
  set (w := logo_linux_clut224_width L) in *.
  set (h := logo_linux_clut224_height L) in *.
  assert (Hc : i mod 4 = j mod 4).
  { destruct (Z.lt_trichotomy (i mod 4) (j mod 4)) as [Hlt|[Heq|Hgt]];
      [exfalso | exact Heq | exfalso].
    - assert ((i mod 4 + 1) * (w + 20) <= (j mod 4) * (w + 20))
        by (apply Z.mul_le_mono_nonneg_r; lia).
      lia.
    - assert ((j mod 4 + 1) * (w + 20) <= (i mod 4) * (w + 20))
        by (apply Z.mul_le_mono_nonneg_r; lia).
      lia. }
  assert (Hr : i / 4 = j / 4).
  { destruct (Z.lt_trichotomy (i / 4) (j / 4)) as [Hlt|[Heq|Hgt]];
      [exfalso | exact Heq | exfalso].
    - assert ((i / 4 + 1) * (h + 20) <= (j / 4) * (h + 20))
        by (apply Z.mul_le_mono_nonneg_r; lia).
      lia.
    - assert ((j / 4 + 1) * (h + 20) <= (i / 4) * (h + 20))
        by (apply Z.mul_le_mono_nonneg_r; lia).
      lia. }
  rewrite (Z.div_mod i 4), (Z.div_mod j 4) by lia. lia.
Qed.

(** The tiled blit of [n] copies over a surface, pixel by pixel. *)
Lemma tiles_pixels L fb n :
  logo_ok L -> surface fb ->
  exists fb',
    for_ 0 n (fun i t =>
      draw_official_logo L t (tile_centre L i).1 (tile_centre L i).2) fb
    = Some fb' /\ surface fb' /\
    forall px py, on_surface px py ->
      (forall i, 0 <= i < n -> in_tile L i px py ->
         pixel fb' px py = logo_color L (px - tile_x L i) (py - tile_y L i)) /\
      ((forall i, 0 <= i < n -> ~ in_tile L i px py) ->
         pixel fb' px py = pixel fb px py).
Proof.
  intros HL Hfb.
  destruct (for_inv
    (fun k t => surface t /\ forall px py, on_surface px py ->
       (forall i, 0 <= i < k -> in_tile L i px py ->
          pixel t px py = logo_color L (px - tile_x L i) (py - tile_y L i)) /\
       ((forall i, 0 <= i < k -> ~ in_tile L i px py) ->
          pixel t px py = pixel fb px py))
    (fun i t =>
      draw_official_logo L t (tile_centre L i).1 (tile_centre L i).2) 0 n fb)
    as (fb' & Hrun & Hs & Hpix).
  - split; [exact Hfb|]. intros px py _. split; [intros i Hi; lia | auto].
  - intros k t Hk [Ht Hinv].
    destruct (draw_official_logo_pixels L t (tile_centre L k).1
                (tile_centre L k).2 HL Ht) as (t' & Hrun & Ht' & Hpix).
    exists t'. split; [exact Hrun|]. split; [exact Ht'|].
    intros px py Hon. specialize (Hpix px py Hon). cbv zeta in Hpix.
    unfold tile_centre in Hpix. simpl in Hpix.
    rewrite !Z.add_simpl_r in Hpix.
    destruct (Hinv px py Hon) as [Hcov Hfree]. split.
    + intros i Hi Hin. rewrite Hpix.
      destruct (decide (i = k)) as [->|Hne].
      * rewrite bool_decide_eq_true_2 by exact Hin. reflexivity.
      * rewrite bool_decide_eq_false_2.
        -- apply Hcov; [lia | exact Hin].
        -- intros Hin'. apply Hne.
           apply (tiles_disjoint L i k px py HL); [lia | lia | exact Hin |].
           exact Hin'.
    + intros Hnone. rewrite Hpix.
      rewrite bool_decide_eq_false_2 by (apply (Hnone k); lia).
      apply Hfree. intros i Hi. apply Hnone. lia.
  - exists fb'. split; [exact Hrun|]. split; [exact Hs|].
    intros px py Hon. destruct (Hpix px py Hon) as [Hcov Hfree]. split.
    + intros i Hi. apply Hcov. lia.
    + intros Hnone. apply Hfree. intros i Hi. apply Hnone. lia.
Qed.

Lemma placed_range L count :
  logo_ok L -> 0 <= placed L count /\ placed L count <= 4 * rows_fit L /\
               (0 <= count -> placed L count <= count).
Proof.
  intros HL. pose proof (rows_fit_nonneg L HL). unfold placed. lia.
Qed.

(** The tiled blit is the counted loop of blits over the zeroed surface. *)
Lemma draw_multiple_logos_tiles L fb count :
  logo_ok L -> surface fb ->
  draw_multiple_logos L fb count =
    for_ 0 (placed L count)
      (fun i t => draw_official_logo L t (tile_centre L i).1 (tile_centre L i).2)
      (replicate (Z.to_nat FB_PIXELS) 0).
Proof.
  intros HL Hfb. unfold draw_multiple_logos.
  rewrite (memset_surface fb 0 Hfb). change (splat 0) with 0.
  rewrite bind_Some. apply logos_loop_placed. exact HL.
Qed.

(** C6. The tiled blit does not fault.  It first zeroes the whole surface
    and then blits copies of the logo, in call order the first
    [placed L count] cells of a row-major grid of 4 columns whose cell [i] has
    its top-left corner at
    [(grid_x + (i mod 4) * (w + 20), 20 + (i / 4) * (h + 20))], the grid
    being centred horizontally up to the rounding of the halving.  Every
    copy placed fits in the height; when fewer than [count] are placed the
    next one would not fit; and when the rows needed for [count] copies,
    [(count + 3) / 4], exceed the [rows_fit L] rows that fit, strictly fewer
    than [count] copies are placed.  Pixels under a copy hold the logo's
    colour, all others are zero. *)
Theorem draw_multiple_logos_spec (L : logo_tux_data) (fb : list Z) (count : Z) :
  logo_ok L -> surface fb ->
  let w := logo_linux_clut224_width L in
  let h := logo_linux_clut224_height L in
  exists fb',
    draw_multiple_logos L fb count = Some fb' /\ surface fb' /\
    logo_calls L count =
      map (fun i => (grid_x L + (i mod 4) * (w + 20) + Z.quot w 2,
                     20 + (i / 4) * (h + 20) + Z.quot h 2))
          (seqZ 0 (placed L count)) /\
    blit_all L (logo_calls L count) (replicate (Z.to_nat FB_PIXELS) 0)
      = Some fb' /\
    -1 <= (FB_WIDTH - (grid_x L + 3 * (w + 20) + w)) - grid_x L <= 1 /\
    (forall i, 0 <= i < placed L count ->
       20 + (i / 4) * (h + 20) + h <= FB_HEIGHT) /\
    (placed L count < count ->
       20 + (placed L count / 4) * (h + 20) + h > FB_HEIGHT) /\
    (rows_fit L < (count + 3) / 4 ->
       Z.of_nat (length (logo_calls L count)) < count) /\
    (forall px py, 0 <= px < FB_WIDTH -> 0 <= py < FB_HEIGHT ->
       (forall i, 0 <= i < placed L count -> in_tile L i px py ->
          pixel fb' px py = logo_color L (px - tile_x L i) (py - tile_y L i)) /\
       ((forall i, 0 <= i < placed L count -> ~ in_tile L i px py) ->
          pixel fb' px py = Some 0)).
Proof.
  intros HL Hfb w h.
  pose proof (placed_range L count HL) as (Hp0 & HpR & Hpc).
  pose proof (rows_fit_nonneg L HL) as HR.
  destruct (tiles_pixels L (replicate (Z.to_nat FB_PIXELS) 0) (placed L count)
              HL (replicate_surface 0)) as (fb' & Hrun & Hs & Hpix).
  exists fb'.
  assert (Hcalls : logo_calls L count
                   = map (tile_centre L) (seqZ 0 (placed L count)))
    by (apply logo_calls_placed; exact HL).
  split; [|split; [exact Hs|]].
  { rewrite draw_multiple_logos_tiles by assumption. exact Hrun. }
  split; [exact Hcalls|]. split.
  { rewrite Hcalls. rewrite <- Hrun. unfold for_.
    rewrite (for_from_blit_all L (tile_centre L)).
    rewrite Z.sub_0_r, Z2Nat.id by lia. reflexivity. }
  split.
  { unfold grid_x, FB_WIDTH. fold w.
    Z.to_euclidean_division_equations. lia. }
  split.
  { intros i Hi. apply (row_fits L (i / 4) HL).
    - apply Z.div_pos; lia.
    - apply Z.div_lt_upper_bound; lia. }
  split.
  { intros Hlt.
    assert (Heq : placed L count = 4 * rows_fit L) by (unfold placed in *; lia).
    rewrite Heq. rewrite (Z.mul_comm 4), Z.div_mul by lia.
    pose proof (row_fits L (rows_fit L) HL HR) as Hfit. fold h in Hfit. lia. }
  split.
  { intros Hrows. rewrite Hcalls, length_map, length_seqZ.
    assert (4 * rows_fit L < count).
    { assert (rows_fit L + 1 <= (count + 3) / 4) by lia.
      pose proof (Z.mul_div_le (count + 3) 4 ltac:(lia)). lia. }
    unfold placed. lia. }
  intros px py Hpx Hpy.
  destruct (Hpix px py (conj Hpx Hpy)) as [Hcov Hfree]. split.
  - exact Hcov.
  - intros Hnone. rewrite (Hfree Hnone). apply replicate_pixel.
    split; assumption.
Qed.

Lemma draw_multiple_logos_spec_witness :
  logo_ok tiny_logo /\ surface blank /\
  exists fb', draw_multiple_logos tiny_logo blank 1000 = Some fb' /\
    surface fb' /\
    Z.of_nat (length (logo_calls tiny_logo 1000)) < 1000.
Proof.
  split; [exact tiny_logo_ok|]. split; [exact blank_surface|].
  destruct (draw_multiple_logos_spec tiny_logo blank 1000
              tiny_logo_ok blank_surface)
    as (fb' & Hrun & Hs & _ & _ & _ & _ & _ & Hfew & _).
  exists fb'. split; [exact Hrun|]. split; [exact Hs|].
  apply Hfew. vm_compute. reflexivity.
Defined.

(** ** The life cycle *)

Lemma steps_trans m1 m2 m3 e1 e2 :
  steps m1 m2 e1 -> steps m2 m3 e2 -> steps m1 m3 (e1 ++ e2).
Proof.
  intros [Ht1 Hv1] [Ht2 Hv2]. split.
  - rewrite Ht2, Ht1, app_assoc. reflexivity.
  - rewrite Hv2, Hv1. reflexivity.
Qed.

Lemma quiet_tty_open path fd : path <> "/dev/fb0" -> quiet (Open path fd).
Proof. intros Hp. split; [intros [= H _]; contradiction | discriminate]. Qed.

Lemma fbcon_disable_steps m :
  exists evs, steps m (fbcon_disable m) evs /\ Forall quiet evs /\
    fb_fd (fbcon_disable m) = fb_fd m /\
    fb_mmap_ptr (fbcon_disable m) = fb_mmap_ptr m.
Proof.
  assert (Q0 : forall fd, quiet (Open "/dev/tty0" fd))
    by (intros; apply quiet_tty_open; discriminate).
  assert (Q1 : forall fd, quiet (Open "/dev/console" fd))
    by (intros; apply quiet_tty_open; discriminate).
  assert (Q2 : forall fd k ok, quiet (KdSetMode fd k ok))
    by (intros; split; discriminate).
  assert (Hge : forall z, 0 <= z -> (z >=? 0) = true)
    by (intros z Hz; destruct (Z.geb_spec z 0); [reflexivity | lia]).
  assert (Hlt : forall z, 0 <= z -> (z <? 0) = false)
    by (intros z Hz; destruct (Z.ltb_spec z 0); [lia | reflexivity]).
  unfold fbcon_disable, sys_open, kd_set_mode.
  destruct (can_open m "/dev/tty0") eqn:E0.
  - cbn -[Z.max]. rewrite Hlt by lia. cbn -[Z.max]. rewrite Hge by lia.
    cbn -[Z.max]. destruct (can_set_mode m _ _);
      (eexists; split; [split; cbn; [rewrite <- app_assoc|]; reflexivity|];
       split; [|split; reflexivity]; repeat constructor; auto).
  - cbn -[Z.max]. destruct (can_open m "/dev/console") eqn:E1.
    + cbn -[Z.max]. rewrite Hge by lia.
      cbn -[Z.max]. destruct (can_set_mode m _ _);
        (eexists; split; [split; cbn; [rewrite <- !app_assoc|]; reflexivity|];
         split; [|split; reflexivity]; repeat constructor; auto).
    + cbn. eexists. split; [split; cbn; [rewrite <- !app_assoc|]; reflexivity|].
      split; [|split; reflexivity]. repeat constructor; auto.
Qed.

Lemma finish_steps fb m :
  0 <= fb_fd m ->
  exists m' evs, finish fb m = Some (0, m') /\
    trace m' = trace m ++ evs /\ Forall quiet evs /\ vram m' = fb.
Proof.
  intros Hfd. unfold finish, fb_flush. cbn.
  replace (fb_fd m <? 0) with false
    by (destruct (Z.ltb_spec (fb_fd m) 0); [lia | reflexivity]).
  destruct (fb_mmap_ptr m); cbn; eexists; eexists;
    (split; [reflexivity|]);
    (split; [cbn; rewrite <- ?app_assoc; reflexivity|]);
    (split; [|reflexivity]);
    repeat constructor; discriminate.
Qed.

(** ** Rendering *)

Lemma finish_rendered fb m :
  0 <= fb_fd m -> surface fb -> rendered m (finish fb m) fb.
Proof.
  intros Hfd Hfb. destruct (finish_steps fb m Hfd) as (m' & evs & H1 & H2 & H3 & H4).
  exists m', evs. auto.
Qed.

Lemma render_logo L LM argv m :
  logo_ok L -> surface (vram m) -> 0 <= fb_fd m ->
  exists fb, rendered m (render_mode L LM argv "logo" m) fb.
Proof.
  intros HL Hfb Hfd. unfold render_mode.
  change (String.eqb "logo" "logo") with true. cbv iota zeta.
  destruct (_ =? 1).
  - rewrite (memset_surface _ 0 Hfb), bind_Some.
    destruct (draw_official_logo_pixels L _ (Z.quot FB_WIDTH 2)
                (Z.quot FB_HEIGHT 2) HL (replicate_surface (splat 0)))
      as (fb' & Hrun & Hs & _).
    rewrite Hrun, bind_Some. exists fb'. apply finish_rendered; assumption.
  - rewrite draw_multiple_logos_tiles by assumption.
    destruct (tiles_pixels L (replicate (Z.to_nat FB_PIXELS) 0)
                (placed L (if Z.of_nat (length argv) >? 2
                           then atoi LM (nth 2 argv "") else 1))
                HL (replicate_surface 0)) as (fb' & Hrun & Hs & _).
    rewrite Hrun, bind_Some. exists fb'. apply finish_rendered; assumption.
Qed.

Lemma render_safe (f : list Z -> option (list Z)) m :
  safe f -> surface (vram m) -> 0 <= fb_fd m ->
  exists fb, rendered m (fb ← f (vram m); finish fb m) fb.
Proof.
  intros Hf Hfb Hfd. destruct (Hf _ Hfb) as (fb' & Hrun & Hs).
  rewrite Hrun, bind_Some. exists fb'. apply finish_rendered; assumption.
Qed.

Lemma safe_memset c : safe (fun fb => memset fb c FB_SIZE).
Proof.
  intros fb Hfb. rewrite (memset_surface fb c Hfb).
  eexists. split; [reflexivity | apply replicate_surface].
Qed.

Lemma safe_fill c :
  safe (fun fb => for_ 0 (FB_WIDTH * FB_HEIGHT) (fun i t => store32 t i c) fb).
Proof.
  intros fb Hfb. destruct (fill_loop_spec fb c Hfb) as (fb' & H & Hs & _). eauto.
Qed.

Lemma render_safe2 (f g : list Z -> option (list Z)) m :
  safe f -> safe g -> surface (vram m) -> 0 <= fb_fd m ->
  exists fb, rendered m (a ← f (vram m); b ← g a; finish b m) fb.
Proof.
  intros Hf Hg Hfb Hfd. destruct (Hf _ Hfb) as (a & Hrun & Hs).
  rewrite Hrun, bind_Some. destruct (Hg _ Hs) as (b & Hrun' & Hs').
  rewrite Hrun', bind_Some. exists b. apply finish_rendered; assumption.
Qed.

(** Decides the string comparisons of a dispatch on a known request. *)
Ltac dispatch :=
  repeat match goal with
  | |- context [String.eqb ?a ?b] =>
      let v := eval vm_compute in (String.eqb a b) in
      change (String.eqb a b) with v
  end;
  cbv iota zeta.

(** Every request but [text] and the unknown ones renders. *)
Lemma render_mode_known L LM argv mode m :
  logo_ok L -> surface (vram m) -> 0 <= fb_fd m ->
  mode ∈ ["logo"; "tux"; "color"; "gradient"; "clear"; "fill"] ->
  exists fb, rendered m (render_mode L LM argv mode m) fb.
Proof.
  intros HL Hfb Hfd Hmode.
  rewrite !elem_of_cons, elem_of_nil in Hmode.
  destruct Hmode as [->|[->|[->|[->|[->|[->|[]]]]]]].
  - apply render_logo; assumption.
  - unfold render_mode. dispatch.
    apply (render_safe2 (fun fb => memset fb 0x40 FB_SIZE) draw_vector_tux);
      [apply safe_memset | apply safe_draw_vector_tux | assumption..].
  - unfold render_mode. dispatch.
    apply (render_safe draw_color_bars); [apply safe_draw_color_bars|assumption..].
  - unfold render_mode. dispatch.
    apply (render_safe draw_gradient_rgb);
      [apply safe_draw_gradient_rgb|assumption..].
  - unfold render_mode. dispatch.
    apply (render_safe (fun fb => memset fb 0 FB_SIZE));
      [apply safe_memset|assumption..].
  - unfold render_mode. dispatch.
    apply (render_safe (fun fb => for_ 0 (FB_WIDTH * FB_HEIGHT)
                                   (fun i t => store32 t i _) fb));
      [apply safe_fill|assumption..].
Qed.

(** ** main *)

Lemma quiet_not_in evs :
  Forall quiet evs -> (Open "/dev/fb0" (-1) ∉ evs) /\ (Mmap false ∉ evs).
Proof.
  intros H. rewrite Forall_forall in H.
  split; intros Hin; destruct (H _ Hin) as [H1 H2]; congruence.
Qed.

Lemma fbcon_restore_steps m :
  exists evs, steps m (fbcon_restore m) evs /\ Forall quiet evs.
Proof.
  unfold fbcon_restore, kd_set_mode. destruct (tty_fd m >=? 0).
  - destruct (can_set_mode m _ _);
      (eexists; split; [split; cbn; [rewrite <- app_assoc|]; reflexivity|];
       repeat constructor; discriminate).
  - exists []. split; [split; [rewrite app_nil_r|]; reflexivity | constructor].
Qed.

Lemma acquired_steps m :
  can_open m "/dev/fb0" = true -> can_map m = true ->
  exists evs, steps m (acquired m) evs /\ Forall quiet evs /\
    0 <= fb_fd (acquired m).
Proof.
  intros Hopen Hmap. unfold acquired.
  set (m0 := set_fb_mmap_ptr MAPPED _).
  destruct (fbcon_disable_steps m0) as (evs & Hst & Hq & Hfd & _).
  assert (H0 : steps m m0 [Open "/dev/fb0" (Z.max 0 (next_fd m)); Mmap true] /\
               fb_fd m0 = Z.max 0 (next_fd m)).
  { subst m0. unfold sys_open, sys_mmap. rewrite Hopen. cbn -[Z.max].
    rewrite Hmap. cbn -[Z.max]. split; [split|]; [|reflexivity..].
    cbn -[Z.max]. rewrite <- app_assoc. reflexivity. }
  destruct H0 as [H0 Hfd0].
  eexists. split; [exact (steps_trans _ _ _ _ _ H0 Hst)|]. split.
  - apply Forall_app. split; [|exact Hq].
    repeat constructor; try discriminate.
    intros [= H]. lia.
  - rewrite Hfd, Hfd0. lia.
Qed.

Lemma main_text L LM argv m :
  mode_of argv = "text" -> main L LM argv m = Some (0, fbcon_restore m).
Proof.
  intros Hmode. unfold main. fold (mode_of argv). cbv zeta.
  rewrite Hmode. reflexivity.
Qed.

Lemma main_open_failed L LM argv m :
  mode_of argv <> "text" -> can_open m "/dev/fb0" = false ->
  exists m', main L LM argv m = Some (1, m') /\
    steps m m' [Open "/dev/fb0" (-1)].
Proof.
  intros Hmode Hopen. unfold main. fold (mode_of argv). cbv zeta.
  rewrite (proj2 (String.eqb_neq _ _) Hmode).
  unfold sys_open. rewrite Hopen. cbn.
  eexists. split; [reflexivity|]. split; reflexivity.
Qed.

Lemma main_map_failed L LM argv m :
  mode_of argv <> "text" -> can_open m "/dev/fb0" = true ->
  can_map m = false ->
  exists m' fd, main L LM argv m = Some (1, m') /\ 0 <= fd /\
    steps m m' [Open "/dev/fb0" fd; Mmap false; Close fd].
Proof.
  intros Hmode Hopen Hmap. unfold main. fold (mode_of argv). cbv zeta.
  rewrite (proj2 (String.eqb_neq _ _) Hmode).
  unfold sys_open, sys_mmap. rewrite Hopen. cbn -[Z.max].
  replace (Z.max 0 (next_fd m) <? 0) with false
    by (destruct (Z.ltb_spec (Z.max 0 (next_fd m)) 0); [lia | reflexivity]).
  rewrite Hmap. cbn -[Z.max].
  eexists. exists (Z.max 0 (next_fd m)). split; [reflexivity|].
  split; [lia|]. split; cbn -[Z.max]; [|reflexivity].
  rewrite <- !app_assoc. reflexivity.
Qed.

Lemma main_acquired L LM argv m :
  mode_of argv <> "text" -> can_open m "/dev/fb0" = true ->
  can_map m = true ->
  main L LM argv m = render_mode L LM argv (mode_of argv) (acquired m).
Proof.
  intros Hmode Hopen Hmap. unfold main, acquired. fold (mode_of argv). cbv zeta.
  rewrite (proj2 (String.eqb_neq _ _) Hmode).
  unfold sys_open, sys_mmap. rewrite Hopen. cbn -[Z.max render_mode fbcon_disable].
  replace (Z.max 0 (next_fd m) <? 0) with false
    by (destruct (Z.ltb_spec (Z.max 0 (next_fd m)) 0); [lia | reflexivity]).
  rewrite Hmap. reflexivity.
Qed.

Lemma render_mode_unknown L LM argv mode m :
  mode ∉ known_modes ->
  exists m', render_mode L LM argv mode m = Some (1, m') /\
    steps m m' [Munmap; Close (fb_fd m)].
Proof.
  intros Hmode. unfold known_modes in Hmode.
  rewrite !not_elem_of_cons in Hmode.
  destruct Hmode as (H1 & H2 & H3 & H4 & H5 & H6 & _).
  unfold render_mode.
  rewrite (proj2 (String.eqb_neq _ _) H1), (proj2 (String.eqb_neq _ _) H2),
    (proj2 (String.eqb_neq _ _) H3), (proj2 (String.eqb_neq _ _) H4),
    (proj2 (String.eqb_neq _ _) H5), (proj2 (String.eqb_neq _ _) H6).
  cbv zeta. eexists. split; [reflexivity|]. split; cbn; [|reflexivity].
  rewrite <- app_assoc. reflexivity.
Qed.

Lemma known_modes_text_or mode :
  mode ∈ known_modes <->
  mode = "text" \/ mode ∈ ["logo"; "tux"; "color"; "gradient"; "clear"; "fill"].
Proof.
  unfold known_modes. rewrite !elem_of_cons, !elem_of_nil. tauto.
Qed.

(** C9. [main] always returns, with status 0 or 1.  The status is 1 exactly
    when the run contains a failed open of the framebuffer device or a failed
    mapping, or the request is not a known one; the open fails when the
    request is not [text] and the device cannot be opened, the mapping fails
    when the device opens but cannot be mapped.  On an unknown request the
    device buffer is left as it was. *)
Theorem main_exit_status (L : logo_tux_data) (LONG_MAX : Z)
    (argv : list string) (m : machine) :
  logo_ok L -> surface (vram m) ->
  exists st m' evs,
    main L LONG_MAX argv m = Some (st, m') /\
    trace m' = trace m ++ evs /\
    (st = 0 \/ st = 1) /\
    (st = 1 <-> (Open "/dev/fb0" (-1) ∈ evs) \/ (Mmap false ∈ evs) \/
                (mode_of argv ∉ known_modes)) /\
    (Open "/dev/fb0" (-1) ∈ evs <->
       mode_of argv <> "text" /\ can_open m "/dev/fb0" = false) /\
    (Mmap false ∈ evs <->
       mode_of argv <> "text" /\ can_open m "/dev/fb0" = true /\
       can_map m = false) /\
    (mode_of argv ∉ known_modes -> vram m' = vram m).
Proof.
  intros HL Hfb.
  destruct (String.eqb_spec (mode_of argv) "text") as [Ht|Ht].
  { (* text *)
    destruct (fbcon_restore_steps m) as (evs & [Htr Hv] & Hq).
    destruct (quiet_not_in evs Hq) as [Hno Hnm].
    exists 0, (fbcon_restore m), evs.
    split; [apply main_text; exact Ht|]. split; [exact Htr|].
    split; [auto|].
    assert (Hk : mode_of argv ∈ known_modes)
      by (apply known_modes_text_or; auto).
    repeat split; try tauto; try lia; try (intros; exact Hv). }
  destruct (can_open m "/dev/fb0") eqn:Hopen.
  2:{ (* the device does not open *)
    destruct (main_open_failed L LONG_MAX argv m Ht Hopen) as (m' & Hrun & Htr & Hv).
    exists 1, m', [Open "/dev/fb0" (-1)].
    split; [exact Hrun|]. split; [exact Htr|]. split; [auto|].
    assert (Hin : Open "/dev/fb0" (-1) ∈ [Open "/dev/fb0" (-1)])
      by (rewrite !elem_of_cons; auto).
    assert (Hnm : Mmap false ∉ [Open "/dev/fb0" (-1)])
      by (rewrite !elem_of_cons, elem_of_nil; intros [?|[]]; discriminate).
    repeat split; auto; try tauto; try (intros [_ [? _]]; discriminate). }
  destruct (can_map m) eqn:Hmap.
  2:{ (* the mapping fails *)
    destruct (main_map_failed L LONG_MAX argv m Ht Hopen Hmap)
      as (m' & fd & Hrun & Hfd & Htr & Hv).
    exists 1, m', [Open "/dev/fb0" fd; Mmap false; Close fd].
    split; [exact Hrun|]. split; [exact Htr|]. split; [auto|].
    assert (Hin : Mmap false ∈ [Open "/dev/fb0" fd; Mmap false; Close fd])
      by (rewrite !elem_of_cons; auto).
    assert (Hno : Open "/dev/fb0" (-1) ∉ [Open "/dev/fb0" fd; Mmap false; Close fd]).
    { rewrite !elem_of_cons, elem_of_nil.
      intros [[= H]|[H|[H|[]]]]; [lia | discriminate..]. }
    repeat split; auto; try tauto; try (intros [_ ?]; discriminate). }
  (* the device is mapped *)
  rewrite (main_acquired L LONG_MAX argv m Ht Hopen Hmap).
  destruct (acquired_steps m Hopen Hmap) as (evs1 & [Htr1 Hv1] & Hq1 & Hfd).
  destruct (in_dec string_dec (mode_of argv)
              ["logo"; "tux"; "color"; "gradient"; "clear"; "fill"]) as [Hk|Hk];
    rewrite <- list_elem_of_In in Hk.
  - (* a rendering request *)
    destruct (render_mode_known L LONG_MAX argv (mode_of argv) (acquired m) HL
                ltac:(rewrite Hv1; exact Hfb) Hfd Hk)
      as (fb & m' & evs2 & Hrun & Htr2 & Hq2 & _).
    exists 0, m', (evs1 ++ evs2).
    split; [exact Hrun|].
    split; [rewrite Htr2, Htr1, app_assoc; reflexivity|]. split; [auto|].
    destruct (quiet_not_in (evs1 ++ evs2)) as [Hno Hnm];
      [apply Forall_app; auto|].
    assert (Hkm : mode_of argv ∈ known_modes)
      by (apply known_modes_text_or; auto).
    repeat split; try tauto; try lia; try (intros [_ ?]; discriminate);
      try (intros [_ [_ ?]]; discriminate).
  - (* an unknown request *)
    assert (Hkm : mode_of argv ∉ known_modes)
      by (rewrite known_modes_text_or; tauto).
    destruct (render_mode_unknown L LONG_MAX argv (mode_of argv) (acquired m) Hkm)
      as (m' & Hrun & Htr2 & Hv2).
    exists 1, m', (evs1 ++ [Munmap; Close (fb_fd (acquired m))]).
    split; [exact Hrun|].
    split; [rewrite Htr2, Htr1, app_assoc; reflexivity|]. split; [auto|].
    destruct (quiet_not_in (evs1 ++ [Munmap; Close (fb_fd (acquired m))]))
      as [Hno Hnm].
    { apply Forall_app. split; [exact Hq1|]. repeat constructor; discriminate. }
    repeat split; auto; try tauto; try (intros [_ ?]; discriminate);
      try (intros [_ [_ ?]]; discriminate).
    intros _. rewrite Hv2, Hv1. reflexivity.
Qed.

Lemma main_exit_status_witness :
  logo_ok tiny_logo /\ surface (vram good_machine) /\
  exists st m', main tiny_logo (2 ^ 63 - 1) ["fb_tux"; "bogus"] good_machine
                = Some (st, m') /\ st = 1 /\ vram m' = vram good_machine.
Proof.
  split; [exact tiny_logo_ok|]. split; [exact blank_surface|].
  destruct (main_exit_status tiny_logo (2 ^ 63 - 1) ["fb_tux"; "bogus"]
              good_machine tiny_logo_ok blank_surface)
    as (st & m' & evs & Hrun & _ & _ & Hst & _ & _ & Hv).
  assert (Hun : mode_of ["fb_tux"; "bogus"] ∉ known_modes).
  { change (mode_of ["fb_tux"; "bogus"]) with "bogus". unfold known_modes.
    rewrite !not_elem_of_cons. repeat split; try discriminate.
    apply not_elem_of_nil. }
  exists st, m'. split; [exact Hrun|]. split.
  - apply Hst. right. right. exact Hun.
  - apply Hv. exact Hun.
Defined.

(** ** The clear and fill requests *)

Lemma rendered_run m r fb :
  rendered m r fb -> exists m', r = Some (0, m') /\ vram m' = fb.
Proof. intros (m' & evs & Hr & _ & _ & Hv & _). eauto. Qed.

(** The [clear] request leaves the zeroed surface. *)
Lemma clear_run L LM argv m :
  mode_of argv = "clear" -> can_open m "/dev/fb0" = true ->
  can_map m = true -> surface (vram m) ->
  exists m', main L LM argv m = Some (0, m') /\
    vram m' = replicate (Z.to_nat FB_PIXELS) 0.
Proof.
  intros Hmode Hopen Hmap Hfb.
  rewrite main_acquired by (rewrite ?Hmode; auto; discriminate).
  destruct (acquired_steps m Hopen Hmap) as (evs & [_ Hv] & _ & Hfd).
  rewrite Hmode. unfold render_mode. dispatch.
  rewrite memset_surface by (rewrite Hv; exact Hfb).
  rewrite bind_Some. change (splat 0) with 0.
  apply (rendered_run (acquired m)).
  apply finish_rendered; [exact Hfd | apply replicate_surface].
Qed.

(** The [fill] request leaves every pixel at [fill_color]. *)
Lemma fill_run L LM argv m :
  mode_of argv = "fill" -> can_open m "/dev/fb0" = true ->
  can_map m = true -> surface (vram m) ->
  exists m', main L LM argv m = Some (0, m') /\
    forall x y, on_surface x y -> pixel (vram m') x y = Some (fill_color LM argv).
Proof.
  intros Hmode Hopen Hmap Hfb.
  rewrite main_acquired by (rewrite ?Hmode; auto; discriminate).
  destruct (acquired_steps m Hopen Hmap) as (evs & [_ Hv] & _ & Hfd).
  rewrite Hmode. unfold render_mode. dispatch. fold (fill_color LM argv).
  destruct (fill_loop_spec (vram (acquired m)) (fill_color LM argv))
    as (fb' & Hrun & Hs & Hpix); [rewrite Hv; exact Hfb|].
  rewrite Hrun, bind_Some.
  destruct (rendered_run (acquired m) _ fb' (finish_rendered fb' _ Hfd Hs))
    as (m' & Hr & Hv').
  exists m'. split; [exact Hr|]. rewrite Hv'. exact Hpix.
Qed.

Lemma lor_u32 a b : is_u32 a -> is_u32 b -> is_u32 (Z.lor a b).
Proof.
  intros Ha Hb.
  assert (Heq : Z.lor a b = wrap32 (Z.lor a b)).
  { apply Z.bits_inj'. intros n Hn. rewrite testbit_wrap32.
    destruct (Z.ltb_spec n 32); [reflexivity|].
    rewrite Z.lor_spec, (testbit_u32_high a n Ha), (testbit_u32_high b n Hb)
      by lia. reflexivity. }
  rewrite Heq. unfold wrap32, is_u32. apply Z.mod_pos_bound. lia.
Qed.

(** Or-ing 0xFF000000 onto a word makes its alpha byte 255. *)
Lemma opaque_alpha v : chan_a (Z.lor 0xFF000000 v) = 255.
Proof.
  apply Z.bits_inj'. intros n Hn. unfold chan_a.
  change 0xFF000000 with (Z.shiftl 255 24). bits.
  rewrite ?Z.add_simpl_r.
  destruct (Z.leb_spec 0 n); [|lia].
  destruct (Z.leb_spec 0 (n + 24)); [|lia].
  destruct (Z.ltb_spec n 8); simpl; rewrite ?andb_false_r; reflexivity.
Qed.

Lemma digits_no_digit base s :
  match s with
  | String c _ => digit_in base c = None
  | EmptyString => True
  end -> digits base s 0 = 0.
Proof. destruct s as [|c r]; [reflexivity|]. simpl. intros ->. reflexivity. Qed.

(** Without a hex digit where the number should start, [strtol] gives 0. *)
Lemma strtol_no_hex_prefix LM s :
  0 <= LM -> no_hex_prefix s = true -> strtol LM s 16 = 0.
Proof.
  intros HLM. unfold no_hex_prefix, strtol.
  set (t := skip_space s). clearbody t.
  assert (Hcore : forall u,
    match u with
    | String c _ => negb (bool_decide (is_Some (digit_in 16 c)))
    | EmptyString => true
    end = true -> digits 16 (skip_0x 16 u) 0 = 0).
  { intros u Hu. destruct u as [|c r]; [reflexivity|].
    apply negb_true_iff, bool_decide_eq_false in Hu.
    assert (Hc : digit_in 16 c = None).
    { destruct (digit_in 16 c); [exfalso; apply Hu; eauto | reflexivity]. }
    assert (Hskip : skip_0x 16 (String c r) = String c r).
    { unfold skip_0x. destruct c as [[] [] [] [] [] [] [] []]; try reflexivity.
      discriminate Hc. }
    rewrite Hskip. simpl. rewrite Hc. reflexivity. }
  assert (Hpos : (0 >? LM) = false)
    by (destruct (Z.gtb_spec 0 LM); [lia | reflexivity]).
  assert (Hneg : (0 >? LM + 1) = false)
    by (destruct (Z.gtb_spec 0 (LM + 1)); [lia | reflexivity]).
  intros H.
  destruct t as [|c r]; [simpl; rewrite Hpos; reflexivity|].
  destruct (Ascii.eqb_spec c "-") as [->|Hm].
  - rewrite (Hcore r H). rewrite Hneg. reflexivity.
  - destruct (Ascii.eqb_spec c "+") as [->|Hp].
    + rewrite (Hcore r H). rewrite Hpos. reflexivity.
    + assert (Hsame :
        (match String c r with
         | String "-" r0 => (true, r0)
         | String "+" r0 => (false, r0)
         | _ => (false, String c r)
         end) = (false, String c r)).
      { destruct c as [[] [] [] [] [] [] [] []]; try reflexivity; congruence. }
      assert (Hsame' :
        (match String c r with
         | String "-" r0 => r0
         | String "+" r0 => r0
         | _ => String c r
         end) = String c r).
      { destruct c as [[] [] [] [] [] [] [] []]; try reflexivity; congruence. }
      rewrite Hsame' in H. rewrite Hsame.
      rewrite (Hcore (String c r) H), Hpos. reflexivity.
Qed.

Lemma strtol_FF0000 LM : 2 ^ 31 - 1 <= LM -> strtol LM "FF0000" 16 = 0xFF0000.
Proof.
  intros HLM. unfold strtol.
  change (skip_space "FF0000") with "FF0000". cbv iota beta zeta.
  change (digits 16 (skip_0x 16 "FF0000") 0) with 0xFF0000.
  destruct (Z.gtb_spec 0xFF0000 LM); [lia | reflexivity].
Qed.

(** C1 (amended). After a successful run of the [clear] request every pixel
    of the surface is 0x00000000: the buffer is zeroed byte by byte, the top
    byte included. *)
Theorem main_clear_zeroes (L : logo_tux_data) (LONG_MAX : Z)
    (argv : list string) (m : machine) :
  mode_of argv = "clear" ->
  can_open m "/dev/fb0" = true -> can_map m = true -> surface (vram m) ->
  exists m', main L LONG_MAX argv m = Some (0, m') /\
    forall x y, 0 <= x < FB_WIDTH -> 0 <= y < FB_HEIGHT ->
      pixel (vram m') x y = Some 0x00000000.
Proof.
  intros Hmode Hopen Hmap Hfb.
  destruct (clear_run L LONG_MAX argv m Hmode Hopen Hmap Hfb) as (m' & Hrun & Hv).
  exists m'. split; [exact Hrun|]. intros x y Hx Hy. rewrite Hv.
  apply replicate_pixel. split; assumption.
Qed.

Lemma main_clear_zeroes_witness :
  mode_of ["fb_tux"; "clear"] = "clear" /\
  can_open good_machine "/dev/fb0" = true /\ can_map good_machine = true /\
  surface (vram good_machine) /\
  exists m', main tiny_logo (2 ^ 63 - 1) ["fb_tux"; "clear"] good_machine
             = Some (0, m') /\
    forall x y, 0 <= x < FB_WIDTH -> 0 <= y < FB_HEIGHT ->
      pixel (vram m') x y = Some 0.
Proof.
  split; [reflexivity|]. split; [reflexivity|]. split; [reflexivity|].
  split; [exact blank_surface|].
  exact (main_clear_zeroes tiny_logo (2 ^ 63 - 1) ["fb_tux"; "clear"]
           good_machine eq_refl eq_refl eq_refl blank_surface).
Defined.

(** C1 as stated fails: after [clear] on a machine where everything
    succeeds, pixel (0,0) is 0x00000000, not 0xFF000000. *)
Lemma main_clear_counterexample :
  exists m', main tiny_logo (2 ^ 63 - 1) ["fb_tux"; "clear"] good_machine
             = Some (0, m') /\
    pixel (vram m') 0 0 = Some 0 /\ pixel (vram m') 0 0 <> Some 0xFF000000.
Proof.
  destruct (clear_run tiny_logo (2 ^ 63 - 1) ["fb_tux"; "clear"] good_machine
              eq_refl eq_refl eq_refl blank_surface) as (m' & Hrun & Hv).
  exists m'. split; [exact Hrun|].
  assert (H0 : pixel (vram m') 0 0 = Some 0).
  { rewrite Hv. apply replicate_pixel. unfold_consts. lia. }
  split; [exact H0|]. rewrite H0. discriminate.
Qed.

(** A hex digit is neither white space nor a sign. *)
Lemma hex_digit_plain c :
  is_Some (digit_in 16 c) ->
  isspace c = false /\ c <> "-"%char /\ c <> "+"%char /\
  digit_in 16 c = Some (default 0 (digit_value c)).
Proof.
  intros [d Hd].
  destruct c as [[] [] [] [] [] [] [] []]; vm_compute in Hd; try discriminate;
    repeat split; try discriminate; reflexivity.
Qed.

Lemma skip_0x_none s : starts_0x s = false -> skip_0x 16 s = s.
Proof.
  destruct s as [|c t]; [reflexivity|].
  destruct c as [[] [] [] [] [] [] [] []]; try reflexivity.
  destruct t as [|x [|d r]]; try reflexivity.
  unfold starts_0x, skip_0x. intros ->. reflexivity.
Qed.

(** The digit loop on hex digits followed by something that is none. *)
Lemma digits_hex h rest : forall acc,
  all_hex h = true -> no_hex_head rest = true ->
  digits 16 (h ++ rest)%string acc
  = acc * 16 ^ Z.of_nat (String.length h) + hex_value h.
Proof.
  induction h as [|c r IH]; intros acc Hh Hrest.
  - simpl String.append. simpl String.length. simpl hex_value.
    rewrite Z.pow_0_r, Z.mul_1_r, Z.add_0_r.
    destruct rest as [|c t]; [reflexivity|]. simpl in Hrest. simpl.
    apply negb_true_iff, bool_decide_eq_false in Hrest.
    destruct (digit_in 16 c); [exfalso; apply Hrest; eauto | reflexivity].
  - simpl in Hh. apply andb_true_iff in Hh. destruct Hh as [Hc Hr].
    apply bool_decide_eq_true in Hc.
    destruct (hex_digit_plain c Hc) as (_ & _ & _ & Hd).
    simpl String.append. simpl digits. rewrite Hd.
    rewrite (IH _ Hr Hrest). simpl hex_value.
    replace (Z.of_nat (String.length (String c r)))
      with (Z.succ (Z.of_nat (String.length r)))
      by (simpl String.length; lia).
    rewrite Z.pow_succ_r by lia. ring.
Qed.

(** An argument that starts with hex digits is read up to its first
    character that is none, and a value above [LONG_MAX] is clamped. *)
Lemma strtol_hex_prefix LM h rest :
  0 <= LM -> is_hex_number h = true -> no_hex_head rest = true ->
  starts_0x (h ++ rest)%string = false ->
  strtol LM (h ++ rest)%string 16 = Z.min (hex_value h) LM.
Proof.
  intros HLM Hh Hrest H0x. unfold is_hex_number in Hh.
  apply andb_true_iff in Hh. destruct Hh as [Hne Hall].
  destruct h as [|c r]; [discriminate|].
  pose proof Hall as Hall'. simpl in Hall'.
  apply andb_true_iff in Hall'. destruct Hall' as [Hc _].
  apply bool_decide_eq_true in Hc.
  destruct (hex_digit_plain c Hc) as (Hsp & Hm & Hp & _).
  unfold strtol.
  assert (Hskip : skip_space (String c r ++ rest)%string = (String c r ++ rest)%string)
    by (simpl; rewrite Hsp; reflexivity).
  rewrite Hskip.
  assert (Hsign :
    (match (String c r ++ rest)%string with
     | String "-" r0 => (true, r0)
     | String "+" r0 => (false, r0)
     | _ => (false, (String c r ++ rest)%string)
     end) = (false, (String c r ++ rest)%string)).
  { simpl String.append.
    destruct c as [[] [] [] [] [] [] [] []]; try reflexivity; congruence. }
  rewrite Hsign. rewrite (skip_0x_none _ H0x).
  rewrite (digits_hex _ _ 0 Hall Hrest). rewrite Z.mul_0_l, Z.add_0_l.
  destruct (Z.gtb_spec (hex_value (String c r)) LM); lia.
Qed.

(** C4 (amended). The [fill] request fills the whole surface with
    [0xFF000000 | (uint32_t) strtol(arg, NULL, 16)], or with 0xFF000000 when
    there is no argument, so the alpha byte is 255 in every case.  With the
    argument [FF0000] every pixel is 0xFFFF0000; an argument with no hex
    digit where the number should start (after white space and a sign)
    parses to 0 and fills with 0xFF000000; an argument that starts with hex
    digits (and not with [0x]) is read up to its first character that is not
    a hex digit, what follows being ignored, and a value above [LONG_MAX]
    is clamped to it. *)
Theorem main_fill_color (L : logo_tux_data) (LONG_MAX : Z)
    (argv : list string) (m : machine) :
  2 ^ 31 - 1 <= LONG_MAX ->
  mode_of argv = "fill" ->
  can_open m "/dev/fb0" = true -> can_map m = true -> surface (vram m) ->
  exists m' c, main L LONG_MAX argv m = Some (0, m') /\
    (forall x y, 0 <= x < FB_WIDTH -> 0 <= y < FB_HEIGHT ->
       pixel (vram m') x y = Some c) /\
    c = (if Z.of_nat (length argv) >? 2
         then Z.lor 0xFF000000 (wrap32 (strtol LONG_MAX (nth 2 argv "") 16))
         else 0xFF000000) /\
    chan_a c = 255 /\
    (nth_error argv 2 = Some "FF0000" -> c = 0xFFFF0000) /\
    (forall arg, nth_error argv 2 = Some arg -> no_hex_prefix arg = true ->
       c = 0xFF000000) /\
    (nth_error argv 2 = None -> c = 0xFF000000) /\
    (forall h rest, nth_error argv 2 = Some (h ++ rest)%string ->
       is_hex_number h = true -> no_hex_head rest = true ->
       starts_0x (h ++ rest)%string = false ->
       c = Z.lor 0xFF000000 (wrap32 (Z.min (hex_value h) LONG_MAX))).
Proof.
  intros HLM Hmode Hopen Hmap Hfb.
  destruct (fill_run L LONG_MAX argv m Hmode Hopen Hmap Hfb) as (m' & Hrun & Hpix).
  assert (Harg : forall arg, nth_error argv 2 = Some arg ->
            fill_color LONG_MAX argv
            = Z.lor 0xFF000000 (wrap32 (strtol LONG_MAX arg 16))).
  { intros arg Harg. unfold fill_color.
    assert (Hlen : (2 < length argv)%nat)
      by (apply nth_error_Some; rewrite Harg; discriminate).
    destruct (Z.gtb_spec (Z.of_nat (length argv)) 2); [|lia].
    rewrite (nth_error_nth argv 2 "" Harg). reflexivity. }
  exists m', (fill_color LONG_MAX argv).
  split; [exact Hrun|]. split; [intros x y Hx Hy; apply Hpix; split; assumption|].
  split; [reflexivity|]. split; [|split; [|split; [|split]]].
  - unfold fill_color. destruct (_ >? 2); [apply opaque_alpha | reflexivity].
  - intros H. rewrite (Harg _ H), strtol_FF0000 by exact HLM. reflexivity.
  - intros arg H Hno. rewrite (Harg _ H), strtol_no_hex_prefix by (auto; lia).
    reflexivity.
  - intros H. unfold fill_color. apply nth_error_None in H.
    destruct (Z.gtb_spec (Z.of_nat (length argv)) 2); [lia | reflexivity].
  - intros h rest H Hh Hrest H0x.
    rewrite (Harg _ H), strtol_hex_prefix by (auto; lia). reflexivity.
Qed.

Lemma main_fill_color_witness :
  2 ^ 31 - 1 <= 2 ^ 63 - 1 /\
  mode_of ["fb_tux"; "fill"; "FF0000"] = "fill" /\
  can_open good_machine "/dev/fb0" = true /\ can_map good_machine = true /\
  surface (vram good_machine) /\
  exists m', main tiny_logo (2 ^ 63 - 1) ["fb_tux"; "fill"; "FF0000"] good_machine
             = Some (0, m') /\
    forall x y, 0 <= x < FB_WIDTH -> 0 <= y < FB_HEIGHT ->
      pixel (vram m') x y = Some 0xFFFF0000.
Proof.
  assert (HLM : 2 ^ 31 - 1 <= 2 ^ 63 - 1) by lia.
  split; [exact HLM|]. split; [reflexivity|]. split; [reflexivity|].
  split; [reflexivity|]. split; [exact blank_surface|].
  destruct (main_fill_color tiny_logo (2 ^ 63 - 1) ["fb_tux"; "fill"; "FF0000"]
              good_machine HLM eq_refl eq_refl eq_refl blank_surface)
    as (m' & c & Hrun & Hpix & _ & _ & Hred & _).
  exists m'. split; [exact Hrun|]. rewrite <- (Hred eq_refl). exact Hpix.
Defined.

(** C4 as stated fails: [12zz] is not a hex number, yet it parses to 0x12
    and the surface is filled with 0xFF000012, not with opaque black. *)
Lemma main_fill_counterexample :
  is_hex_number "12zz" = false /\
  exists m', main tiny_logo (2 ^ 63 - 1) ["fb_tux"; "fill"; "12zz"] good_machine
             = Some (0, m') /\
    pixel (vram m') 0 0 = Some 0xFF000012 /\
    pixel (vram m') 0 0 <> Some 0xFF000000.
Proof.
  split; [reflexivity|].
  destruct (fill_run tiny_logo (2 ^ 63 - 1) ["fb_tux"; "fill"; "12zz"]
              good_machine eq_refl eq_refl eq_refl blank_surface)
    as (m' & Hrun & Hpix).
  exists m'. split; [exact Hrun|].
  assert (H0 : pixel (vram m') 0 0 = Some 0xFF000012).
  { rewrite Hpix by (unfold_consts; lia). reflexivity. }
  split; [exact H0|]. rewrite H0. discriminate.
Qed.

(** * Further properties of the drawing code *)

(** ** put_pixel and draw_rect as operations *)

(** Writes at two different places commute, and a second write at the same
    place replaces the first. *)
Theorem put_pixel_compose (fb : list Z) (x1 y1 c1 x2 y2 c2 : Z) :
  surface fb ->
  ((x1, y1) <> (x2, y2) ->
     (t ← put_pixel fb x1 y1 c1; put_pixel t x2 y2 c2)
     = (t ← put_pixel fb x2 y2 c2; put_pixel t x1 y1 c1)) /\
  (t ← put_pixel fb x1 y1 c1; put_pixel t x1 y1 c2) = put_pixel fb x1 y1 c2.
Proof.
  intros Hfb.
  assert (Hins : forall i c, surface (<[i := c]> fb))
    by (intros; unfold surface; rewrite length_insert; exact Hfb).
  split.
  - intros Hne.
    destruct (decide (on_surface x1 y1)) as [H1|H1];
      destruct (decide (on_surface x2 y2)) as [H2|H2];
      rewrite ?(put_pixel_inside fb x1 y1) by assumption;
      rewrite ?(put_pixel_inside fb x2 y2) by assumption;
      rewrite ?(put_pixel_outside fb x1 y1) by assumption;
      rewrite ?(put_pixel_outside fb x2 y2) by assumption;
      rewrite !bind_Some;
      rewrite ?(put_pixel_inside _ x1 y1) by auto;
      rewrite ?(put_pixel_inside _ x2 y2) by auto;
      rewrite ?(put_pixel_outside _ x1 y1) by assumption;
      rewrite ?(put_pixel_outside _ x2 y2) by assumption;
      try reflexivity.
    f_equal. apply list_insert_insert_ne.
    unfold on_surface, FB_WIDTH, FB_HEIGHT in *.
    intros Heq. apply Hne. f_equal; lia.
  - destruct (decide (on_surface x1 y1)) as [H1|H1].
    + rewrite !(put_pixel_inside fb x1 y1) by assumption. rewrite bind_Some.
      rewrite put_pixel_inside by auto. f_equal. apply list_insert_insert_eq.
    + rewrite !(put_pixel_outside fb x1 y1) by assumption. rewrite bind_Some.
      apply put_pixel_outside. exact H1.
Qed.

Lemma put_pixel_compose_witness :
  surface blank /\
  (t ← put_pixel blank 3 4 1; put_pixel t 3 4 2) = put_pixel blank 3 4 2.
Proof.
  split; [exact blank_surface|].
  exact (proj2 (put_pixel_compose blank 3 4 1 0 0 2 blank_surface)).
Defined.

(** [draw_rect] clips: it never faults, paints the part of the rectangle
    that lies on the surface and keeps every other pixel, whatever the
    position and the size. *)
Theorem draw_rect_clipped (fb : list Z) (x y w h color : Z) :
  surface fb ->
  exists fb', draw_rect fb x y w h color = Some fb' /\ surface fb' /\
    forall px py, 0 <= px < FB_WIDTH -> 0 <= py < FB_HEIGHT ->
      (x <= px < x + w /\ y <= py < y + h -> pixel fb' px py = Some color) /\
      (~ (x <= px < x + w /\ y <= py < y + h) ->
         pixel fb' px py = pixel fb px py).
Proof.
  intros Hfb.
  destruct (draw_rect_spec fb x y w h color Hfb) as (fb' & Hrun & Hs & Hpix).
  exists fb'. split; [exact Hrun|]. split; [exact Hs|].
  intros px py Hpx Hpy. rewrite (Hpix px py (conj Hpx Hpy)). split; intros H.
  - rewrite bool_decide_eq_true_2 by exact H. reflexivity.
  - rewrite bool_decide_eq_false_2 by exact H. reflexivity.
Qed.

Lemma draw_rect_clipped_witness :
  surface blank /\
  exists fb', draw_rect blank (-5) 470 10 20 7 = Some fb' /\ surface fb'.
Proof.
  split; [exact blank_surface|].
  destruct (draw_rect_clipped blank (-5) 470 10 20 7 blank_surface)
    as (fb' & Hrun & Hs & _).
  exists fb'. split; [exact Hrun | exact Hs].
Defined.

(** A rectangle that is empty or lies wholly off the surface leaves the
    surface exactly as it was. *)
Theorem draw_rect_nothing (fb : list Z) (x y w h color : Z) :
  surface fb ->
  w <= 0 \/ h <= 0 \/ x + w <= 0 \/ FB_WIDTH <= x \/
  y + h <= 0 \/ FB_HEIGHT <= y ->
  draw_rect fb x y w h color = Some fb.
Proof.
  intros Hfb Hout.
  destruct (draw_rect_spec fb x y w h color Hfb) as (fb' & Hrun & Hs & Hpix).
  rewrite Hrun. f_equal. apply surface_ext; [assumption..|].
  intros px py Hon. rewrite (Hpix px py Hon).
  rewrite bool_decide_eq_false_2; [reflexivity|].
  unfold on_surface in Hon. lia.
Qed.

Lemma draw_rect_nothing_witness :
  surface blank /\ draw_rect blank 640 0 10 10 7 = Some blank /\
  draw_rect blank 10 10 0 5 7 = Some blank.
Proof.
  split; [exact blank_surface|]. split.
  - apply (draw_rect_nothing blank 640 0 10 10 7 blank_surface).
    unfold FB_WIDTH. lia.
  - apply (draw_rect_nothing blank 10 10 0 5 7 blank_surface). lia.
Defined.

(** Painting the same rectangle again replaces its colour, and a rectangle
    that covers the surface leaves the uniform surface, whatever was there. *)
Theorem draw_rect_overwrite (fb : list Z) (x y w h c1 c2 : Z) :
  surface fb ->
  (t ← draw_rect fb x y w h c1; draw_rect t x y w h c2)
    = draw_rect fb x y w h c2 /\
  (x <= 0 -> y <= 0 -> FB_WIDTH <= x + w -> FB_HEIGHT <= y + h ->
     draw_rect fb x y w h c1 = Some (replicate (Z.to_nat FB_PIXELS) c1)).
Proof.
  intros Hfb.
  destruct (draw_rect_spec fb x y w h c1 Hfb) as (t & Hrun1 & Hs1 & Hpix1).
  destruct (draw_rect_spec fb x y w h c2 Hfb) as (u & Hrun2 & Hs2 & Hpix2).
  destruct (draw_rect_spec t x y w h c2 Hs1) as (v & Hrun3 & Hs3 & Hpix3).
  split.
  - rewrite Hrun1, bind_Some, Hrun2, Hrun3. f_equal.
    apply surface_ext; [assumption..|]. intros px py Hon.
    rewrite (Hpix3 px py Hon), (Hpix2 px py Hon), (Hpix1 px py Hon).
    case_bool_decide; reflexivity.
  - intros Hx Hy Hw Hh. rewrite Hrun1. f_equal.
    apply surface_ext; [assumption | apply replicate_surface |].
    intros px py Hon. rewrite (Hpix1 px py Hon), replicate_pixel by exact Hon.
    rewrite bool_decide_eq_true_2; [reflexivity|].
    unfold on_surface in Hon. lia.
Qed.

Lemma draw_rect_overwrite_witness :
  surface blank /\
  draw_rect blank 0 0 640 480 9 = Some (replicate (Z.to_nat FB_PIXELS) 9).
Proof.
  split; [exact blank_surface|].
  apply (proj2 (draw_rect_overwrite blank 0 0 640 480 9 9 blank_surface));
    unfold FB_WIDTH, FB_HEIGHT; lia.
Defined.

(** ** The alpha-blending blit *)

(** A row-major scan whose step at [(dx, dy)] replaces the pixel at
    [(ox + dx, oy + dy)] by a function of what it holds: every pixel of the
    rectangle is transformed once, from its original value. *)
Lemma raster_rmw (body : Z -> Z -> list Z -> option (list Z))
    (ox oy w h : Z) (g : Z -> Z -> Z -> Z) (fb : list Z) :
  surface fb ->
  (forall dx dy t, surface t -> 0 <= dx < w -> 0 <= dy < h ->
     exists t', body dy dx t = Some t' /\ surface t' /\
       forall px py, on_surface px py ->
         pixel t' px py =
           if bool_decide (px = ox + dx /\ py = oy + dy)
           then g dx dy <$> pixel t px py else pixel t px py) ->
  exists fb',
    for_ 0 h (fun dy t => for_ 0 w (fun dx t => body dy dx t) t) fb = Some fb' /\
    surface fb' /\
    forall px py, on_surface px py ->
      pixel fb' px py =
        if bool_decide (ox <= px < ox + w /\ oy <= py < oy + h)
        then g (px - ox) (py - oy) <$> pixel fb px py else pixel fb px py.
Proof.
  intros Hfb Hbody.
  destruct (for_inv
    (fun j t => surface t /\ forall px py, on_surface px py ->
       pixel t px py =
         if bool_decide (ox <= px < ox + w /\ oy <= py < oy + j)
         then g (px - ox) (py - oy) <$> pixel fb px py else pixel fb px py)
    (fun dy t => for_ 0 w (fun dx t => body dy dx t) t) 0 h fb)
    as (fb' & Hrun & Hs & Hpix).
  - split; [exact Hfb|]. intros px py _.
    rewrite bool_decide_eq_false_2; [reflexivity | lia].
  - intros j t Hj [Ht Htpix].
    destruct (for_inv
      (fun i u => surface u /\ forall px py, on_surface px py ->
         pixel u px py =
           if bool_decide (py = oy + j /\ ox <= px < ox + i)
           then g (px - ox) j <$> pixel t px py else pixel t px py)
      (fun dx t => body j dx t) 0 w t)
      as (t' & Hrow & Hs' & Hpix').
    + split; [exact Ht|]. intros px py _.
      rewrite bool_decide_eq_false_2; [reflexivity | lia].
    + intros i u Hi [Hu Hupix].
      destruct (Hbody i j u Hu Hi Hj) as (u' & Hput & Hu' & Hu'pix).
      exists u'. split; [exact Hput|]. split; [exact Hu'|].
      intros px py Hon. rewrite (Hu'pix px py Hon), (Hupix px py Hon).
      repeat case_bool_decide; try lia; try reflexivity.
      f_equal. f_equal. lia.
    + exists t'. split; [exact Hrow|]. split; [exact Hs'|].
      intros px py Hon. rewrite (Hpix' px py Hon), (Htpix px py Hon).
      repeat case_bool_decide; try lia; try reflexivity.
      f_equal. f_equal. lia.
  - exists fb'. split; [exact Hrun|]. split; [exact Hs|].
    intros px py Hon. rewrite (Hpix px py Hon).
    repeat case_bool_decide; try lia; reflexivity.
Qed.

(** Inside the image the four bytes of a source pixel are there. *)
Lemma rgba_read src sw sh x y k :
  rgba_ok src sw sh -> 0 <= x < sw -> 0 <= y < sh -> 0 <= k < 4 ->
  array_get src ((y * sw + x) * 4 + k) = Some (rgba_byte src sw x y k) /\
  0 <= rgba_byte src sw x y k < 256.
Proof.
  intros (Hw & Hh & Hlen & Hbytes) Hx Hy Hk. unfold rgba_byte.
  destruct (array_get_Some src ((y * sw + x) * 4 + k)) as (v & Hv & Hl);
    [nia|].
  rewrite Hv. split; [reflexivity|]. simpl.
  rewrite Forall_lookup in Hbytes. exact (Hbytes _ _ Hl).
Qed.

Lemma shl32_0_byte b : 0 <= b < 256 -> shl32 b 0 = b.
Proof.
  intros Hb. unfold shl32, wrap32. rewrite Z.shiftl_0_r.
  apply Z.mod_small. lia.
Qed.

(** One step of the blit. *)
Lemma blit_step src sw sh dx dy x y t :
  rgba_ok src sw sh -> surface t -> 0 <= x < sw -> 0 <= y < sh ->
  exists t',
    (let sx_pos := (y * sw + x) * 4 in
     a ← array_get src (sx_pos + 3);
     r ← array_get src (sx_pos + 0);
     g ← array_get src (sx_pos + 1);
     b ← array_get src (sx_pos + 2);
     let src_px :=
       Z.lor (Z.lor (Z.lor (shl32 a 24) (shl32 r 16)) (shl32 g 8)) (shl32 b 0) in
     let fx := dx + x in
     let fy := dy + y in
     if (fx >=? 0) && (fx <? FB_WIDTH) && (fy >=? 0) && (fy <? FB_HEIGHT)
     then d ← array_get t (fy * FB_WIDTH + fx);
          store32 t (fy * FB_WIDTH + fx) (blend_over src_px d)
     else Some t) = Some t' /\ surface t' /\
    forall px py, on_surface px py ->
      pixel t' px py =
        if bool_decide (px = dx + x /\ py = dy + y)
        then blend_over (rgba_pixel src sw x y) <$> pixel t px py
        else pixel t px py.
Proof.
  intros Hsrc Ht Hx Hy. cbv zeta.
  destruct (rgba_read src sw sh x y 3 Hsrc Hx Hy ltac:(lia)) as [Ha Ba].
  destruct (rgba_read src sw sh x y 0 Hsrc Hx Hy ltac:(lia)) as [Hr Br].
  destruct (rgba_read src sw sh x y 1 Hsrc Hx Hy ltac:(lia)) as [Hg Bg].
  destruct (rgba_read src sw sh x y 2 Hsrc Hx Hy ltac:(lia)) as [Hb Bb].
  rewrite Ha, bind_Some, Hr, bind_Some, Hg, bind_Some, Hb, bind_Some.
  rewrite (shl32_0_byte _ Bb). fold (pack (rgba_byte src sw x y 3)
    (rgba_byte src sw x y 0) (rgba_byte src sw x y 1) (rgba_byte src sw x y 2)).
  fold (rgba_pixel src sw x y).
  destruct ((dx + x >=? 0) && (dx + x <? FB_WIDTH) && (dy + y >=? 0)
            && (dy + y <? FB_HEIGHT)) eqn:E.
  - assert (Hon : on_surface (dx + x) (dy + y))
      by (rewrite !andb_true_iff in E; unfold on_surface; lia).
    fold (pixel t (dx + x) (dy + y)).
    destruct (pixel_is_Some t _ _ Ht Hon) as [d Hd]. rewrite Hd, bind_Some.
    pose proof (surface_length _ Ht) as Hlen.
    unfold store32. rewrite bool_decide_eq_true_2 by (unfold_consts; lia).
    eexists. split; [reflexivity|].
    split; [unfold surface; rewrite length_insert; exact Ht|].
    pose proof Hd as Hd'. rewrite pixel_lookup in Hd' by exact Hon.
    intros px py Hp. rewrite !pixel_lookup by assumption.
    case_bool_decide as Heq.
    + destruct Heq as [-> ->]. rewrite Hd'.
      apply list_lookup_insert_eq. unfold_consts. lia.
    + apply list_lookup_insert_ne. unfold_consts. lia.
  - exists t. split; [reflexivity|]. split; [exact Ht|].
    intros px py Hp. rewrite bool_decide_eq_false_2; [reflexivity|].
    intros [-> ->]. unfold on_surface in Hp.
    rewrite !andb_false_iff in E. lia.
Qed.

Lemma blit_rgba_pixels fb dx dy src sw sh :
  rgba_ok src sw sh -> surface fb ->
  exists fb', blit_rgba fb dx dy src sw sh = Some fb' /\ surface fb' /\
    forall px py, on_surface px py ->
      pixel fb' px py =
        if bool_decide (dx <= px < dx + sw /\ dy <= py < dy + sh)
        then blend_over (rgba_pixel src sw (px - dx) (py - dy))
               <$> pixel fb px py
        else pixel fb px py.
Proof.
  intros Hsrc Hfb. unfold blit_rgba.
  apply (raster_rmw _ dx dy sw sh
           (fun x y => blend_over (rgba_pixel src sw x y)) fb Hfb).
  intros x y t Ht Hx Hy. apply (blit_step src sw sh); assumption.
Qed.

Lemma shl32_u32 a n : is_u32 (shl32 a n).
Proof. unfold shl32, wrap32, is_u32. apply Z.mod_pos_bound. lia. Qed.

Lemma pack_u32 a r g b : 0 <= b < 256 -> is_u32 (pack a r g b).
Proof.
  intros Hb. unfold pack.
  repeat apply lor_u32; try apply shl32_u32. unfold is_u32. lia.
Qed.

Lemma rgba_pixel_facts src sw sh x y :
  rgba_ok src sw sh -> 0 <= x < sw -> 0 <= y < sh ->
  is_u32 (rgba_pixel src sw x y) /\
  chan_a (rgba_pixel src sw x y) = rgba_byte src sw x y 3 /\
  chan_r (rgba_pixel src sw x y) = rgba_byte src sw x y 0 /\
  chan_g (rgba_pixel src sw x y) = rgba_byte src sw x y 1 /\
  chan_b (rgba_pixel src sw x y) = rgba_byte src sw x y 2.
Proof.
  intros Hsrc Hx Hy.
  destruct (rgba_read src sw sh x y 3 Hsrc Hx Hy ltac:(lia)) as [_ Ba].
  destruct (rgba_read src sw sh x y 0 Hsrc Hx Hy ltac:(lia)) as [_ Br].
  destruct (rgba_read src sw sh x y 1 Hsrc Hx Hy ltac:(lia)) as [_ Bg].
  destruct (rgba_read src sw sh x y 2 Hsrc Hx Hy ltac:(lia)) as [_ Bb].
  split; [apply pack_u32; exact Bb|]. apply chan_pack; assumption.
Qed.

(** A one-pixel opaque red image and a one-pixel transparent one. *)
Lemma red_dot_ok : rgba_ok [255; 0; 0; 255] 1 1.
Proof. unfold rgba_ok. simpl. repeat split; try lia. repeat constructor; lia. Qed.

Lemma clear_dot_ok : rgba_ok [0; 0; 0; 0] 1 1.
Proof. unfold rgba_ok. simpl. repeat split; try lia. repeat constructor; lia. Qed.

(** The blit never faults, whatever the position: every surface pixel under
    the image becomes the blend of the source pixel, whose bytes are read as
    R, G, B, A, over what the pixel held; every other pixel is kept. *)
Theorem blit_rgba_blends (fb : list Z) (dx dy : Z) (src : list Z) (sw sh : Z) :
  rgba_ok src sw sh -> surface fb ->
  exists fb', blit_rgba fb dx dy src sw sh = Some fb' /\ surface fb' /\
    forall px py, 0 <= px < FB_WIDTH -> 0 <= py < FB_HEIGHT ->
      (dx <= px < dx + sw /\ dy <= py < dy + sh ->
         exists s d,
           pixel fb px py = Some d /\
           pixel fb' px py = Some (blend_over s d) /\
           chan_r s = rgba_byte src sw (px - dx) (py - dy) 0 /\
           chan_g s = rgba_byte src sw (px - dx) (py - dy) 1 /\
           chan_b s = rgba_byte src sw (px - dx) (py - dy) 2 /\
           chan_a s = rgba_byte src sw (px - dx) (py - dy) 3) /\
      (~ (dx <= px < dx + sw /\ dy <= py < dy + sh) ->
         pixel fb' px py = pixel fb px py).
Proof.
  intros Hsrc Hfb.
  destruct (blit_rgba_pixels fb dx dy src sw sh Hsrc Hfb)
    as (fb' & Hrun & Hs & Hpix).
  exists fb'. split; [exact Hrun|]. split; [exact Hs|].
  intros px py Hpx Hpy. rewrite (Hpix px py (conj Hpx Hpy)). split; intros Hin.
  - rewrite bool_decide_eq_true_2 by exact Hin.
    destruct (pixel_is_Some fb px py Hfb (conj Hpx Hpy)) as [d Hd].
    destruct (rgba_pixel_facts src sw sh (px - dx) (py - dy) Hsrc)
      as (_ & Ha & Hr & Hg & Hb); [lia | lia |].
    exists (rgba_pixel src sw (px - dx) (py - dy)), d.
    rewrite Hd. auto 10.
  - rewrite bool_decide_eq_false_2 by exact Hin. reflexivity.
Qed.

Lemma blit_rgba_blends_witness :
  rgba_ok [255; 0; 0; 255] 1 1 /\ surface blank /\
  exists fb', blit_rgba blank 639 479 [255; 0; 0; 255] 1 1 = Some fb' /\
    surface fb'.
Proof.
  split; [exact red_dot_ok|]. split; [exact blank_surface|].
  destruct (blit_rgba_blends blank 639 479 [255; 0; 0; 255] 1 1
              red_dot_ok blank_surface) as (fb' & Hrun & Hs & _).
  exists fb'. split; [exact Hrun | exact Hs].
Defined.

(** An image whose alpha bytes are all 255 is copied: the pixels under it
    become the source pixels, whatever they held. *)
Theorem blit_rgba_opaque (fb : list Z) (dx dy : Z) (src : list Z) (sw sh : Z) :
  rgba_ok src sw sh -> surface fb ->
  (forall x y, 0 <= x < sw -> 0 <= y < sh -> rgba_byte src sw x y 3 = 255) ->
  exists fb', blit_rgba fb dx dy src sw sh = Some fb' /\
    forall px py, 0 <= px < FB_WIDTH -> 0 <= py < FB_HEIGHT ->
      dx <= px < dx + sw -> dy <= py < dy + sh ->
      pixel fb' px py = Some (rgba_pixel src sw (px - dx) (py - dy)).
Proof.
  intros Hsrc Hfb Hopaque.
  destruct (blit_rgba_pixels fb dx dy src sw sh Hsrc Hfb)
    as (fb' & Hrun & Hs & Hpix).
  exists fb'. split; [exact Hrun|].
  intros px py Hpx Hpy Hx Hy. rewrite (Hpix px py (conj Hpx Hpy)).
  rewrite bool_decide_eq_true_2 by lia.
  destruct (pixel_is_Some fb px py Hfb (conj Hpx Hpy)) as [d Hd].
  rewrite Hd. simpl. f_equal.
  destruct (rgba_pixel_facts src sw sh (px - dx) (py - dy) Hsrc)
    as (Hu & Ha & _); [lia | lia |].
  apply blend_over_opaque; [exact Hu|].
  rewrite Ha. apply Hopaque; lia.
Qed.

Lemma blit_rgba_opaque_witness :
  rgba_ok [255; 0; 0; 255] 1 1 /\ surface blank /\
  exists fb', blit_rgba blank 5 5 [255; 0; 0; 255] 1 1 = Some fb' /\
    pixel fb' 5 5 = Some 0xFFFF0000.
Proof.
  split; [exact red_dot_ok|]. split; [exact blank_surface|].
  destruct (blit_rgba_opaque blank 5 5 [255; 0; 0; 255] 1 1
              red_dot_ok blank_surface) as (fb' & Hrun & Hpix).
  - intros x y Hx Hy. assert (x = 0) as -> by lia. assert (y = 0) as -> by lia.
    reflexivity.
  - exists fb'. split; [exact Hrun|].
    apply (Hpix 5 5); unfold FB_WIDTH, FB_HEIGHT; lia.
Defined.

(** An image of zero words (transparent, with zero colour channels) leaves
    a surface of 32-bit words exactly as it was. *)
Theorem blit_rgba_clear (fb : list Z) (dx dy : Z) (src : list Z) (sw sh : Z) :
  rgba_ok src sw sh -> surface fb -> Forall is_u32 fb ->
  (forall x y, 0 <= x < sw -> 0 <= y < sh -> rgba_pixel src sw x y = 0) ->
  blit_rgba fb dx dy src sw sh = Some fb.
Proof.
  intros Hsrc Hfb Hwords Hzero.
  destruct (blit_rgba_pixels fb dx dy src sw sh Hsrc Hfb)
    as (fb' & Hrun & Hs & Hpix).
  rewrite Hrun. f_equal. apply surface_ext; [assumption..|].
  intros px py Hon. rewrite (Hpix px py Hon).
  case_bool_decide as Hin; [|reflexivity].
  destruct (pixel_is_Some fb px py Hfb Hon) as [d Hd]. rewrite Hd. simpl.
  rewrite Hzero by lia. f_equal. apply blend_over_zero.
  rewrite pixel_lookup in Hd by exact Hon.
  rewrite Forall_lookup in Hwords. exact (Hwords _ _ Hd).
Qed.

Lemma blit_rgba_clear_witness :
  rgba_ok [0; 0; 0; 0] 1 1 /\ surface blank /\ Forall is_u32 blank /\
  blit_rgba blank 5 5 [0; 0; 0; 0] 1 1 = Some blank.
Proof.
  assert (Hw : Forall is_u32 blank).
  { apply Forall_replicate. unfold is_u32. lia. }
  split; [exact clear_dot_ok|]. split; [exact blank_surface|].
  split; [exact Hw|].
  apply (blit_rgba_clear blank 5 5 [0; 0; 0; 0] 1 1
           clear_dot_ok blank_surface Hw).
  intros x y Hx Hy. assert (x = 0) as -> by lia. assert (y = 0) as -> by lia.
  reflexivity.
Defined.

(** ** Premultiplied sources *)

Lemma blend_over_u32 src dst : is_u32 (blend_over src dst).
Proof.
  rewrite blend_over_pack. unfold pack.
  destruct (chan_range src) as (Hsa & _ & _ & Hsb).
  destruct (chan_range dst) as (_ & _ & _ & Hdb).
  pose proof (proj2 (blend_channel _ _ _ Hsb Hdb Hsa)) as Rb.
  repeat apply lor_u32; try apply shl32_u32. unfold is_u32. lia.
Qed.

(** For a premultiplied source (no colour channel above its alpha) no
    channel overflows: the result is a 32-bit word whose four channels are
    exactly the values of the formula, and its alpha is at least the alpha
    of the source and at least the alpha of the destination. *)
Theorem blend_over_premultiplied (src dst : Z) :
  chan_r src <= chan_a src -> chan_g src <= chan_a src ->
  chan_b src <= chan_a src ->
  let res := blend_over src dst in
  is_u32 res /\
  chan_a res = chan_a src + Z.quot (chan_a dst * (255 - chan_a src)) 255 /\
  chan_r res = chan_r src + Z.quot (chan_r dst * (255 - chan_a src)) 255 /\
  chan_g res = chan_g src + Z.quot (chan_g dst * (255 - chan_a src)) 255 /\
  chan_b res = chan_b src + Z.quot (chan_b dst * (255 - chan_a src)) 255 /\
  chan_a src <= chan_a res /\ chan_a dst <= chan_a res.
Proof.
  intros Hr Hg Hb res. subst res.
  destruct (chan_range src) as (Hsa & Hsr & Hsg & Hsb).
  destruct (chan_range dst) as (Hda & Hdr & Hdg & Hdb).
  pose proof (proj2 (blend_channel _ _ _ Hsa Hda Hsa)) as Ra.
  pose proof (proj2 (blend_channel _ _ _ Hsr Hdr Hsa)) as Rr.
  pose proof (proj2 (blend_channel _ _ _ Hsg Hdg Hsa)) as Rg.
  pose proof (proj2 (blend_channel _ _ _ Hsb Hdb Hsa)) as Rb.
  split; [apply blend_over_u32|].
  assert (Hch : chan_a (blend_over src dst)
                  = over_channel (chan_a src) (chan_a dst) (chan_a src) /\
                chan_r (blend_over src dst)
                  = over_channel (chan_r src) (chan_r dst) (chan_a src) /\
                chan_g (blend_over src dst)
                  = over_channel (chan_g src) (chan_g dst) (chan_a src) /\
                chan_b (blend_over src dst)
                  = over_channel (chan_b src) (chan_b dst) (chan_a src)).
  { rewrite blend_over_pack. apply chan_pack; lia. }
  destruct Hch as (Ea & Er & Eg & Eb).
  split; [exact Ea|]. split; [exact Er|]. split; [exact Eg|].
  split; [exact Eb|]. rewrite Ea. split; [lia|].
  unfold over_channel. rewrite Z.quot_div_nonneg by nia.
  assert (chan_a dst * (255 - chan_a src)
          < 255 * (chan_a dst * (255 - chan_a src) / 255 + 1)).
  { pose proof (Z.mod_pos_bound (chan_a dst * (255 - chan_a src)) 255
                 ltac:(lia)) as Hm.
    pose proof (Z.div_mod (chan_a dst * (255 - chan_a src)) 255 ltac:(lia)).
    lia. }
  nia.
Qed.

Lemma blend_over_premultiplied_witness :
  chan_r 0x80400000 <= chan_a 0x80400000 /\
  chan_a (blend_over 0x80400000 0xFFFFFFFF) = 255 /\
  chan_r (blend_over 0x80400000 0xFFFFFFFF) = 191.
Proof.
  assert (Hr : chan_r 0x80400000 <= chan_a 0x80400000)
    by (vm_compute; discriminate).
  assert (Hg : chan_g 0x80400000 <= chan_a 0x80400000)
    by (vm_compute; discriminate).
  assert (Hb : chan_b 0x80400000 <= chan_a 0x80400000)
    by (vm_compute; discriminate).
  split; [exact Hr|].
  destruct (blend_over_premultiplied 0x80400000 0xFFFFFFFF Hr Hg Hb)
    as (_ & Ea & Er & _).
  split; [rewrite Ea | rewrite Er]; reflexivity.
Defined.

(** ** Characters and strings *)

Lemma font_8x16_glyphs :
  length font_8x16 = 256%nat /\
  Forall (fun g => length g = 16%nat /\ Forall (fun v => 0 <= v < 256) g)
         font_8x16.
Proof.
  split; [reflexivity|].
  assert (Hno : length no_glyph = 16%nat /\ Forall (fun v => 0 <= v < 256) no_glyph).
  { split; [reflexivity|]. apply Forall_replicate. lia. }
  unfold font_8x16. repeat rewrite Forall_app. repeat split;
    try (apply Forall_replicate; exact Hno).
  - repeat constructor; lia.
  - repeat constructor; lia.
Qed.

Lemma nat_of_ascii_lt c : (nat_of_ascii c < 256)%nat.
Proof. destruct c as [[] [] [] [] [] [] [] []]; vm_compute; lia. Qed.

(** Every character has its sixteen row bytes in the table. *)
Lemma font_lookup c :
  exists glyph, font_8x16 !! nat_of_ascii c = Some glyph /\
    forall row, 0 <= row < 16 ->
      array_get glyph row = Some (glyph_row c row) /\
      0 <= glyph_row c row < 256.
Proof.
  destruct font_8x16_glyphs as [Hlen Hall].
  destruct (lookup_lt_is_Some_2 font_8x16 (nat_of_ascii c)) as [glyph Hg].
  { rewrite Hlen. apply nat_of_ascii_lt. }
  exists glyph. split; [exact Hg|]. intros row Hrow.
  rewrite Forall_lookup in Hall. destruct (Hall _ _ Hg) as [Hl Hb].
  destruct (array_get_Some glyph row) as (v & Hv & Hlk); [lia|].
  unfold glyph_row. rewrite Hg. simpl. rewrite Hv. simpl.
  split; [reflexivity|]. rewrite Forall_lookup in Hb. exact (Hb _ _ Hlk).
Qed.

(** The mask [0x80 >> col] selects bit [7 - col]. *)
Lemma ink_test bits col :
  0 <= col < 8 ->
  (Z.land bits (Z.shiftr 0x80 col) =? 0) = negb (Z.testbit bits (7 - col)).
Proof.
  intros Hcol.
  assert (Hmask : Z.shiftr 0x80 col = 2 ^ (7 - col)).
  { change 0x80 with (2 ^ 7). rewrite Z.shiftr_div_pow2 by lia.
    rewrite <- Z.pow_sub_r by lia. reflexivity. }
  rewrite Hmask.
  destruct (Z.testbit bits (7 - col)) eqn:Hbit; simpl.
  - apply Z.eqb_neq. intros Hz.
    assert (Z.testbit (Z.land bits (2 ^ (7 - col))) (7 - col) = true)
      by (rewrite Z.land_spec, Hbit, Z.pow2_bits_true by lia; reflexivity).
    rewrite Hz, Z.bits_0 in H. discriminate.
  - apply Z.eqb_eq. apply Z.bits_inj'. intros n Hn.
    rewrite Z.land_spec, Z.bits_0.
    destruct (Z.eq_dec n (7 - col)) as [->|Hne].
    + rewrite Hbit. reflexivity.
    + rewrite Z.pow2_bits_false by lia. apply andb_false_r.
Qed.

Lemma for_from_ext {S : Type} (body1 body2 : Z -> S -> option S) n i (s : S) :
  (forall j t, i <= j < i + Z.of_nat n -> body1 j t = body2 j t) ->
  for_from n i body1 s = for_from n i body2 s.
Proof.
  revert i s. induction n as [|n IH]; intros i s Hext; [reflexivity|].
  simpl. rewrite (Hext i s) by lia.
  destruct (body2 i s) as [t|]; [|reflexivity]. simpl.
  apply IH. intros j u Hj. apply Hext. lia.
Qed.

(** Loops whose bodies agree on the range of the counter are equal. *)
Lemma for_ext {S : Type} (body1 body2 : Z -> S -> option S) lo hi (s : S) :
  (forall j t, lo <= j < hi -> body1 j t = body2 j t) ->
  for_ lo hi body1 s = for_ lo hi body2 s.
Proof.
  intros Hext. unfold for_. apply for_from_ext.
  intros j t Hj. apply Hext. lia.
Qed.

Lemma draw_char_pixels fb x y c fg bg :
  surface fb ->
  exists fb', draw_char fb x y c fg bg = Some fb' /\ surface fb' /\
    forall px py, on_surface px py ->
      pixel fb' px py =
        if bool_decide (x <= px < x + 8 /\ y <= py < y + 16)
        then Some (cell_color c (px - x) (py - y) fg bg)
        else pixel fb px py.
Proof.
  intros Hfb. unfold draw_char.
  destruct (font_lookup c) as (glyph & Hg & Hrows). rewrite Hg, bind_Some.
  rewrite (for_ext _
    (fun row t => for_ 0 8 (fun col t =>
       put_pixel t (x + col) (y + row)
         (if Z.land (glyph_row c row) (Z.shiftr 0x80 col) =? 0
          then bg else fg)) t)).
  2:{ intros row t Hrow. destruct (Hrows row Hrow) as [Hget _].
      rewrite Hget, bind_Some. reflexivity. }
  apply (raster_spec
    (fun row col t =>
       put_pixel t (x + col) (y + row)
         (if Z.land (glyph_row c row) (Z.shiftr 0x80 col) =? 0
          then bg else fg))
    x y 8 16 (fun col row => cell_color c col row fg bg) fb Hfb).
  intros col row t Hcol Hrow.
  unfold cell_color. rewrite (ink_test _ col Hcol).
  destruct (Z.testbit (glyph_row c row) (7 - col)); reflexivity.
Qed.

(** [draw_char] never faults and overwrites the whole 8 by 16 cell at
    [(x, y)], clipped to the surface: a pixel of the cell is [fg] where the
    glyph has its bit set, bit 7 of the row byte being the leftmost column,
    and [bg] elsewhere; pixels outside the cell are kept. *)
Theorem draw_char_cell (fb : list Z) (x y : Z) (c : ascii) (fg bg : Z) :
  surface fb ->
  exists fb', draw_char fb x y c fg bg = Some fb' /\ surface fb' /\
    forall px py, 0 <= px < FB_WIDTH -> 0 <= py < FB_HEIGHT ->
      (x <= px < x + 8 /\ y <= py < y + 16 ->
         pixel fb' px py =
           Some (if Z.testbit (glyph_row c (py - y)) (7 - (px - x))
                 then fg else bg)) /\
      (~ (x <= px < x + 8 /\ y <= py < y + 16) ->
         pixel fb' px py = pixel fb px py).
Proof.
  intros Hfb.
  destruct (draw_char_pixels fb x y c fg bg Hfb) as (fb' & Hrun & Hs & Hpix).
  exists fb'. split; [exact Hrun|]. split; [exact Hs|].
  intros px py Hpx Hpy. rewrite (Hpix px py (conj Hpx Hpy)). split; intros H.
  - rewrite bool_decide_eq_true_2 by exact H. reflexivity.
  - rewrite bool_decide_eq_false_2 by exact H. reflexivity.
Qed.

Lemma draw_char_cell_witness :
  surface blank /\
  exists fb', draw_char blank 0 0 "A" 0xFFFFFFFF 0xFF000000 = Some fb' /\
    pixel fb' 3 2 = Some 0xFFFFFFFF /\ pixel fb' 0 2 = Some 0xFF000000.
Proof.
  split; [exact blank_surface|].
  destruct (draw_char_cell blank 0 0 "A" 0xFFFFFFFF 0xFF000000 blank_surface)
    as (fb' & Hrun & _ & Hpix).
  exists fb'. split; [exact Hrun|]. split.
  - apply (proj1 (Hpix 3 2 ltac:(unfold FB_WIDTH; lia)
                    ltac:(unfold FB_HEIGHT; lia))). lia.
  - apply (proj1 (Hpix 0 2 ltac:(unfold FB_WIDTH; lia)
                    ltac:(unfold FB_HEIGHT; lia))). lia.
Defined.

Lemma draw_string_pixels s : forall fb x y fg bg,
  surface fb ->
  exists fb', draw_string fb x y s fg bg = Some fb' /\ surface fb' /\
    forall px py, on_surface px py ->
      (forall k c, String.get k (c_string s) = Some c ->
         x + 8 * Z.of_nat k <= px < x + 8 * Z.of_nat k + 8 ->
         y <= py < y + 16 ->
         pixel fb' px py
         = Some (cell_color c (px - (x + 8 * Z.of_nat k)) (py - y) fg bg)) /\
      (px < x \/ x + 8 * Z.of_nat (String.length (c_string s)) <= px \/
       py < y \/ y + 16 <= py ->
       pixel fb' px py = pixel fb px py).
Proof.
  induction s as [|c r IH]; intros fb x y fg bg Hfb.
  - exists fb. split; [reflexivity|]. split; [exact Hfb|].
    intros px py _. split; [intros k c Hk; discriminate | reflexivity].
  - simpl. destruct (Ascii.eqb c Ascii.zero).
    + exists fb. split; [reflexivity|]. split; [exact Hfb|].
      intros px py _. split; [intros k c' Hk; discriminate | reflexivity].
    + destruct (draw_char_pixels fb x y c fg bg Hfb) as (t & Hrun & Ht & Hpix).
      rewrite Hrun, bind_Some.
      destruct (IH t (x + 8) y fg bg Ht) as (fb' & Hrun' & Hs' & Hpix').
      exists fb'. split; [exact Hrun'|]. split; [exact Hs'|].
      intros px py Hon. destruct (Hpix' px py Hon) as [Hcells Hframe].
      specialize (Hpix px py Hon). split.
      * intros [|k] c' Hk Hx Hy.
        -- simpl in Hk. injection Hk as <-.
           rewrite Hframe by lia. rewrite Hpix.
           rewrite bool_decide_eq_true_2 by lia.
           do 2 f_equal. lia.
        -- simpl in Hk. rewrite (Hcells k c' Hk) by lia.
           do 2 f_equal. lia.
      * intros Hout. simpl String.length in Hout.
        rewrite Hframe by lia. rewrite Hpix.
        rewrite bool_decide_eq_false_2 by lia. reflexivity.
Qed.

(** [draw_string] never faults.  It draws the characters before the first
    NUL in cells of 8 by 16 pixels side by side from [(x, y)]: a surface
    pixel in cell [k] is [fg] or [bg] by the glyph of the [k]-th character,
    and pixels outside the strip of cells are kept. *)
Theorem draw_string_cells (fb : list Z) (x y : Z) (s : string) (fg bg : Z) :
  surface fb ->
  exists fb', draw_string fb x y s fg bg = Some fb' /\ surface fb' /\
    forall px py, 0 <= px < FB_WIDTH -> 0 <= py < FB_HEIGHT ->
      (forall k c, String.get k (c_string s) = Some c ->
         x + 8 * Z.of_nat k <= px < x + 8 * Z.of_nat k + 8 ->
         y <= py < y + 16 ->
         pixel fb' px py
         = Some (if Z.testbit (glyph_row c (py - y))
                      (7 - (px - (x + 8 * Z.of_nat k)))
                 then fg else bg)) /\
      (px < x \/ x + 8 * Z.of_nat (String.length (c_string s)) <= px \/
       py < y \/ y + 16 <= py ->
       pixel fb' px py = pixel fb px py).
Proof.
  intros Hfb.
  destruct (draw_string_pixels s fb x y fg bg Hfb) as (fb' & Hrun & Hs & Hpix).
  exists fb'. split; [exact Hrun|]. split; [exact Hs|].
  intros px py Hpx Hpy. exact (Hpix px py (conj Hpx Hpy)).
Qed.

Lemma draw_string_cells_witness :
  surface blank /\
  exists fb', draw_string blank 0 0 " A" 0xFFFFFFFF 0xFF000000 = Some fb' /\
    pixel fb' 11 2 = Some 0xFFFFFFFF /\ pixel fb' 16 0 = pixel blank 16 0.
Proof.
  split; [exact blank_surface|].
  destruct (draw_string_cells blank 0 0 " A" 0xFFFFFFFF 0xFF000000
              blank_surface) as (fb' & Hrun & _ & Hpix).
  exists fb'. split; [exact Hrun|].
  assert (H11 : 0 <= 11 < FB_WIDTH) by (unfold FB_WIDTH; lia).
  assert (H16 : 0 <= 16 < FB_WIDTH) by (unfold FB_WIDTH; lia).
  assert (H2 : 0 <= 2 < FB_HEIGHT) by (unfold FB_HEIGHT; lia).
  assert (H0 : 0 <= 0 < FB_HEIGHT) by (unfold FB_HEIGHT; lia).
  split.
  - apply (proj1 (Hpix 11 2 H11 H2) 1%nat "A"%char eq_refl); simpl; lia.
  - apply (proj2 (Hpix 16 0 H16 H0)). right. left. simpl. lia.
Defined.

(** Drawing a concatenation is drawing the first string and then the second
    one 8 pixels further right for each character of the first, provided the
    first holds no NUL. *)
Theorem draw_string_app (s1 s2 : string) (fb : list Z) (x y fg bg : Z) :
  c_string s1 = s1 ->
  draw_string fb x y (s1 ++ s2)%string fg bg =
    (t ← draw_string fb x y s1 fg bg;
     draw_string t (x + 8 * Z.of_nat (String.length s1)) y s2 fg bg).
Proof.
  revert fb x. induction s1 as [|c r IH]; intros fb x Hnul.
  - simpl. rewrite Z.add_0_r. reflexivity.
  - simpl in Hnul. simpl String.append. simpl draw_string.
    destruct (Ascii.eqb c Ascii.zero) eqn:E; [discriminate|].
    injection Hnul as Hnul.
    destruct (draw_char fb x y c fg bg) as [t|]; [|reflexivity].
    rewrite !bind_Some. rewrite (IH t (x + 8) Hnul).
    replace (x + 8 + 8 * Z.of_nat (String.length r))
      with (x + 8 * Z.of_nat (String.length (String c r)))
      by (simpl String.length; lia).
    reflexivity.
Qed.

Lemma draw_string_app_witness :
  c_string "A" = "A" /\
  draw_string blank 0 0 "AA" 1 0 =
    (t ← draw_string blank 0 0 "A" 1 0; draw_string t 8 0 "A" 1 0).
Proof.
  split; [reflexivity|].
  exact (draw_string_app "A" "A" blank 0 0 1 0 eq_refl).
Defined.

(** ** The frame of the vector Tux *)

Lemma within_put_pixel (R : Z -> Z -> Prop) x y c :
  R x y -> paints_within R (fun fb => put_pixel fb x y c).
Proof.
  intros HR fb Hfb.
  destruct (put_pixel_spec fb x y c Hfb) as (fb' & Hrun & Hs & Hpix).
  exists fb'. split; [exact Hrun|]. split; [exact Hs|].
  intros px py Hon Hout. rewrite (Hpix px py Hon).
  rewrite bool_decide_eq_false_2; [reflexivity|].
  intros [-> ->]. contradiction.
Qed.

Lemma within_skip R : paints_within R Some.
Proof. intros fb Hfb. exists fb. auto. Qed.

Lemma within_if (R : Z -> Z -> Prop) (b : bool) f g :
  paints_within R f -> paints_within R g ->
  paints_within R (fun fb => if b then f fb else g fb).
Proof. destruct b; auto. Qed.

Lemma within_bind R f g :
  paints_within R f -> paints_within R g ->
  paints_within R (fun fb => t ← f fb; g t).
Proof.
  intros Hf Hg fb Hfb. destruct (Hf fb Hfb) as (t & Ht & Hs & Hpt).
  rewrite Ht, bind_Some. destruct (Hg t Hs) as (u & Hu & Hs' & Hpu).
  exists u. split; [exact Hu|]. split; [exact Hs'|].
  intros px py Hon Hout. rewrite (Hpu px py Hon Hout). apply Hpt; assumption.
Qed.

Lemma within_for R lo hi body :
  (forall i, lo <= i < hi -> paints_within R (body i)) ->
  paints_within R (fun fb => for_ lo hi body fb).
Proof.
  intros Hbody fb Hfb.
  destruct (for_inv
    (fun _ t => surface t /\ forall px py, on_surface px py -> ~ R px py ->
                  pixel t px py = pixel fb px py)
    body lo hi fb) as (fb' & Hrun & Hs & Hpix).
  - split; [exact Hfb | reflexivity].
  - intros j t Hj [Ht Hpt]. destruct (Hbody j Hj t Ht) as (u & Hu & Hs & Hpu).
    exists u. split; [exact Hu|]. split; [exact Hs|].
    intros px py Hon Hout. rewrite (Hpu px py Hon Hout). apply Hpt; assumption.
  - exists fb'. auto.
Qed.

Ltac within_tac :=
  repeat first
    [ apply within_skip
    | apply within_put_pixel
    | apply within_for; intros ? ?
    | apply within_bind
    | apply within_if ].

(** Closes the side conditions: a written coordinate lies in the box. *)
Ltac in_box :=
  unfold tux_box;
  change (Z.quot FB_WIDTH 2) with 320; change (Z.quot FB_HEIGHT 2) with 240;
  repeat match goal with
  | |- context [if ?b then _ else _] => destruct b
  end;
  Z.to_euclidean_division_equations; lia.

Lemma draw_vector_tux_within : paints_within tux_box draw_vector_tux.
Proof.
  unfold draw_vector_tux. cbv zeta.
  apply (within_bind _ (fun fb => for_ _ _ _ fb)); [within_tac; in_box|].
  apply (within_bind _ (fun fb => for_ _ _ _ fb)); [within_tac; in_box|].
  apply (within_bind _ (fun fb => for_ _ _ _ fb)); [within_tac; in_box|].
  apply (within_bind _ (fun fb => for_ _ _ _ fb)); [within_tac; in_box|].
  apply (within_bind _ (fun fb => for_ _ _ _ fb)); [within_tac; in_box|].
  within_tac; in_box.
Qed.

(** The vector Tux never faults and changes no pixel outside the box
    [246..394] by [160..349]. *)
Theorem draw_vector_tux_frame (fb : list Z) :
  surface fb ->
  exists fb', draw_vector_tux fb = Some fb' /\ surface fb' /\
    forall px py, 0 <= px < FB_WIDTH -> 0 <= py < FB_HEIGHT ->
      ~ (246 <= px <= 394 /\ 160 <= py <= 349) ->
      pixel fb' px py = pixel fb px py.
Proof.
  intros Hfb.
  destruct (draw_vector_tux_within fb Hfb) as (fb' & Hrun & Hs & Hpix).
  exists fb'. split; [exact Hrun|]. split; [exact Hs|].
  intros px py Hpx Hpy Hout. apply Hpix; [split; assumption | exact Hout].
Qed.

Lemma draw_vector_tux_frame_witness :
  surface blank /\
  exists fb', draw_vector_tux blank = Some fb' /\
    pixel fb' 0 0 = pixel blank 0 0.
Proof.
  split; [exact blank_surface|].
  destruct (draw_vector_tux_frame blank blank_surface) as (fb' & Hrun & _ & Hpix).
  exists fb'. split; [exact Hrun|].
  apply Hpix; unfold FB_WIDTH, FB_HEIGHT; lia.
Defined.

(** ** The console *)

(** The three ways [fbcon_disable] can go.  The mode switch may fail, and
    the code does not look at its result. *)
Lemma fbcon_disable_cases m :
  vram (fbcon_disable m) = vram m /\ fb_fd (fbcon_disable m) = fb_fd m /\
  fb_mmap_ptr (fbcon_disable m) = fb_mmap_ptr m /\
  (can_open m "/dev/tty0" = true ->
     0 <= tty_fd (fbcon_disable m) /\
     console (fbcon_disable m)
       = (if can_set_mode m (tty_fd (fbcon_disable m)) KD_GRAPHICS
          then KD_GRAPHICS else console m) /\
     trace (fbcon_disable m)
       = trace m ++ [Open "/dev/tty0" (tty_fd (fbcon_disable m));
                     KdSetMode (tty_fd (fbcon_disable m)) KD_GRAPHICS
                       (can_set_mode m (tty_fd (fbcon_disable m)) KD_GRAPHICS)]) /\
  (can_open m "/dev/tty0" = false -> can_open m "/dev/console" = true ->
     0 <= tty_fd (fbcon_disable m) /\
     console (fbcon_disable m)
       = (if can_set_mode m (tty_fd (fbcon_disable m)) KD_GRAPHICS
          then KD_GRAPHICS else console m) /\
     trace (fbcon_disable m)
       = trace m ++ [Open "/dev/tty0" (-1);
                     Open "/dev/console" (tty_fd (fbcon_disable m));
                     KdSetMode (tty_fd (fbcon_disable m)) KD_GRAPHICS
                       (can_set_mode m (tty_fd (fbcon_disable m)) KD_GRAPHICS)]) /\
  (can_open m "/dev/tty0" = false -> can_open m "/dev/console" = false ->
     tty_fd (fbcon_disable m) = -1 /\ console (fbcon_disable m) = console m /\
     trace (fbcon_disable m)
       = trace m ++ [Open "/dev/tty0" (-1); Open "/dev/console" (-1)]).
Proof.
  assert (Hge : forall z, 0 <= z -> (z >=? 0) = true)
    by (intros z Hz; destruct (Z.geb_spec z 0); [reflexivity | lia]).
  assert (Hlt : forall z, 0 <= z -> (z <? 0) = false)
    by (intros z Hz; destruct (Z.ltb_spec z 0); [lia | reflexivity]).
  unfold fbcon_disable, sys_open, kd_set_mode.
  destruct (can_open m "/dev/tty0") eqn:E0.
  - cbn -[Z.max]. rewrite Hlt by lia. cbn -[Z.max]. rewrite Hge by lia.
    cbn -[Z.max].
    destruct (can_set_mode m (Z.max 0 (next_fd m)) KD_GRAPHICS) eqn:Eok;
      cbn -[Z.max]; rewrite ?Eok, <- !app_assoc;
      repeat split; try reflexivity; try discriminate; lia.
  - cbn -[Z.max]. destruct (can_open m "/dev/console") eqn:E1.
    + cbn -[Z.max]. rewrite Hge by lia. cbn -[Z.max].
      destruct (can_set_mode m (Z.max 0 (next_fd m)) KD_GRAPHICS) eqn:Eok;
        cbn -[Z.max]; rewrite ?Eok, <- !app_assoc;
        repeat split; try reflexivity; try discriminate; lia.
    + cbn. rewrite <- !app_assoc.
      repeat split; try reflexivity; try discriminate; lia.
Qed.

(** What never changes along [fbcon_disable]: the answers of the system. *)
Lemma fbcon_disable_oracles m :
  can_set_mode (fbcon_disable m) = can_set_mode m /\
  can_open (fbcon_disable m) = can_open m.
Proof.
  unfold fbcon_disable, sys_open, kd_set_mode.
  destruct (can_open m "/dev/tty0"); cbn -[Z.max].
  - destruct (_ <? 0); cbn -[Z.max];
      repeat (match goal with |- context [if ?b then _ else _] =>
                destruct b; cbn -[Z.max] end); auto.
  - destruct (can_open m "/dev/console"); cbn -[Z.max];
      repeat (match goal with |- context [if ?b then _ else _] =>
                destruct b; cbn -[Z.max] end); auto.
Qed.

(** The two ways [fbcon_restore] can go. *)
Lemma fbcon_restore_cases m :
  (tty_fd m < 0 -> fbcon_restore m = m) /\
  (0 <= tty_fd m ->
     console (fbcon_restore m)
       = (if can_set_mode m (tty_fd m) KD_TEXT then KD_TEXT else console m) /\
     tty_fd (fbcon_restore m) = -1 /\
     trace (fbcon_restore m)
       = trace m ++ [KdSetMode (tty_fd m) KD_TEXT
                       (can_set_mode m (tty_fd m) KD_TEXT);
                     Close (tty_fd m)]).
Proof.
  unfold fbcon_restore, kd_set_mode. split; intros Hn.
  - destruct (Z.geb_spec (tty_fd m) 0); [lia | reflexivity].
  - destruct (Z.geb_spec (tty_fd m) 0); [|lia].
    destruct (can_set_mode m (tty_fd m) KD_TEXT); cbn;
      rewrite <- app_assoc; auto.
Qed.

(** [fbcon_disable] tries [/dev/tty0] and falls back to [/dev/console] only
    when that fails.  If one of them opens, the descriptor is kept and the
    switch to graphics mode is requested on it, its result ignored: the
    console is in graphics mode afterwards if the request succeeded and in
    the mode it had if the request failed.  If neither opens, nothing but
    the two failed opens happens.  The pixels and the framebuffer descriptor
    are never touched. *)
Theorem fbcon_disable_fallback (m : machine) :
  vram (fbcon_disable m) = vram m /\
  fb_fd (fbcon_disable m) = fb_fd m /\
  (can_open m "/dev/tty0" = true ->
     0 <= tty_fd (fbcon_disable m) /\
     console (fbcon_disable m)
       = (if can_set_mode m (tty_fd (fbcon_disable m)) KD_GRAPHICS
          then KD_GRAPHICS else console m) /\
     trace (fbcon_disable m)
       = trace m ++ [Open "/dev/tty0" (tty_fd (fbcon_disable m));
                     KdSetMode (tty_fd (fbcon_disable m)) KD_GRAPHICS
                       (can_set_mode m (tty_fd (fbcon_disable m)) KD_GRAPHICS)]) /\
  (can_open m "/dev/tty0" = false -> can_open m "/dev/console" = true ->
     0 <= tty_fd (fbcon_disable m) /\
     console (fbcon_disable m)
       = (if can_set_mode m (tty_fd (fbcon_disable m)) KD_GRAPHICS
          then KD_GRAPHICS else console m) /\
     trace (fbcon_disable m)
       = trace m ++ [Open "/dev/tty0" (-1);
                     Open "/dev/console" (tty_fd (fbcon_disable m));
                     KdSetMode (tty_fd (fbcon_disable m)) KD_GRAPHICS
                       (can_set_mode m (tty_fd (fbcon_disable m)) KD_GRAPHICS)]) /\
  (can_open m "/dev/tty0" = false -> can_open m "/dev/console" = false ->
     tty_fd (fbcon_disable m) < 0 /\
     console (fbcon_disable m) = console m /\
     trace (fbcon_disable m)
       = trace m ++ [Open "/dev/tty0" (-1); Open "/dev/console" (-1)]).
Proof.
  destruct (fbcon_disable_cases m) as (Hv & Hfd & _ & H1 & H2 & H3).
  split; [exact Hv|]. split; [exact Hfd|]. split; [exact H1|].
  split; [exact H2|]. intros E0 E1. destruct (H3 E0 E1) as (Ht & Hc & Htr).
  split; [lia|]. split; assumption.
Qed.

Lemma fbcon_disable_fallback_witness :
  can_open good_machine "/dev/tty0" = true /\
  console (fbcon_disable good_machine) = KD_GRAPHICS /\
  can_open (boot (fun _ => true) true (fun _ _ => false) blank KD_TEXT)
    "/dev/tty0" = true /\
  console (fbcon_disable
             (boot (fun _ => true) true (fun _ _ => false) blank KD_TEXT))
    = KD_TEXT.
Proof.
  split; [reflexivity|]. split.
  - destruct (fbcon_disable_fallback good_machine) as (_ & _ & H1 & _).
    exact (proj1 (proj2 (H1 eq_refl))).
  - split; [reflexivity|].
    destruct (fbcon_disable_fallback
                (boot (fun _ => true) true (fun _ _ => false) blank KD_TEXT))
      as (_ & _ & H1 & _).
    exact (proj1 (proj2 (H1 eq_refl))).
Defined.

(** [fbcon_restore] does nothing at all without an open console descriptor;
    with one it requests text mode on it, ignoring the result, closes the
    descriptor and forgets it, so a second call does nothing: the console is
    in text mode afterwards if the request succeeded and in the mode it had
    if it failed.  After [fbcon_disable] in the same process: if a console
    node opened, the console ends in text mode when the request for text
    mode succeeds and stays as [fbcon_disable] left it when the request
    fails; if no console node opened, [fbcon_restore] does nothing and the
    console mode is the one before [fbcon_disable]. *)
Theorem fbcon_restore_behaviour (m : machine) :
  (tty_fd m < 0 -> fbcon_restore m = m) /\
  (0 <= tty_fd m ->
     console (fbcon_restore m)
       = (if can_set_mode m (tty_fd m) KD_TEXT then KD_TEXT else console m) /\
     tty_fd (fbcon_restore m) = -1 /\
     trace (fbcon_restore m)
       = trace m ++ [KdSetMode (tty_fd m) KD_TEXT
                       (can_set_mode m (tty_fd m) KD_TEXT);
                     Close (tty_fd m)]) /\
  vram (fbcon_restore m) = vram m /\
  fbcon_restore (fbcon_restore m) = fbcon_restore m /\
  (has_console m = true ->
     can_set_mode m (tty_fd (fbcon_disable m)) KD_TEXT = true ->
     console (fbcon_restore (fbcon_disable m)) = KD_TEXT) /\
  (has_console m = true ->
     can_set_mode m (tty_fd (fbcon_disable m)) KD_TEXT = false ->
     console (fbcon_restore (fbcon_disable m)) = console (fbcon_disable m)) /\
  (has_console m = false ->
     fbcon_restore (fbcon_disable m) = fbcon_disable m /\
     console (fbcon_disable m) = console m).
Proof.
  assert (Hneg := fun n => proj1 (fbcon_restore_cases n)).
  assert (Hpos := fun n => proj2 (fbcon_restore_cases n)).
  assert (Hheld : has_console m = true -> 0 <= tty_fd (fbcon_disable m)).
  { destruct (fbcon_disable_cases m) as (_ & _ & _ & H1 & H2 & _).
    unfold has_console. intros Hc.
    destruct (can_open m "/dev/tty0") eqn:E0; [apply (H1 eq_refl)|].
    destruct (can_open m "/dev/console") eqn:E1; [apply (H2 eq_refl eq_refl)|].
    discriminate. }
  destruct (fbcon_disable_oracles m) as [Hsm _].
  split; [apply Hneg|]. split; [apply Hpos|].
  split; [|split; [|split; [|split]]].
  - unfold fbcon_restore, kd_set_mode.
    destruct (tty_fd m >=? 0); [|reflexivity].
    destruct (can_set_mode m (tty_fd m) KD_TEXT); reflexivity.
  - destruct (Z.lt_ge_cases (tty_fd m) 0) as [Hn|Hn].
    + rewrite !(Hneg m Hn). reflexivity.
    + apply Hneg. destruct (Hpos m Hn) as (_ & -> & _). lia.
  - intros Hc Hok. destruct (Hpos _ (Hheld Hc)) as (-> & _).
    rewrite Hsm, Hok. reflexivity.
  - intros Hc Hok. destruct (Hpos _ (Hheld Hc)) as (-> & _).
    rewrite Hsm, Hok. reflexivity.
  - intros Hc. unfold has_console in Hc. apply orb_false_iff in Hc.
    destruct Hc as [E0 E1].
    destruct (fbcon_disable_cases m) as (_ & _ & _ & _ & _ & H3).
    destruct (H3 E0 E1) as (Ht & Hcon & _).
    split; [apply Hneg; lia | exact Hcon].
Qed.

Lemma fbcon_restore_behaviour_witness :
  tty_fd good_machine < 0 /\ fbcon_restore good_machine = good_machine /\
  has_console good_machine = true /\
  console (fbcon_restore (fbcon_disable good_machine)) = KD_TEXT.
Proof.
  split; [reflexivity|].
  destruct (fbcon_restore_behaviour good_machine)
    as (Hneg & _ & _ & _ & Hrt & _).
  split; [apply Hneg; reflexivity|]. split; [reflexivity|].
  apply Hrt; reflexivity.
Defined.

(** In a process that has just started no console descriptor is open, so
    the [text] request returns 0 having made no system call: the machine,
    its console mode included, is exactly as it was. *)
Theorem main_text_fresh (L : logo_tux_data) (LONG_MAX : Z)
    (argv : list string) (openable : string -> bool) (mappable : bool)
    (settable : Z -> kd_mode -> bool) (fb : list Z) (k : kd_mode) :
  mode_of argv = "text" ->
  main L LONG_MAX argv (boot openable mappable settable fb k)
    = Some (0, boot openable mappable settable fb k).
Proof.
  intros Hmode. rewrite main_text by exact Hmode. reflexivity.
Qed.

Lemma main_text_fresh_witness :
  mode_of ["fb_tux"; "text"] = "text" /\
  exists m', main tiny_logo (2 ^ 63 - 1) ["fb_tux"; "text"]
               (boot (fun _ => true) true (fun _ _ => true) blank KD_GRAPHICS)
             = Some (0, m') /\
    console m' = KD_GRAPHICS /\ trace m' = [].
Proof.
  split; [reflexivity|]. eexists. split.
  - exact (main_text_fresh tiny_logo (2 ^ 63 - 1) ["fb_tux"; "text"]
             (fun _ => true) true (fun _ _ => true) blank KD_GRAPHICS eq_refl).
  - split; reflexivity.
Defined.

(** ** Renderers overwrite the surface *)

(** A step that gives every pixel a colour of its own choosing overwrites. *)
Lemma overwrites_of_pixels f (col : Z -> Z -> Z) :
  (forall fb, surface fb ->
     exists fb', f fb = Some fb' /\ surface fb' /\
       forall px py, on_surface px py -> pixel fb' px py = Some (col px py)) ->
  overwrites f.
Proof.
  intros Hf. destruct (Hf blank blank_surface) as (fb0 & _ & Hs0 & Hpix0).
  exists fb0. split; [exact Hs0|]. intros fb Hfb.
  destruct (Hf fb Hfb) as (fb' & Hrun & Hs & Hpix). rewrite Hrun. f_equal.
  apply surface_ext; [assumption..|]. intros px py Hon.
  rewrite (Hpix px py Hon), (Hpix0 px py Hon). reflexivity.
Qed.

Lemma overwrites_memset c g :
  safe g -> overwrites (fun fb => t ← memset fb c FB_SIZE; g t).
Proof.
  intros Hg. destruct (Hg _ (replicate_surface (splat c))) as (fb' & Hrun & Hs).
  exists fb'. split; [exact Hs|]. intros fb Hfb.
  rewrite (memset_surface fb c Hfb), bind_Some. exact Hrun.
Qed.

Lemma gradient_pixels fb :
  surface fb ->
  exists fb', draw_gradient_rgb fb = Some fb' /\ surface fb' /\
    forall px py, on_surface px py ->
      pixel fb' px py = Some (gradient_color px py).
Proof.
  intros Hfb.
  destruct (raster_spec (fun y x t => put_pixel t x y (gradient_color x y))
              0 0 FB_WIDTH FB_HEIGHT gradient_color fb Hfb)
    as (fb' & Hrun & Hs & Hpix).
  { intros dx dy t _ _. reflexivity. }
  exists fb'. split; [exact Hrun|]. split; [exact Hs|].
  intros x y Hon. rewrite (Hpix x y Hon).
  rewrite bool_decide_eq_true_2 by (unfold on_surface in Hon; lia).
  rewrite !Z.sub_0_r. reflexivity.
Qed.

(** The colour of the band that holds column [px]. *)
Lemma color_bars_pixels fb :
  surface fb ->
  exists fb', draw_color_bars fb = Some fb' /\ surface fb' /\
    forall px py, on_surface px py ->
      pixel fb' px py = Some (default 0 (colors !! Z.to_nat (px / 80))).
Proof.
  intros Hfb.
  destruct (for_inv
    (fun i t => surface t /\ forall px py, on_surface px py ->
       pixel t px py =
         if bool_decide (px < i * 80) then colors !! Z.to_nat (px / 80)
         else pixel fb px py)
    (fun i t => c ← array_get colors i;
                draw_rect t (i * bar_w) 0 bar_w FB_HEIGHT c) 0 8 fb)
    as (fb' & Hrun & Hs & Hpix).
  - split; [exact Hfb|]. intros px py Hon.
    rewrite bool_decide_eq_false_2; [reflexivity | unfold_consts; lia].
  - intros i t Hi [Ht Htpix].
    destruct (colors_get i Hi) as [Hget [c Hc]].
    rewrite Hget, Hc, bind_Some.
    destruct (draw_rect_spec t (i * bar_w) 0 bar_w FB_HEIGHT c Ht)
      as (t' & Hrect & Ht' & Ht'pix).
    exists t'. split; [exact Hrect|]. split; [exact Ht'|].
    intros px py Hon. rewrite (Ht'pix px py Hon), (Htpix px py Hon).
    change bar_w with 80. unfold_consts.
    repeat case_bool_decide; try lia; try reflexivity.
    rewrite <- Hc. f_equal. f_equal. Z.to_euclidean_division_equations. lia.
  - exists fb'. split; [exact Hrun|]. split; [exact Hs|].
    intros px py Hon. rewrite (Hpix px py Hon).
    rewrite bool_decide_eq_true_2 by (unfold_consts; lia).
    destruct (colors_get (px / 80)) as [_ [c Hc]].
    { unfold_consts. Z.to_euclidean_division_equations. lia. }
    rewrite Hc. reflexivity.
Qed.

(** Every rendering request ends in [finish] with a picture that is the
    same for all surfaces it starts from. *)
Lemma render_mode_picture L LM argv mode :
  logo_ok L -> mode ∈ render_modes ->
  exists fb, surface fb /\
    forall m, surface (vram m) -> render_mode L LM argv mode m = finish fb m.
Proof.
  intros HL Hmode.
  assert (Hfin : forall f, overwrites f ->
    exists fb, surface fb /\
      forall m, surface (vram m) -> (t ← f (vram m); finish t m) = finish fb m).
  { intros f (fb & Hs & Hf). exists fb. split; [exact Hs|].
    intros m Hm. rewrite (Hf _ Hm), bind_Some. reflexivity. }
  assert (Hlogo : forall cx cy, safe (fun fb => draw_official_logo L fb cx cy)).
  { intros cx cy fb Hfb.
    destruct (draw_official_logo_pixels L fb cx cy HL Hfb) as (t & H & Hs & _).
    eauto. }
  unfold render_modes in Hmode. rewrite !elem_of_cons, elem_of_nil in Hmode.
  destruct Hmode as [->|[->|[->|[->|[->|[->|[]]]]]]]; unfold render_mode; dispatch.
  - destruct (_ =? 1).
    + destruct (Hfin _ (overwrites_memset 0 _ (Hlogo (Z.quot FB_WIDTH 2)
                                                 (Z.quot FB_HEIGHT 2))))
        as (fb & Hs & Hf).
      exists fb. split; [exact Hs|]. intros m Hm. rewrite <- (Hf m Hm).
      destruct (memset (vram m) 0 FB_SIZE); reflexivity.
    + set (count := if _ >? 2 then _ else 1).
      destruct (tiles_pixels L (replicate (Z.to_nat FB_PIXELS) 0)
                  (placed L count) HL (replicate_surface 0))
        as (fb & Hrun & Hs & _).
      exists fb. split; [exact Hs|]. intros m Hm.
      rewrite draw_multiple_logos_tiles, Hrun by assumption. reflexivity.
  - destruct (Hfin _ (overwrites_memset 0x40 _ safe_draw_vector_tux))
      as (fb & Hs & Hf).
    exists fb. split; [exact Hs|]. intros m Hm. rewrite <- (Hf m Hm).
    destruct (memset (vram m) 0x40 FB_SIZE); reflexivity.
  - apply Hfin. apply (overwrites_of_pixels _
      (fun px _ => default 0 (colors !! Z.to_nat (px / 80)))).
    apply color_bars_pixels.
  - apply Hfin. apply (overwrites_of_pixels _ gradient_color).
    apply gradient_pixels.
  - apply (Hfin (fun fb => memset fb 0 FB_SIZE)).
    exists (replicate (Z.to_nat FB_PIXELS) (splat 0)).
    split; [apply replicate_surface|]. intros fb Hfb. apply memset_surface.
    exact Hfb.
  - fold (fill_color LM argv).
    apply (Hfin (fun fb => for_ 0 (FB_WIDTH * FB_HEIGHT)
                             (fun i t => store32 t i (fill_color LM argv)) fb)).
    apply (overwrites_of_pixels _ (fun _ _ => fill_color LM argv)).
    intros fb Hfb. apply fill_loop_spec. exact Hfb.
Qed.

(** ** The life cycle of a run *)

Lemma acquired_exact m :
  can_open m "/dev/fb0" = true -> can_map m = true ->
  exists evs,
    0 <= fb_fd (acquired m) /\ fb_mmap_ptr (acquired m) = MAPPED /\
    vram (acquired m) = vram m /\
    trace (acquired m)
      = trace m ++ [Open "/dev/fb0" (fb_fd (acquired m)); Mmap true] ++ evs /\
    Forall console_event evs /\
    console (acquired m)
      = (if has_console m && can_set_mode m (tty_fd (acquired m)) KD_GRAPHICS
         then KD_GRAPHICS else console m) /\
    (has_console m = true ->
       0 <= tty_fd (acquired m) /\
       last evs = Some (KdSetMode (tty_fd (acquired m)) KD_GRAPHICS
                          (can_set_mode m (tty_fd (acquired m)) KD_GRAPHICS))) /\
    (has_console m = false -> tty_fd (acquired m) = -1).
Proof.
  intros Hopen Hmap. unfold acquired.
  set (m0 := set_fb_mmap_ptr MAPPED _).
  assert (H0 : trace m0 = trace m ++ [Open "/dev/fb0" (Z.max 0 (next_fd m));
                                      Mmap true] /\
               fb_fd m0 = Z.max 0 (next_fd m) /\ fb_mmap_ptr m0 = MAPPED /\
               vram m0 = vram m /\ console m0 = console m /\
               can_open m0 = can_open m /\ can_set_mode m0 = can_set_mode m).
  { subst m0. unfold sys_open, sys_mmap. rewrite Hopen. cbn -[Z.max].
    rewrite Hmap. cbn -[Z.max]. rewrite <- app_assoc. auto 10. }
  destruct H0 as (Htr & Hfd & Hptr & Hv & Hc & Hco & Hsm).
  destruct (fbcon_disable_cases m0) as (Hv' & Hfd' & Hptr' & H1 & H2 & H3).
  rewrite Hco in H1, H2, H3. rewrite Hsm, Hc in H1, H2. rewrite Hc in H3.
  unfold has_console.
  assert (Hev0 : forall fd, console_event (Open "/dev/tty0" fd))
    by (intros; left; reflexivity).
  assert (Hev1 : forall fd, console_event (Open "/dev/console" fd))
    by (intros; right; reflexivity).
  assert (Hev2 : forall fd ok, console_event (KdSetMode fd KD_GRAPHICS ok))
    by (intros; reflexivity).
  destruct (can_open m "/dev/tty0") eqn:E0; simpl orb.
  - destruct (H1 eq_refl) as (Htty & Hcon & Htr').
    eexists. split; [rewrite Hfd', Hfd; lia|]. split; [congruence|].
    split; [congruence|]. split; [|split; [|split; [exact Hcon|split]]].
    + rewrite Htr', Htr, Hfd', Hfd, <- app_assoc. reflexivity.
    + repeat first [apply Forall_nil_2 | apply Forall_cons_2; [solve [auto]|]].
    + intros _. split; [exact Htty | reflexivity].
    + discriminate.
  - destruct (can_open m "/dev/console") eqn:E1.
    + destruct (H2 eq_refl eq_refl) as (Htty & Hcon & Htr').
      eexists. split; [rewrite Hfd', Hfd; lia|]. split; [congruence|].
      split; [congruence|]. split; [|split; [|split; [exact Hcon|split]]].
      * rewrite Htr', Htr, Hfd', Hfd, <- app_assoc. reflexivity.
      * repeat first [apply Forall_nil_2 | apply Forall_cons_2; [solve [auto]|]].
      * intros _. split; [exact Htty | reflexivity].
      * discriminate.
    + destruct (H3 eq_refl eq_refl) as (Htty & Hcon & Htr').
      eexists. split; [rewrite Hfd', Hfd; lia|]. split; [congruence|].
      split; [congruence|]. split; [|split; [|split; [exact Hcon|split]]].
      * rewrite Htr', Htr, Hfd', Hfd, <- app_assoc. reflexivity.
      * repeat first [apply Forall_nil_2 | apply Forall_cons_2; [solve [auto]|]].
      * discriminate.
      * intros _. exact Htty.
Qed.

Lemma finish_exact fb m :
  0 <= fb_fd m -> fb_mmap_ptr m = MAPPED ->
  exists m', finish fb m = Some (0, m') /\
    trace m' = trace m ++ [Present (fb_fd m); Munmap; Close (fb_fd m)] /\
    fb_fd m' = -1 /\ console m' = console m /\ vram m' = fb.
Proof.
  intros Hfd Hptr. unfold finish, fb_flush. cbn.
  replace (fb_fd m <? 0) with false
    by (destruct (Z.ltb_spec (fb_fd m) 0); [lia | reflexivity]).
  rewrite Hptr. cbn. eexists. split; [reflexivity|]. cbn.
  rewrite <- !app_assoc. auto.
Qed.

(** The console descriptor and the answers of the system are the same after
    [finish]. *)
Lemma finish_console fb m r m' :
  finish fb m = Some (r, m') ->
  tty_fd m' = tty_fd m /\ can_set_mode m' = can_set_mode m.
Proof.
  unfold finish, fb_flush. cbn. intros [= _ <-].
  destruct (fb_fd m <? 0); [split; reflexivity|].
  destruct (fb_mmap_ptr m); split; reflexivity.
Qed.

Lemma render_modes_not_text mode : mode ∈ render_modes -> mode <> "text".
Proof.
  unfold render_modes. rewrite !elem_of_cons, elem_of_nil.
  intros [->|[->|[->|[->|[->|[->|[]]]]]]]; discriminate.
Qed.

(** A rendering request on a machine whose device opens and maps returns 0
    after this sequence of logged system calls: open and map the device, the
    console calls of [fbcon_disable], one present (the whole flush is one
    logged event), unmap, close.  The two screen-information queries that
    follow the open are not logged.  The global descriptor is reset.  The
    console calls are opens of the console nodes and requests for graphics
    mode only, so the run never asks for text mode again: the console is
    left in graphics mode if a console node opened and the request for
    graphics mode on it succeeded, and in the mode it had otherwise.  If a
    console node opened, its descriptor is still held at the end and the
    last console call is the request for graphics mode on it. *)
Theorem main_render_lifecycle (L : logo_tux_data) (LONG_MAX : Z)
    (argv : list string) (m : machine) :
  logo_ok L -> surface (vram m) ->
  mode_of argv ∈ render_modes ->
  can_open m "/dev/fb0" = true -> can_map m = true ->
  exists m' fd evs,
    main L LONG_MAX argv m = Some (0, m') /\ 0 <= fd /\
    trace m' = trace m ++ [Open "/dev/fb0" fd; Mmap true] ++ evs
                 ++ [Present fd; Munmap; Close fd] /\
    Forall console_event evs /\
    fb_fd m' = -1 /\
    console m'
      = (if has_console m && can_set_mode m (tty_fd m') KD_GRAPHICS
         then KD_GRAPHICS else console m) /\
    (has_console m = true ->
       0 <= tty_fd m' /\
       last evs = Some (KdSetMode (tty_fd m') KD_GRAPHICS
                          (can_set_mode m (tty_fd m') KD_GRAPHICS))) /\
    (has_console m = false -> tty_fd m' = -1) /\
    surface (vram m').
Proof.
  intros HL Hfb Hmode Hopen Hmap.
  rewrite main_acquired by (auto using render_modes_not_text).
  destruct (acquired_exact m Hopen Hmap)
    as (evs & Hfd & Hptr & Hv & Htr & Hev & Hcon & Hheld & Hnone).
  destruct (render_mode_picture L LONG_MAX argv (mode_of argv) HL Hmode)
    as (fb & Hs & Hpic).
  rewrite Hpic by (rewrite Hv; exact Hfb).
  destruct (finish_exact fb (acquired m) Hfd Hptr)
    as (m' & Hrun & Htr' & Hfd' & Hcon' & Hv').
  destruct (finish_console _ _ _ _ Hrun) as [Htty _].
  exists m', (fb_fd (acquired m)), evs. rewrite Htty.
  split; [exact Hrun|]. split; [exact Hfd|]. split.
  { rewrite Htr', Htr, <- !app_assoc. reflexivity. }
  split; [exact Hev|]. split; [exact Hfd'|].
  split; [congruence|]. split; [exact Hheld|]. split; [exact Hnone|].
  rewrite Hv'. exact Hs.
Qed.

Lemma main_render_lifecycle_witness :
  logo_ok tiny_logo /\ surface (vram good_machine) /\
  exists m', main tiny_logo (2 ^ 63 - 1) ["fb_tux"; "tux"] good_machine
             = Some (0, m') /\
    fb_fd m' = -1 /\ console m' = KD_GRAPHICS.
Proof.
  split; [exact tiny_logo_ok|]. split; [exact blank_surface|].
  assert (Hmode : mode_of ["fb_tux"; "tux"] ∈ render_modes).
  { change (mode_of ["fb_tux"; "tux"]) with "tux". unfold render_modes.
    rewrite !elem_of_cons. auto. }
  destruct (main_render_lifecycle tiny_logo (2 ^ 63 - 1) ["fb_tux"; "tux"]
              good_machine tiny_logo_ok blank_surface Hmode eq_refl eq_refl)
    as (m' & fd & evs & Hrun & _ & _ & _ & Hfd & Hcon & _).
  exists m'. split; [exact Hrun|]. split; [exact Hfd | exact Hcon].
Defined.

Lemma render_mode_unknown_exact L LM argv mode m :
  mode ∉ known_modes ->
  exists m', render_mode L LM argv mode m = Some (1, m') /\
    m' = sys_close (fb_fd m) (sys_munmap m).
Proof.
  intros Hmode. unfold known_modes in Hmode.
  rewrite !not_elem_of_cons in Hmode.
  destruct Hmode as (H1 & H2 & H3 & H4 & H5 & H6 & _).
  unfold render_mode.
  rewrite (proj2 (String.eqb_neq _ _) H1), (proj2 (String.eqb_neq _ _) H2),
    (proj2 (String.eqb_neq _ _) H3), (proj2 (String.eqb_neq _ _) H4),
    (proj2 (String.eqb_neq _ _) H5), (proj2 (String.eqb_neq _ _) H6).
  cbv zeta. eexists. split; reflexivity.
Qed.

(** An unknown request on a machine whose device opens and maps returns 1
    without presenting and with the pixels untouched, but only after the
    device was opened and mapped and [fbcon_disable] made its console calls:
    if a console node opened, graphics mode was requested on it, and the
    console is left in graphics mode if that request succeeded and in the
    mode it had otherwise.  The device is unmapped and closed. *)
Theorem main_unknown_lifecycle (L : logo_tux_data) (LONG_MAX : Z)
    (argv : list string) (m : machine) :
  mode_of argv ∉ known_modes ->
  can_open m "/dev/fb0" = true -> can_map m = true ->
  exists m' fd evs,
    main L LONG_MAX argv m = Some (1, m') /\ 0 <= fd /\
    trace m' = trace m ++ [Open "/dev/fb0" fd; Mmap true] ++ evs
                 ++ [Munmap; Close fd] /\
    Forall console_event evs /\
    console m'
      = (if has_console m && can_set_mode m (tty_fd m') KD_GRAPHICS
         then KD_GRAPHICS else console m) /\
    (has_console m = true ->
       0 <= tty_fd m' /\
       last evs = Some (KdSetMode (tty_fd m') KD_GRAPHICS
                          (can_set_mode m (tty_fd m') KD_GRAPHICS))) /\
    (has_console m = false -> tty_fd m' = -1) /\
    vram m' = vram m.
Proof.
  intros Hmode Hopen Hmap.
  assert (Ht : mode_of argv <> "text").
  { intros Heq. apply Hmode. rewrite Heq. unfold known_modes.
    rewrite !elem_of_cons. auto 10. }
  rewrite main_acquired by assumption.
  destruct (acquired_exact m Hopen Hmap)
    as (evs & Hfd & Hptr & Hv & Htr & Hev & Hcon & Hheld & Hnone).
  destruct (render_mode_unknown_exact L LONG_MAX argv (mode_of argv)
              (acquired m) Hmode) as (m' & Hrun & Hm').
  assert (Htr' : trace m' = trace (acquired m)
                            ++ [Munmap; Close (fb_fd (acquired m))])
    by (rewrite Hm'; cbn; rewrite <- app_assoc; reflexivity).
  assert (Hv' : vram m' = vram (acquired m)) by (rewrite Hm'; reflexivity).
  assert (Htty : tty_fd m' = tty_fd (acquired m)) by (rewrite Hm'; reflexivity).
  exists m', (fb_fd (acquired m)), evs. rewrite Htty.
  split; [exact Hrun|]. split; [exact Hfd|]. split.
  { rewrite Htr', Htr, <- !app_assoc. reflexivity. }
  split; [exact Hev|]. split; [|split; [exact Hheld|split; [exact Hnone|]]].
  - rewrite <- Hcon, Hm'. reflexivity.
  - rewrite Hv', Hv. reflexivity.
Qed.

Lemma main_unknown_lifecycle_witness :
  (mode_of ["fb_tux"; "bogus"] ∉ known_modes) /\
  exists m', main tiny_logo (2 ^ 63 - 1) ["fb_tux"; "bogus"] good_machine
             = Some (1, m') /\
    console m' = KD_GRAPHICS /\ vram m' = vram good_machine.
Proof.
  assert (Hun : mode_of ["fb_tux"; "bogus"] ∉ known_modes).
  { change (mode_of ["fb_tux"; "bogus"]) with "bogus". unfold known_modes.
    rewrite !not_elem_of_cons. repeat split; try discriminate.
    apply not_elem_of_nil. }
  split; [exact Hun|].
  destruct (main_unknown_lifecycle tiny_logo (2 ^ 63 - 1) ["fb_tux"; "bogus"]
              good_machine Hun eq_refl eq_refl)
    as (m' & fd & evs & Hrun & _ & _ & _ & Hcon & _ & _ & Hv).
  exists m'. split; [exact Hrun|]. split; [exact Hcon | exact Hv].
Defined.

(** ** The picture of a request *)

(** A rendering request overwrites the whole surface: the picture it leaves
    is the same whatever the device buffer held before. *)
Theorem main_picture_independent (L : logo_tux_data) (LONG_MAX : Z)
    (argv : list string) :
  logo_ok L -> mode_of argv ∈ render_modes ->
  exists fb, surface fb /\
    forall m, surface (vram m) ->
      can_open m "/dev/fb0" = true -> can_map m = true ->
      exists m', main L LONG_MAX argv m = Some (0, m') /\ vram m' = fb.
Proof.
  intros HL Hmode.
  destruct (render_mode_picture L LONG_MAX argv (mode_of argv) HL Hmode)
    as (fb & Hs & Hpic).
  exists fb. split; [exact Hs|]. intros m Hfb Hopen Hmap.
  rewrite main_acquired by (auto using render_modes_not_text).
  destruct (acquired_exact m Hopen Hmap) as (evs & Hfd & Hptr & Hv & _).
  rewrite Hpic by (rewrite Hv; exact Hfb).
  destruct (finish_exact fb (acquired m) Hfd Hptr) as (m' & Hrun & _ & _ & _ & Hv').
  exists m'. split; [exact Hrun | exact Hv'].
Qed.

Lemma main_picture_independent_witness :
  logo_ok tiny_logo /\
  exists fb, surface fb /\
    exists m', main tiny_logo (2 ^ 63 - 1) ["fb_tux"; "color"] good_machine
               = Some (0, m') /\ vram m' = fb.
Proof.
  split; [exact tiny_logo_ok|].
  assert (Hmode : mode_of ["fb_tux"; "color"] ∈ render_modes).
  { change (mode_of ["fb_tux"; "color"]) with "color". unfold render_modes.
    rewrite !elem_of_cons. auto. }
  destruct (main_picture_independent tiny_logo (2 ^ 63 - 1) ["fb_tux"; "color"]
              tiny_logo_ok Hmode) as (fb & Hs & Hall).
  exists fb. split; [exact Hs|].
  exact (Hall good_machine blank_surface eq_refl eq_refl).
Defined.

(** The [logo] request without a count, which is also the request of a bare
    command line, and the [logo] request with a count that reads as 1,
    leave the logo centred on an otherwise zero surface: its top-left corner
    is at [(320 - w/2, 240 - h/2)]. *)
Theorem main_logo_centred (L : logo_tux_data) (LONG_MAX : Z)
    (argv : list string) (m : machine) :
  logo_ok L -> surface (vram m) ->
  mode_of argv = "logo" ->
  (length argv <= 2)%nat \/ atoi LONG_MAX (nth 2 argv "") = 1 ->
  can_open m "/dev/fb0" = true -> can_map m = true ->
  exists m', main L LONG_MAX argv m = Some (0, m') /\
    forall px py, 0 <= px < FB_WIDTH -> 0 <= py < FB_HEIGHT ->
      let x0 := 320 - Z.quot (logo_linux_clut224_width L) 2 in
      let y0 := 240 - Z.quot (logo_linux_clut224_height L) 2 in
      (x0 <= px < x0 + logo_linux_clut224_width L /\
       y0 <= py < y0 + logo_linux_clut224_height L ->
         pixel (vram m') px py = logo_color L (px - x0) (py - y0)) /\
      (~ (x0 <= px < x0 + logo_linux_clut224_width L /\
          y0 <= py < y0 + logo_linux_clut224_height L) ->
         pixel (vram m') px py = Some 0).
Proof.
  intros HL Hfb Hmode Hcount Hopen Hmap.
  rewrite main_acquired by (rewrite ?Hmode; auto; discriminate).
  destruct (acquired_exact m Hopen Hmap) as (evs & Hfd & Hptr & Hv & _).
  rewrite Hmode. unfold render_mode. dispatch.
  assert (Hone : (if Z.of_nat (length argv) >? 2
                  then atoi LONG_MAX (nth 2 argv "") else 1) = 1).
  { destruct (Z.gtb_spec (Z.of_nat (length argv)) 2); [|reflexivity].
    destruct Hcount; [lia | assumption]. }
  rewrite Hone. change (1 =? 1) with true. cbv iota.
  rewrite memset_surface by (rewrite Hv; exact Hfb).
  rewrite bind_Some. change (splat 0) with 0.
  destruct (draw_official_logo_pixels L (replicate (Z.to_nat FB_PIXELS) 0)
              (Z.quot FB_WIDTH 2) (Z.quot FB_HEIGHT 2) HL (replicate_surface 0))
    as (fb' & Hrun & Hs & Hpix).
  rewrite Hrun, bind_Some.
  destruct (finish_exact fb' (acquired m) Hfd Hptr)
    as (m' & Hfin & _ & _ & _ & Hv').
  exists m'. split; [exact Hfin|]. rewrite Hv'.
  intros px py Hpx Hpy.
  specialize (Hpix px py (conj Hpx Hpy)). cbv zeta in Hpix.
  change (Z.quot FB_WIDTH 2) with 320 in Hpix.
  change (Z.quot FB_HEIGHT 2) with 240 in Hpix.
  rewrite Hpix. split; intros Hin.
  - rewrite bool_decide_eq_true_2 by exact Hin. reflexivity.
  - rewrite bool_decide_eq_false_2 by exact Hin.
    apply replicate_pixel. split; assumption.
Qed.

Lemma main_logo_centred_witness :
  logo_ok tiny_logo /\ surface (vram good_machine) /\
  exists m', main tiny_logo (2 ^ 63 - 1) ["fb_tux"] good_machine
             = Some (0, m') /\
    pixel (vram m') 320 239 = Some 0xFFFFFFFF /\
    pixel (vram m') 0 0 = Some 0.
Proof.
  split; [exact tiny_logo_ok|]. split; [exact blank_surface|].
  destruct (main_logo_centred tiny_logo (2 ^ 63 - 1) ["fb_tux"] good_machine
              tiny_logo_ok blank_surface eq_refl
              (or_introl (le_S _ _ (le_n 1))) eq_refl eq_refl)
    as (m' & Hrun & Hpix).
  exists m'. split; [exact Hrun|].
  assert (H320 : 0 <= 320 < FB_WIDTH) by (unfold FB_WIDTH; lia).
  assert (H239 : 0 <= 239 < FB_HEIGHT) by (unfold FB_HEIGHT; lia).
  assert (H0w : 0 <= 0 < FB_WIDTH) by (unfold FB_WIDTH; lia).
  assert (H0h : 0 <= 0 < FB_HEIGHT) by (unfold FB_HEIGHT; lia).
  split.
  - apply (proj1 (Hpix 320 239 H320 H239)).
    simpl. change (Z.quot 2 2) with 1. lia.
  - apply (proj2 (Hpix 0 0 H0w H0h)).
    simpl. change (Z.quot 2 2) with 1. lia.
Defined.

(** Copies asked for beyond the capacity of the grid are dropped: every
    count at or above [4 * rows_fit] draws the same picture; and a count of
    zero or less draws nothing on the zeroed surface. *)
Theorem draw_multiple_logos_saturates (L : logo_tux_data) (fb : list Z)
    (c1 c2 : Z) :
  logo_ok L -> surface fb ->
  (4 * rows_fit L <= c1 -> 4 * rows_fit L <= c2 ->
     draw_multiple_logos L fb c1 = draw_multiple_logos L fb c2) /\
  (c1 <= 0 ->
     draw_multiple_logos L fb c1 = Some (replicate (Z.to_nat FB_PIXELS) 0)).
Proof.
  intros HL Hfb. pose proof (rows_fit_nonneg L HL) as HR. split.
  - intros H1 H2. rewrite !draw_multiple_logos_tiles by assumption.
    replace (placed L c1) with (placed L c2) by (unfold placed; lia).
    reflexivity.
  - intros H0. rewrite draw_multiple_logos_tiles by assumption.
    replace (placed L c1) with 0 by (unfold placed; lia).
    apply for_empty. lia.
Qed.

Lemma draw_multiple_logos_saturates_witness :
  logo_ok tiny_logo /\ surface blank /\
  draw_multiple_logos tiny_logo blank 84 = draw_multiple_logos tiny_logo blank 1000 /\
  draw_multiple_logos tiny_logo blank (-3) = Some (replicate (Z.to_nat FB_PIXELS) 0).
Proof.
  split; [exact tiny_logo_ok|]. split; [exact blank_surface|].
  destruct (draw_multiple_logos_saturates tiny_logo blank 84 1000
              tiny_logo_ok blank_surface) as [Hsat _].
  destruct (draw_multiple_logos_saturates tiny_logo blank (-3) 0
              tiny_logo_ok blank_surface) as [_ Hzero].
  split.
  - apply Hsat; vm_compute; discriminate.
  - apply Hzero. lia.
Defined.

(** The [tux] request leaves every pixel outside the box of the figure at
    0x40404040, the word of four bytes 0x40 that the background fill
    writes. *)
Theorem main_tux_background (L : logo_tux_data) (LONG_MAX : Z)
    (argv : list string) (m : machine) :
  surface (vram m) -> mode_of argv = "tux" ->
  can_open m "/dev/fb0" = true -> can_map m = true ->
  exists m', main L LONG_MAX argv m = Some (0, m') /\
    forall px py, 0 <= px < FB_WIDTH -> 0 <= py < FB_HEIGHT ->
      ~ (246 <= px <= 394 /\ 160 <= py <= 349) ->
      pixel (vram m') px py = Some 0x40404040.
Proof.
  intros Hfb Hmode Hopen Hmap.
  rewrite main_acquired by (rewrite ?Hmode; auto; discriminate).
  destruct (acquired_exact m Hopen Hmap) as (evs & Hfd & Hptr & Hv & _).
  rewrite Hmode. unfold render_mode. dispatch.
  rewrite memset_surface by (rewrite Hv; exact Hfb).
  rewrite bind_Some. change (splat 64) with 0x40404040.
  destruct (draw_vector_tux_within _ (replicate_surface 0x40404040))
    as (fb' & Hrun & Hs & Hpix).
  rewrite Hrun, bind_Some.
  destruct (finish_exact fb' (acquired m) Hfd Hptr)
    as (m' & Hfin & _ & _ & _ & Hv').
  exists m'. split; [exact Hfin|]. rewrite Hv'.
  intros px py Hpx Hpy Hout.
  rewrite (Hpix px py (conj Hpx Hpy) Hout).
  apply replicate_pixel. split; assumption.
Qed.

Lemma main_tux_background_witness :
  surface (vram good_machine) /\
  exists m', main tiny_logo (2 ^ 63 - 1) ["fb_tux"; "tux"] good_machine
             = Some (0, m') /\
    pixel (vram m') 0 0 = Some 0x40404040.
Proof.
  split; [exact blank_surface|].
  destruct (main_tux_background tiny_logo (2 ^ 63 - 1) ["fb_tux"; "tux"]
              good_machine blank_surface eq_refl eq_refl eq_refl)
    as (m' & Hrun & Hpix).
  exists m'. split; [exact Hrun|].
  apply Hpix; unfold FB_WIDTH, FB_HEIGHT; lia.
Defined.

(** When the device cannot be opened, or opens but cannot be mapped, [main]
    returns 1 having done nothing else: no console node is opened, the
    console mode and the pixels are as they were, and a device that was
    opened is closed. *)
Theorem main_failure_lifecycle (L : logo_tux_data) (LONG_MAX : Z)
    (argv : list string) (m : machine) :
  mode_of argv <> "text" ->
  (can_open m "/dev/fb0" = false ->
     exists m', main L LONG_MAX argv m = Some (1, m') /\
       trace m' = trace m ++ [Open "/dev/fb0" (-1)] /\
       console m' = console m /\ vram m' = vram m /\ tty_fd m' = tty_fd m) /\
  (can_open m "/dev/fb0" = true -> can_map m = false ->
     exists m' fd, main L LONG_MAX argv m = Some (1, m') /\ 0 <= fd /\
       trace m' = trace m ++ [Open "/dev/fb0" fd; Mmap false; Close fd] /\
       console m' = console m /\ vram m' = vram m /\ tty_fd m' = tty_fd m).
Proof.
  intros Hmode. split.
  - intros Hopen. unfold main. fold (mode_of argv). cbv zeta.
    rewrite (proj2 (String.eqb_neq _ _) Hmode).
    unfold sys_open. rewrite Hopen. cbn.
    eexists. split; [reflexivity|]. cbn. auto.
  - intros Hopen Hmap. unfold main. fold (mode_of argv). cbv zeta.
    rewrite (proj2 (String.eqb_neq _ _) Hmode).
    unfold sys_open, sys_mmap. rewrite Hopen. cbn -[Z.max].
    replace (Z.max 0 (next_fd m) <? 0) with false
      by (destruct (Z.ltb_spec (Z.max 0 (next_fd m)) 0); [lia | reflexivity]).
    rewrite Hmap. cbn -[Z.max].
    eexists. exists (Z.max 0 (next_fd m)). split; [reflexivity|].
    split; [lia|]. cbn -[Z.max]. rewrite <- !app_assoc. auto.
Qed.

Lemma main_failure_lifecycle_witness :
  mode_of ["fb_tux"; "clear"] <> "text" /\
  exists m', main tiny_logo (2 ^ 63 - 1) ["fb_tux"; "clear"]
               (boot (fun _ => false) true (fun _ _ => true) blank KD_TEXT) = Some (1, m') /\
    trace m' = [Open "/dev/fb0" (-1)].
Proof.
  assert (Hmode : mode_of ["fb_tux"; "clear"] <> "text") by discriminate.
  split; [exact Hmode|].
  destruct (proj1 (main_failure_lifecycle tiny_logo (2 ^ 63 - 1)
                     ["fb_tux"; "clear"]
                     (boot (fun _ => false) true (fun _ _ => true) blank KD_TEXT) Hmode) eq_refl)
    as (m' & Hrun & Htr & _).
  exists m'. split; [exact Hrun | exact Htr].
Defined.
